(** * MODIS HDF to GeoTIFF converter: a shallow embedding and its properties

    The development follows [scripts/converter.py] and [scripts/skill.py].
    Python values are modelled as follows.

    - A [str] is a [string]; each character stands for the code point of
      the same number, so the texts covered are those over the code points
      0..255.
    - A [float] is an IEEE-754 binary64 value, a [spec_float] with
      precision 53 and maximal exponent 1024; the operations are the
      correctly rounded ones of the Standard Library's [SpecFloat].
    - An [int] is a [Z].
    - A call that can raise returns an [outcome]; the functions that touch
      files and archives run in a state-and-exception monad [M] over the
      file system and the log of archive-handle events.
    - Paths are those of [posixpath], and a path is the text that names
      it: the file system is a map from these texts, which are not
      normalized, so two texts are two paths.  The calls to [print] and
      the progress bar around the loop over the datasets are left out.
    - A function that prompts takes the lines that are left on the
      standard input; [input()] at their end ends the function. *)

From Stdlib Require Import ZArith Ascii String List Bool Lia.
From Stdlib Require Import Floats.SpecFloat.
From stdpp Require Import base option list gmap strings.

Local Open Scope Z_scope.

(** ** Python strings *)

Module PyStr.

(** [s[len(p):]] when [s.startswith(p)]. *)
Fixpoint strip_prefix (p s : string) : option string :=
  match p, s with
  | EmptyString, _ => Some s
  | String a p', String b s' =>
      if Ascii.eqb a b then strip_prefix p' s' else None
  | String _ _, EmptyString => None
  end.

(** [sub in s]. *)
Fixpoint contains (sub s : string) : bool :=
  match strip_prefix sub s with
  | Some _ => true
  | None =>
      match s with
      | EmptyString => false
      | String _ s' => contains sub s'
      end
  end.

(** [x in l] for a list of strings. *)
Definition mem (x : string) (l : list string) : bool :=
  existsb (String.eqb x) l.

(** [s.replace(a, b)] for one-character [a] and [b]. *)
Fixpoint replace_char (a b : ascii) (s : string) : string :=
  match s with
  | EmptyString => EmptyString
  | String c s' =>
      String (if Ascii.eqb c a then b else c) (replace_char a b s')
  end.

Definition lower_char (c : ascii) : ascii :=
  let n := N_of_ascii c in
  if ((65 <=? n) && (n <=? 90))%N then ascii_of_N (n + 32)
  else if ((192 <=? n) && (n <=? 222) && negb (n =? 215))%N
       then ascii_of_N (n + 32)
  else c.

(** [s.lower()]. *)
Fixpoint lower (s : string) : string :=
  match s with
  | EmptyString => EmptyString
  | String c s' => String (lower_char c) (lower s')
  end.

(** [s.split(c)] for a one-character separator. *)
Fixpoint split_on (c : ascii) (s : string) : list string :=
  match s with
  | EmptyString => [EmptyString]
  | String a s' =>
      if Ascii.eqb a c then EmptyString :: split_on c s'
      else match split_on c s' with
           | h :: t => String a h :: t
           | [] => [String a EmptyString]
           end
  end.

(** Code points for which [str.isspace] holds, below 256. *)
Definition is_space (c : ascii) : bool :=
  let n := N_of_ascii c in
  (((9 <=? n) && (n <=? 13)) || ((28 <=? n) && (n <=? 32))
   || (n =? 133) || (n =? 160))%N.

Definition is_digit (c : ascii) : bool :=
  let n := N_of_ascii c in ((48 <=? n) && (n <=? 57))%N.

Fixpoint lstrip (s : string) : string :=
  match s with
  | String c s' => if is_space c then lstrip s' else s
  | EmptyString => EmptyString
  end.

Fixpoint rstrip (s : string) : string :=
  match s with
  | EmptyString => EmptyString
  | String c s' =>
      match rstrip s' with
      | EmptyString => if is_space c then EmptyString else String c EmptyString
      | r => String c r
      end
  end.

(** [s.strip()]. *)
Definition strip (s : string) : string := rstrip (lstrip s).

(** The longest prefix of [s] whose characters satisfy [p], and the rest. *)
Fixpoint span (p : ascii -> bool) (s : string) : string * string :=
  match s with
  | String c s' =>
      if p c then let '(a, b) := span p s' in (String c a, b)
      else (EmptyString, s)
  | EmptyString => (EmptyString, EmptyString)
  end.

Definition is_empty (s : string) : bool :=
  match s with EmptyString => true | _ => false end.

(** [s[i:j]] for [0 <= i <= j]. *)
Definition slice (i j : nat) (s : string) : string :=
  String.substring i (j - i) s.

End PyStr.

(** ** Python numbers *)

(** Exceptions that the modelled code can meet. *)
Inductive exn : Set :=
| ValueError | TypeError | ZeroDivisionError | OverflowError
| IndexError | OSError | HDF4Error.

(** The result of a call that may raise. *)
Inductive outcome (A : Type) : Type :=
| Ret (a : A)
| Raise (e : exn).
Arguments Ret {A} a.
Arguments Raise {A} e.

Module PyNum.
Import PyStr.

Definition prec : Z := 53.
Definition emax : Z := 1024.

Definition fzero : spec_float := S754_zero false.
Definition fsub : spec_float -> spec_float -> spec_float := SFsub prec emax.
Definition fabs : spec_float -> spec_float := SFabs.
Definition fneg : spec_float -> spec_float := SFopp.

(** [m * 10 ** e10] rounded to the nearest binary64, ties to even, with
    the sign [neg]; an overflow gives an infinity.  This is the value
    that the runtime's decimal-to-double conversion returns. *)
Definition of_decimal (neg : bool) (m : N) (e10 : Z) : spec_float :=
  match m with
  | N0 => S754_zero neg
  | Npos p =>
      match e10 with
      | Zneg k =>
          let '(q, e, l) :=
            SFdiv_core_binary prec emax (Zpos p) 0 (Zpos (10 ^ k)) 0 in
          binary_round_aux prec emax neg q e l
      | _ => binary_round prec emax neg (p * Z.to_pos (10 ^ e10)) 0
      end
  end.

(** [float(z)] for an int [z]: [OverflowError] when [z] is too large. *)
Definition float_of_int (z : Z) : outcome spec_float :=
  match binary_normalize prec emax z 0 false with
  | S754_infinity _ => Raise OverflowError
  | f => Ret f
  end.

Definition is_fzero (f : spec_float) : bool :=
  match f with S754_zero _ => true | _ => false end.

(** [a / n] for a float [a] and an int [n]: the int is converted first,
    then a zero divisor raises. *)
Definition fdiv_int (a : spec_float) (n : Z) : outcome spec_float :=
  match float_of_int n with
  | Raise e => Raise e
  | Ret b =>
      if is_fzero b then Raise ZeroDivisionError
      else Ret (SFdiv prec emax a b)
  end.

(** Underscores of a numeric literal: allowed only between two digits.
    [prev] is the character before [s]. *)
Fixpoint drop_underscores (prev : ascii) (s : string) : option string :=
  match s with
  | EmptyString => if Ascii.eqb prev "_" then None else Some EmptyString
  | String c s' =>
      if Ascii.eqb c "_" then
        if is_digit prev then drop_underscores c s' else None
      else if Ascii.eqb prev "_" && negb (is_digit c) then None
      else option_map (String c) (drop_underscores c s')
  end.

Definition digit_val (c : ascii) : N := (N_of_ascii c - 48)%N.

(** The number written by a string of decimal digits. *)
Fixpoint digits_val (acc : N) (s : string) : N :=
  match s with
  | EmptyString => acc
  | String c s' => digits_val (10 * acc + digit_val c)%N s'
  end.

(** An optional sign: whether it is a minus, and the rest. *)
Definition take_sign (s : string) : bool * string :=
  match s with
  | String "-" s' => (true, s')
  | String "+" s' => (false, s')
  | _ => (false, s)
  end.

(** The default of [sys.get_int_max_str_digits()] (CPython 3.11 on). *)
Definition int_max_str_digits : nat := 4300.

(** [int(s)] in base 10. *)
Definition py_int (s : string) : outcome Z :=
  let '(neg, body) := take_sign (strip s) in
  match drop_underscores "000" body with
  | None => Raise ValueError
  | Some ds =>
      let '(d, rest) := span is_digit ds in
      if is_empty d || negb (is_empty rest) then Raise ValueError
      else if (int_max_str_digits <? String.length d)%nat then Raise ValueError
      else let v := Z.of_N (digits_val 0 d) in
           Ret (if neg then - v else v)
  end.

(** The exponent part of a float literal: [e] or [E], an optional sign
    and at least one digit.  [None] when [s] is not such a part, and the
    exponent 0 when [s] is empty. *)
Definition exponent_part (s : string) : option Z :=
  match s with
  | EmptyString => Some 0
  | String c s' =>
      if Ascii.eqb c "e" || Ascii.eqb c "E" then
        let '(neg, body) := take_sign s' in
        let '(d, rest) := span is_digit body in
        if is_empty d || negb (is_empty rest) then None
        else let v := Z.of_N (digits_val 0 d) in
             Some (if neg then - v else v)
      else None
  end.

(** [float(s)] for a str [s]. *)
Definition py_float (s : string) : outcome spec_float :=
  match drop_underscores "000" (strip s) with
  | None => Raise ValueError
  | Some t =>
      let '(neg, body) := take_sign t in
      let low := lower body in
      if String.eqb low "inf" || String.eqb low "infinity"
      then Ret (S754_infinity neg)
      else if String.eqb low "nan" then Ret S754_nan
      else
        let '(ip, r1) := span is_digit body in
        let '(fp, r2) :=
          match r1 with
          | String "." r => span is_digit r
          | _ => (EmptyString, r1)
          end in
        if is_empty ip && is_empty fp then Raise ValueError
        else match exponent_part r2 with
             | None => Raise ValueError
             | Some ex =>
                 Ret (of_decimal neg (digits_val (digits_val 0 ip) fp)
                        (ex - Z.of_nat (String.length fp)))
             end
  end.

End PyNum.

(** ** Regular expressions of the metadata extractor *)

Module Re.
Import PyStr.

(** [re.search] tries a pattern at every position from left to right;
    [at_start] is the pattern tried at the start of a text. *)
Fixpoint search {A : Type} (at_start : string -> option A) (s : string)
  : option A :=
  match at_start s with
  | Some r => Some r
  | None =>
      match s with
      | EmptyString => None
      | String _ s' => search at_start s'
      end
  end.

Definition other_than (c : ascii) : ascii -> bool :=
  fun a => negb (Ascii.eqb a c).

(** [key=\(([^,]+),([^)]+)\)] at the start of [s]: the two groups.  A
    class [[^,]+] takes every character up to the next comma, and taking
    fewer never helps, the character after a shorter run being no
    comma; likewise for [[^)]+]. *)
Definition pair_at (key s : string) : option (string * string) :=
  match strip_prefix (key ++ "=(") s with
  | None => None
  | Some r =>
      let '(g1, r1) := span (other_than ",") r in
      match r1 with
      | String "," r2 =>
          let '(g2, r3) := span (other_than ")") r2 in
          match r3 with
          | String ")" _ =>
              if is_empty g1 || is_empty g2 then None else Some (g1, g2)
          | _ => None
          end
      | _ => None
      end
  end.

(** [key=(\d+)] at the start of [s]: the group. *)
Definition dim_at (key s : string) : option string :=
  match strip_prefix (key ++ "=") s with
  | None => None
  | Some r =>
      let '(d, _) := span is_digit r in
      if is_empty d then None else Some d
  end.

Definition search_pair (key : string) : string -> option (string * string) :=
  search (pair_at key).

Definition search_dim (key : string) : string -> option string :=
  search (dim_at key).

End Re.

(** ** Paths ([posixpath]) *)

Module OsPath.
Import PyStr.

(** [(p[:i], p[i:])] for [i = p.rfind('/') + 1], when [p] has a slash. *)
Fixpoint split_last_slash (p : string) : option (string * string) :=
  match p with
  | EmptyString => None
  | String a p' =>
      match split_last_slash p' with
      | Some (h, t) => Some (String a h, t)
      | None =>
          if Ascii.eqb a "/" then Some (String a EmptyString, p') else None
      end
  end.

Definition basename (p : string) : string :=
  match split_last_slash p with
  | Some (_, t) => t
  | None => p
  end.

(** [s.rstrip('/')]. *)
Fixpoint rstrip_slash (s : string) : string :=
  match s with
  | EmptyString => EmptyString
  | String c s' =>
      match rstrip_slash s' with
      | EmptyString =>
          if Ascii.eqb c "/" then EmptyString else String c EmptyString
      | r => String c r
      end
  end.

(** The head is stripped of its trailing slashes unless it is made of
    slashes only. *)
Definition dirname (p : string) : string :=
  match split_last_slash p with
  | Some (h, _) =>
      match rstrip_slash h with
      | EmptyString => h
      | r => r
      end
  | None => EmptyString
  end.

(** [os.path.split(p)]. *)
Definition split (p : string) : string * string := (dirname p, basename p).

Fixpoint ends_with_slash (s : string) : bool :=
  match s with
  | EmptyString => false
  | String c EmptyString => Ascii.eqb c "/"
  | String _ s' => ends_with_slash s'
  end.

(** [os.path.join(a, b)]. *)
Definition join (a b : string) : string :=
  match b with
  | String "/" _ => b
  | _ =>
      if is_empty a || ends_with_slash a then a ++ b
      else a ++ "/" ++ b
  end.

End OsPath.

(** ** Date of a MODIS file name *)

Module ModisDate.
Import PyStr PyNum.

(** Days before January 1st of year [y] in the proleptic Gregorian
    calendar. *)
Definition days_before_year (y : Z) : Z :=
  let p := y - 1 in p * 365 + p / 4 - p / 100 + p / 400.

(** The ordinal of 9999-12-31, [date.max.toordinal()]. *)
Definition max_ordinal : Z := 3652059.

(** Year, month and day of the date with ordinal [n] (ordinal 1 is
    0001-01-01). *)
Definition ymd_of_ordinal (n : Z) : Z * Z * Z :=
  let z := n + 305 in
  let era := z / 146097 in
  let doe := z - era * 146097 in
  let yoe := (doe - doe / 1460 + doe / 36524 - doe / 146096) / 365 in
  let doy := doe - (365 * yoe + yoe / 4 - yoe / 100) in
  let mp := (5 * doy + 2) / 153 in
  let d := doy - (153 * mp + 2) / 5 + 1 in
  let m := if mp <? 10 then mp + 3 else mp - 9 in
  let y := yoe + era * 400 + (if m <=? 2 then 1 else 0) in
  (y, m, d).

Definition digit_char (d : Z) : ascii := ascii_of_N (48 + Z.to_N d).

(** [n] written with [w] decimal digits, zero-padded. *)
Fixpoint zero_padded (w : nat) (n : Z) : string :=
  match w with
  | O => EmptyString
  | S w' => zero_padded w' (n / 10) ++ String (digit_char (n mod 10)) EmptyString
  end.

(** [datetime(year, 1, 1) + timedelta(days=days)], as year, month and
    day: [ValueError] for a year outside 1..9999 and [OverflowError]
    for a date outside 0001-01-01..9999-12-31. *)
Definition jan1_plus (year days : Z) : outcome (Z * Z * Z) :=
  if (year <? 1) || (9999 <? year) then Raise ValueError
  else
    let n := days_before_year year + 1 + days in
    if (n <? 1) || (max_ordinal <? n) then Raise OverflowError
    else Ret (ymd_of_ordinal n).

(** The year as [%Y] writes it.  The C library writes the number with as
    many digits as it has: four from 1000 on, fewer below, without
    padding. *)
Definition year_text (y : Z) : string :=
  if y <? 10 then zero_padded 1 y
  else if y <? 100 then zero_padded 2 y
  else if y <? 1000 then zero_padded 3 y
  else zero_padded 4 y.

(** [date.strftime('%Y%m%d')]: the year unpadded, the month and the day
    with two digits each. *)
Definition strftime_Ymd (d : Z * Z * Z) : string :=
  let '(y, m, dd) := d in
  year_text y ++ zero_padded 2 m ++ zero_padded 2 dd.

(** [parse_modis_date(filename)]: every exception is caught and gives
    [None]. *)
Definition parse_modis_date (filename : string) : option string :=
  let parts := split_on "." filename in
  if (length parts <? 2)%nat then None
  else
    let date_part := nth 1 parts EmptyString in
    if negb (String.length date_part =? 8)%nat
       || negb (String.eqb (slice 0 1 date_part) "A")
    then None
    else
      match py_int (slice 1 5 date_part) with
      | Raise _ => None
      | Ret year =>
          match py_int (slice 5 8 date_part) with
          | Raise _ => None
          | Ret doy =>
              match jan1_plus year (doy - 1) with
              | Raise _ => None
              | Ret d => Some (strftime_Ymd d)
              end
          end
      end.

End ModisDate.

(** ** The outside world: archives, rasters, files *)

(** A value of an HDF attribute as [pyhdf] returns it. *)
Inductive attr_value : Type :=
| AInt (z : Z)
| AFloat (f : spec_float)
| AStr (s : string)
| ASeq (l : list Z).

(** A Python dict in insertion order. *)
Definition attrs : Type := list (string * attr_value).

(** [d.get(key, default)]. *)
Fixpoint dict_get (key : string) (d : attrs) (default : attr_value)
  : attr_value :=
  match d with
  | [] => default
  | (k, v) :: d' => if String.eqb k key then v else dict_get key d' default
  end.

(** The keys of the dict that is filled by assigning to the keys [l] one
    after the other: each key once, at the place where it first came. *)
Fixpoint dict_keys (l : list string) : list string :=
  match l with
  | [] => []
  | k :: rest =>
      k :: List.filter (fun x => negb (String.eqb x k)) (dict_keys rest)
  end.

(** One scientific dataset of an archive: its name, and what
    [select(name)], [get()] and [attributes()] give, the shape of the grid
    and the attributes, or [None] when reading it raises. *)
Record dataset : Type := {
  ds_name : string;
  ds_read : option (list nat * attrs)
}.

(** An archive: its global attributes and its datasets in their native
    order.  Several datasets may bear the same name; [select(name)] then
    gives the first of them. *)
Record archive : Type := {
  ar_attrs : attrs;
  ar_datasets : list dataset
}.

(** An output raster as the writer holds it. *)
Record raster : Type := {
  r_size : nat * nat;
  r_geotransform : option (list spec_float);
  r_projection : option string;
  r_band : option string;
  r_nodata : option spec_float;
  r_metadata : option attrs
}.

Inductive file : Type :=
| Dir
| Blob
| Hdf (a : archive)
| Raster (r : raster).

(** What the operating system and the raster library decide on their own. *)
Record env : Type := {
  gtiff_driver : bool;
  create_fails : string -> bool;
  remove_denied : string -> bool;
  mkdir_denied : string -> bool
}.

(** Events on archive handles, oldest first: [SD(...)], a reading through
    the handle, and [end()].  Only the calls of the code are events; what
    a finalizer of the runtime may close later is none. *)
Inductive event : Set :=
| EOpen (h : nat)
| EUse (h : nat)
| EEnd (h : nat).

Record state : Type := {
  os : env;
  fs : gmap string file;
  log : list event
}.

Definition set_fs (f : gmap string file -> gmap string file) (st : state)
  : state :=
  {| os := os st; fs := f (fs st); log := log st |}.

Definition add_event (e : event) (st : state) : state :=
  {| os := os st; fs := fs st; log := log st ++ [e] |}.

(** ** The monad of the effectful code *)

Definition M (A : Type) : Type := state -> outcome A * state.

#[global] Instance M_ret : MRet M := fun A a st => (Ret a, st).

#[global] Instance M_bind : MBind M := fun A B f m st =>
  match m st with
  | (Ret a, st') => f a st'
  | (Raise e, st') => (Raise e, st')
  end.

Definition raise {A : Type} (e : exn) : M A := fun st => (Raise e, st).

Definition lift {A : Type} (o : outcome A) : M A := fun st => (o, st).

(** [try: body except Exception: handler]. *)
Definition try_except {A : Type} (body : M A) (handler : exn -> M A) : M A :=
  fun st =>
    match body st with
    | (Ret a, st') => (Ret a, st')
    | (Raise e, st') => handler e st'
    end.

(** *** Files *)

Definition os_path_exists (p : string) : M bool :=
  fun st => (Ret (bool_decide (is_Some (fs st !! p))), st).

(** [os.remove(p)]: a directory, a missing path or a refusal of the
    system raises. *)
Definition os_remove (p : string) : M unit :=
  fun st =>
    match fs st !! p with
    | Some Dir | None => (Raise OSError, st)
    | Some _ =>
        if remove_denied (os st) p then (Raise OSError, st)
        else (Ret tt, set_fs (delete p) st)
    end.

(** [os.path.isdir(p)]. *)
Definition os_path_isdir (p : string) : M bool :=
  fun st =>
    (Ret (match fs st !! p with
          | Some Dir => negb (PyStr.is_empty p)
          | _ => false
          end), st).

(** The directory that holds [p] and the name of [p] in it: the head and
    the tail of [p], those of the head when [p] ends with a slash.  These
    are the first two lines of [os.makedirs]. *)
Definition split_parent (p : string) : string * string :=
  let '(head, tail) := OsPath.split p in
  if PyStr.is_empty tail then OsPath.split head else (head, tail).

(** [os.mkdir(p)]: the empty path, a path at which something is, a
    parent that is no directory and a refusal of the system raise.  A
    path without a parent to name, a single name or slashes only, is made
    in a directory that is there. *)
Definition os_mkdir (p : string) : M unit :=
  fun st =>
    if PyStr.is_empty p then (Raise OSError, st)
    else match fs st !! p with
         | Some _ => (Raise OSError, st)
         | None =>
             let '(head, tail) := split_parent p in
             if PyStr.is_empty head || PyStr.is_empty tail
                || match fs st !! head with Some Dir => true | _ => false end
             then
               if mkdir_denied (os st) p then (Raise OSError, st)
               else (Ret tt, set_fs (insert p Dir) st)
             else (Raise OSError, st)
         end.

(** The path [p] names a directory that was made under another name, as
    [xxx/newdir/.] does once [xxx/newdir] is made: it is recorded as a
    directory.  No file system holds a file there, and a map that does is
    refused. *)
Definition dir_is_there (p : string) : M unit :=
  fun st =>
    match fs st !! p with
    | None => (Ret tt, set_fs (insert p Dir) st)
    | Some Dir => (Ret tt, st)
    | Some _ => (Raise OSError, st)
    end.

(** [os.makedirs(name, exist_ok=True)], as the library defines it: the
    head is made first, with the directories above it, when it is
    missing; then [name] itself, and the exception of [os.mkdir] is
    dropped when [name] is a directory.  The inner call runs on a head
    that was found missing, so what it raises is no [FileExistsError] and
    goes on to the caller.  The recursion is on ever shorter heads;
    [fuel] bounds its depth. *)
Fixpoint makedirs (fuel : nat) (name : string) : M unit :=
  match fuel with
  | O => raise OSError
  | S fuel' =>
      let '(head, tail) := split_parent name in
      made ←
        (if negb (PyStr.is_empty head) && negb (PyStr.is_empty tail) then
           present ← os_path_exists head;
           if present : bool then mret false
           else makedirs fuel' head ;; mret true
         else mret false);
      if (made : bool) && String.eqb tail "." then dir_is_there name
      else
        try_except (os_mkdir name)
          (fun e =>
             isdir ← os_path_isdir name;
             if isdir : bool then mret tt else raise e)
  end.

(** A head is shorter than its path, so the length of the path is fuel
    enough. *)
Definition os_makedirs (p : string) : M unit :=
  makedirs (S (String.length p)) p.

(** *** Archive handles *)

Record handle : Type := {
  h_id : nat;
  h_archive : archive
}.

Definition event_id (e : event) : nat :=
  match e with EOpen h | EUse h | EEnd h => h end.

(** The number of a new handle: above every number in the log. *)
Definition fresh_handle (l : list event) : nat :=
  foldr (fun e n => Nat.max (S (event_id e)) n) O l.

Definition ended (h : nat) (l : list event) : bool :=
  existsb (fun e => match e with EEnd k => Nat.eqb k h | _ => false end) l.

(** The handles opened in a log and not ended in it. *)
Definition open_handles (l : list event) : list nat :=
  List.filter (fun h => negb (ended h l))
    (omap (fun e => match e with EOpen h => Some h | _ => None end) l).

(** [SD(path, SDC.READ)]. *)
Definition SD (path : string) : M handle :=
  fun st =>
    match fs st !! path with
    | Some (Hdf a) =>
        let h := fresh_handle (log st) in
        (Ret {| h_id := h; h_archive := a |}, add_event (EOpen h) st)
    | _ => (Raise HDF4Error, st)
    end.

(** Any reading through a handle; an ended handle raises. *)
Definition sd_use (h : handle) : M unit :=
  fun st =>
    if ended (h_id h) (log st) then (Raise HDF4Error, st)
    else (Ret tt, add_event (EUse (h_id h)) st).

(** [hdf_ds.attributes()]. *)
Definition sd_attributes (h : handle) : M attrs :=
  sd_use h ;; mret (ar_attrs (h_archive h)).

(** [hdf_ds.datasets().keys()]: [datasets()] fills a dict with an entry
    under the name of each dataset, in the native order, so a name that
    several datasets bear is a key once. *)
Definition sd_datasets (h : handle) : M (list string) :=
  sd_use h ;; mret (dict_keys (map ds_name (ar_datasets (h_archive h)))).

(** [hdf_ds.select(name)], [dataset.get()] and [dataset.attributes()]. *)
Definition sd_read (h : handle) (name : string) : M (list nat * attrs) :=
  sd_use h ;;
  match List.find (fun d => String.eqb (ds_name d) name)
          (ar_datasets (h_archive h)) with
  | Some d =>
      match ds_read d with
      | Some r => mret r
      | None => raise HDF4Error
      end
  | None => raise HDF4Error
  end.

(** [hdf_ds.end()]. *)
Definition sd_end (h : handle) : M unit :=
  fun st =>
    if ended (h_id h) (log st) then (Raise HDF4Error, st)
    else (Ret tt, add_event (EEnd (h_id h)) st).

(** ** [converter.py] *)

Module Converter.
Import PyStr PyNum.

Record projection_info : Type := {
  geotransform : option (list spec_float);
  projection_wkt : option string;
  resolution : option spec_float
}.

(** The text given to [ImportFromWkt], written here with an apostrophe
    for each quotation mark; [projection_wkt] is what [ExportToWkt] gives
    back for it. *)
Definition sinusoidal_wkt : string :=
  replace_char "'" "034"
    ("PROJCS['unnamed',GEOGCS['Unknown datum based upon the custom spheroid',"
     ++ "DATUM['Not specified (based on custom spheroid)',"
     ++ "SPHEROID['Custom spheroid',6371007.181,0]],PRIMEM['Greenwich',0],"
     ++ "UNIT['degree',0.0174532925199433,AUTHORITY['EPSG','9122']]],"
     ++ "PROJECTION['Sinusoidal'],PARAMETER['longitude_of_center',0],"
     ++ "PARAMETER['false_easting',0],PARAMETER['false_northing',0],"
     ++ "UNIT['metre',1,AUTHORITY['EPSG','9001']],"
     ++ "AXIS['Easting',EAST],AXIS['Northing',NORTH]]").

(** [re.search(pattern, text)] on an attribute value: a value that is not
    a str raises [TypeError]. *)
Definition re_search {A : Type} (pat : string -> option A) (text : attr_value)
  : M (option A) :=
  match text with
  | AStr s => mret (pat s)
  | _ => raise TypeError
  end.

(** [global_attrs.get('StructMetadata.0', '')]. *)
Definition struct_metadata_of (global_attrs : attrs) : attr_value :=
  dict_get "StructMetadata.0" global_attrs (AStr "").

Definition get_modis_projection_info (hdf_file : string)
  : M (option projection_info) :=
  try_except
    (hdf_ds ← SD hdf_file;
     global_attrs ← sd_attributes hdf_ds;
     let struct_metadata := struct_metadata_of global_attrs in
     upper_left_match ←
       re_search (Re.search_pair "UpperLeftPointMtrs") struct_metadata;
     lower_right_match ←
       re_search (Re.search_pair "LowerRightMtrs") struct_metadata;
     xdim_match ← re_search (Re.search_dim "XDim") struct_metadata;
     ydim_match ← re_search (Re.search_dim "YDim") struct_metadata;
     match upper_left_match, lower_right_match, xdim_match, ydim_match with
     | Some ul, Some lr, Some xd, Some yd =>
         ul_x ← lift (py_float ul.1);
         ul_y ← lift (py_float ul.2);
         lr_x ← lift (py_float lr.1);
         lr_y ← lift (py_float lr.2);
         xdim ← lift (py_int xd);
         ydim ← lift (py_int yd);
         resolution_x ← lift (fdiv_int (fsub lr_x ul_x) xdim);
         resolution_y ← lift (fdiv_int (fsub lr_y ul_y) ydim);
         let resolution := fabs resolution_x in
         let geotransform :=
           [ul_x; resolution; fzero; ul_y; fzero; fneg resolution] in
         sd_end hdf_ds ;;
         mret (Some {| geotransform := Some geotransform;
                       projection_wkt := Some sinusoidal_wkt;
                       resolution := Some resolution |})
     | _, _, _, _ =>
         sd_end hdf_ds ;;
         mret None
     end)
    (fun _ => mret None).

(** [dataset_name.replace(' ', '_').replace('/', '_').replace('\\', '_')]. *)
Definition safe_dataset_name (dataset_name : string) : string :=
  replace_char "092" "_"
    (replace_char "/" "_" (replace_char " " "_" dataset_name)).

(** Truth value of an optional str. *)
Definition truthy_str (s : option string) : bool :=
  match s with
  | Some t => negb (is_empty t)
  | None => false
  end.

(** The output file name of a dataset; without a parsed date the second
    dot-separated part of the base name is used, and a base name without
    a dot raises [IndexError]. *)
Definition output_filename (hdf_basename : string) (date_str : option string)
    (dataset_name : string) : outcome string :=
  let parts := split_on "." hdf_basename in
  let product_type := nth 0 parts EmptyString in
  if truthy_str date_str then
    Ret (product_type ++ "_" ++ default EmptyString date_str ++ "_"
           ++ safe_dataset_name dataset_name ++ ".tif")%string
  else
    match parts with
    | _ :: date_part :: _ =>
        Ret (product_type ++ "_" ++ date_part ++ "_"
               ++ safe_dataset_name dataset_name ++ ".tif")%string
    | _ => Raise IndexError
    end.

(** [gdal.GetDriverByName('GTiff')]. *)
Definition gdal_driver : M bool := fun st => (Ret (gtiff_driver (os st)), st).

(** [driver.Create(path, x_size, y_size, 1, gdal.GDT_Float32)]: whether a
    raster came back; a raster that does is a file at [path]. *)
Definition gdal_create (path : string) (x_size y_size : nat) : M bool :=
  fun st =>
    if create_fails (os st) path then (Ret false, st)
    else (Ret true,
          set_fs (insert path
                    (Raster {| r_size := (x_size, y_size);
                               r_geotransform := None;
                               r_projection := None;
                               r_band := None;
                               r_nodata := None;
                               r_metadata := None |})) st).

(** A setter of the raster that was created at [path]. *)
Definition update_raster (path : string) (f : raster -> raster) : M unit :=
  fun st =>
    (Ret tt,
     set_fs (alter (fun x => match x with
                             | Raster r => Raster (f r)
                             | other => other
                             end) path) st).

Definition set_geotransform (gt : list spec_float) (r : raster) : raster :=
  {| r_size := r_size r; r_geotransform := Some gt;
     r_projection := r_projection r; r_band := r_band r;
     r_nodata := r_nodata r; r_metadata := r_metadata r |}.

Definition set_projection (wkt : string) (r : raster) : raster :=
  {| r_size := r_size r; r_geotransform := r_geotransform r;
     r_projection := Some wkt; r_band := r_band r;
     r_nodata := r_nodata r; r_metadata := r_metadata r |}.

(** [WriteArray(data)]: the band holds the grid of the named dataset. *)
Definition write_array (dataset_name : string) (r : raster) : raster :=
  {| r_size := r_size r; r_geotransform := r_geotransform r;
     r_projection := r_projection r; r_band := Some dataset_name;
     r_nodata := r_nodata r; r_metadata := r_metadata r |}.

Definition set_nodata (v : spec_float) (r : raster) : raster :=
  {| r_size := r_size r; r_geotransform := r_geotransform r;
     r_projection := r_projection r; r_band := r_band r;
     r_nodata := Some v; r_metadata := r_metadata r |}.

(** [SetMetadata]: the values are kept as they are, their [str] text is
    the runtime's. *)
Definition set_metadata (m : attrs) (r : raster) : raster :=
  {| r_size := r_size r; r_geotransform := r_geotransform r;
     r_projection := r_projection r; r_band := r_band r;
     r_nodata := r_nodata r; r_metadata := Some m |}.

(** The double that [SetNoDataValue(v)] receives; a str or a sequence
    raises [TypeError]. *)
Definition as_double (v : attr_value) : outcome spec_float :=
  match v with
  | AInt z => float_of_int z
  | AFloat f => Ret f
  | AStr _ | ASeq _ => Raise TypeError
  end.

Definition is_nodata_key (key : string) : bool :=
  contains "no data" (lower key) || contains "nodata" (lower key).

(** The loop over [attrs.items()] that stops at the first no-data key. *)
Fixpoint scan_nodata (items : attrs) : option attr_value :=
  match items with
  | [] => None
  | (key, value) :: rest =>
      if is_nodata_key key then Some value else scan_nodata rest
  end.

(** The argument of [SetNoDataValue], when it is called. *)
Definition nodata_argument (dataset_name : string) (items : attrs)
  : option attr_value :=
  if contains "NDVI" dataset_name || contains "EVI" dataset_name
  then Some (AInt (-3000))
  else scan_nodata items.

(** Truth value of [projection_info and projection_info['geotransform']]. *)
Definition usable_geotransform (pi : option projection_info)
  : option (projection_info * list spec_float) :=
  match pi with
  | Some i =>
      match geotransform i with
      | Some (x :: gt) => Some (i, x :: gt)
      | _ => None
      end
  | None => None
  end.

(** The [try] block of one dataset; [continue] leaves [output_files] as
    it is. *)
Definition materialize (hdf_ds : handle) (pi : option projection_info)
    (output_path dataset_name : string) (output_files : list string)
  : M (list string) :=
  try_except
    ('(shape, items) ← sd_read hdf_ds dataset_name;
     driver ← gdal_driver;
     if negb driver then mret output_files
     else
       match shape with
       | [y_size; x_size] =>
           out_ds ← gdal_create output_path x_size y_size;
           if negb out_ds then mret output_files
           else
             match usable_geotransform pi with
             | None => mret output_files
             | Some (info, gt) =>
                 update_raster output_path (set_geotransform gt) ;;
                 update_raster output_path
                   (set_projection
                      (if truthy_str (projection_wkt info)
                       then default EmptyString (projection_wkt info)
                       else sinusoidal_wkt)) ;;
                 update_raster output_path (write_array dataset_name) ;;
                 match nodata_argument dataset_name items return M unit with
                 | Some v =>
                     d ← lift (as_double v);
                     update_raster output_path (set_nodata d)
                 | None => mret tt
                 end ;;
                 update_raster output_path (set_metadata items) ;;
                 mret (output_files ++ [output_path])
             end
       | _ => mret output_files
       end)
    (fun _ => mret output_files).

(** What the loop does before the [try] block: the output path is
    computed and a file found there is removed. *)
Definition prepare_output (output_dir hdf_basename : string)
    (date_str : option string) (dataset_name : string) : M string :=
  output_filename ← lift (output_filename hdf_basename date_str dataset_name);
  let output_path := OsPath.join output_dir output_filename in
  present ← os_path_exists output_path;
  (if present : bool then os_remove output_path else mret tt) ;;
  mret output_path.

(** The body of the loop over the selected datasets. *)
Definition process_dataset (hdf_ds : handle) (pi : option projection_info)
    (output_dir hdf_basename : string) (date_str : option string)
    (dataset_name : string) (output_files : list string) : M (list string) :=
  output_path ← prepare_output output_dir hdf_basename date_str dataset_name;
  materialize hdf_ds pi output_path dataset_name output_files.

Fixpoint process_datasets (hdf_ds : handle) (pi : option projection_info)
    (output_dir hdf_basename : string) (date_str : option string)
    (names : list string) (output_files : list string) : M (list string) :=
  match names with
  | [] => mret output_files
  | dataset_name :: rest =>
      output_files' ←
        process_dataset hdf_ds pi output_dir hdf_basename date_str
          dataset_name output_files;
      process_datasets hdf_ds pi output_dir hdf_basename date_str rest
        output_files'
  end.

(** The datasets to process, out of the names of the archive. *)
Definition select_datasets (datasets : option (list string))
    (all_datasets : list string) : list string :=
  match datasets with
  | None => List.filter (fun ds => contains "NDVI" ds) all_datasets
  | Some requested => List.filter (fun ds => mem ds requested) all_datasets
  end.

Definition hdf_to_geotiff_sinusoidal (hdf_file : string)
    (output_dir : option string) (datasets : option (list string))
  : M (list string) :=
  present ← os_path_exists hdf_file;
  if negb present then mret [] : M (list string)
  else
    let output_dir :=
      match output_dir with
      | None => OsPath.dirname hdf_file
      | Some d => d
      end in
    os_makedirs output_dir ;;
    let hdf_basename := OsPath.basename hdf_file in
    let date_str := ModisDate.parse_modis_date hdf_basename in
    try_except
      (pi ← get_modis_projection_info hdf_file;
       hdf_ds ← SD hdf_file;
       all_datasets ← sd_datasets hdf_ds;
       let selected := select_datasets datasets all_datasets in
       output_files ←
         process_datasets hdf_ds pi output_dir hdf_basename date_str
           selected [];
       sd_end hdf_ds ;;
       mret output_files)
      (fun _ => mret []).

(** *** [analyze_hdf_file] *)

(** The entry ['resolution'] once the archive was read: ['unknown'], or
    the text of a float with two decimals followed by [m]. *)
Inductive resolution_text : Type :=
| ResUnknown
| ResMeters (f : spec_float).

Record field_info : Type := {
  fi_name : string;
  fi_shape : list nat
}.

(** The dict [file_info]; the size of the file and the extreme values of
    the grids are left out. *)
Record file_info : Type := {
  fi_path : string;
  fi_basename : string;
  fi_resolution : option resolution_text;
  fi_resolution_meters : option spec_float;
  fi_data_fields : list field_info;
  fi_total_datasets : option nat;
  fi_date : option string;
  fi_product_type : string;
  fi_tile : option string
}.

(** [h\d+v\d+] at the start of [s]: the matched text. *)
Definition tile_at (s : string) : option string :=
  match s with
  | String "h" r =>
      let '(d1, r1) := span is_digit r in
      match r1 with
      | String "v" r2 =>
          let '(d2, _) := span is_digit r2 in
          if is_empty d1 || is_empty d2 then None
          else Some ("h" ++ d1 ++ "v" ++ d2)%string
      | _ => None
      end
  | _ => None
  end.

Definition with_tile (t : option string) (i : file_info) : file_info :=
  {| fi_path := fi_path i; fi_basename := fi_basename i;
     fi_resolution := fi_resolution i;
     fi_resolution_meters := fi_resolution_meters i;
     fi_data_fields := fi_data_fields i;
     fi_total_datasets := fi_total_datasets i;
     fi_date := fi_date i; fi_product_type := fi_product_type i;
     fi_tile := t |}.

Definition with_resolution (t : resolution_text) (m : option spec_float)
    (i : file_info) : file_info :=
  {| fi_path := fi_path i; fi_basename := fi_basename i;
     fi_resolution := Some t;
     fi_resolution_meters := m;
     fi_data_fields := fi_data_fields i;
     fi_total_datasets := fi_total_datasets i;
     fi_date := fi_date i; fi_product_type := fi_product_type i;
     fi_tile := fi_tile i |}.

Definition with_field (f : field_info) (i : file_info) : file_info :=
  {| fi_path := fi_path i; fi_basename := fi_basename i;
     fi_resolution := fi_resolution i;
     fi_resolution_meters := fi_resolution_meters i;
     fi_data_fields := fi_data_fields i ++ [f];
     fi_total_datasets := fi_total_datasets i;
     fi_date := fi_date i; fi_product_type := fi_product_type i;
     fi_tile := fi_tile i |}.

Definition with_total (n : nat) (i : file_info) : file_info :=
  {| fi_path := fi_path i; fi_basename := fi_basename i;
     fi_resolution := fi_resolution i;
     fi_resolution_meters := fi_resolution_meters i;
     fi_data_fields := fi_data_fields i;
     fi_total_datasets := Some n;
     fi_date := fi_date i; fi_product_type := fi_product_type i;
     fi_tile := fi_tile i |}.

(** The dict is changed in place, so an exception leaves it as it stood:
    [or_keep i body] is [body] inside the [try], with [i] the dict at
    its start. *)
Definition or_keep (i : file_info) (body : M file_info) : M file_info :=
  try_except body (fun _ => mret i).

(** The loop over the data fields; a dataset that cannot be read is left
    out. *)
Fixpoint analyze_fields (hdf_ds : handle) (names : list string)
    (i : file_info) : M file_info :=
  match names with
  | [] => mret i
  | dataset_name :: rest =>
      i' ← try_except
             ('(shape, _) ← sd_read hdf_ds dataset_name;
              mret (with_field {| fi_name := dataset_name;
                                  fi_shape := shape |} i))
             (fun _ => mret i);
      analyze_fields hdf_ds rest i'
  end.

Definition analyze_hdf_file (hdf_file : string) : M file_info :=
  let basename := OsPath.basename hdf_file in
  let i0 :=
    {| fi_path := hdf_file; fi_basename := basename;
       fi_resolution := None; fi_resolution_meters := None;
       fi_data_fields := []; fi_total_datasets := None;
       fi_date := ModisDate.parse_modis_date basename;
       fi_product_type := nth 0 (split_on "." basename) EmptyString;
       fi_tile := None |} in
  or_keep i0
    (hdf_ds ← SD hdf_file;
     global_attrs ← sd_attributes hdf_ds;
     let i1 :=
       match Re.search tile_at basename with
       | Some t => with_tile (Some t) i0
       | None => i0
       end in
     or_keep i1
       (let struct_metadata := struct_metadata_of global_attrs in
        upper_left_match ←
          re_search (Re.search_pair "UpperLeftPointMtrs") struct_metadata;
        lower_right_match ←
          re_search (Re.search_pair "LowerRightMtrs") struct_metadata;
        xdim_match ← re_search (Re.search_dim "XDim") struct_metadata;
        i2 ←
          match upper_left_match, lower_right_match, xdim_match with
          | Some ul, Some lr, Some xd =>
              ul_x ← lift (py_float ul.1);
              lr_x ← lift (py_float lr.1);
              xdim ← lift (py_int xd);
              q ← lift (fdiv_int (fsub lr_x ul_x) xdim);
              let resolution_meters := fabs q in
              mret (with_resolution (ResMeters resolution_meters)
                      (Some resolution_meters) i1)
          | _, _, _ => mret (with_resolution ResUnknown None i1)
          end;
        or_keep i2
          (datasets ← sd_datasets hdf_ds;
           i3 ← analyze_fields hdf_ds datasets i2;
           let i4 := with_total (length datasets) i3 in
           or_keep i4 (sd_end hdf_ds ;; mret i4)))).

End Converter.

(** ** [skill.py] *)

Module Skill.
Import PyStr Converter.

Inductive message : Type :=
| FileNotFound (input_file : string)
| FoundDatasets (n : nat)
| AnalysisFailed (e : exn)
| Converted (n : nat)
| NoFilesConverted
| ConversionFailed (e : exn)
| MissingInputFile.

(** The dict that the operations return. *)
Record result : Type := {
  status : string;
  message_of : message;
  file_info_of : option file_info;
  output_files : option (list string)
}.

Definition error (m : message) : result :=
  {| status := "error"; message_of := m;
     file_info_of := None; output_files := None |}.

Definition analyze (input_file : string) : M result :=
  try_except
    (present ← os_path_exists input_file;
     if negb present then mret (error (FileNotFound input_file))
     else
       info ← analyze_hdf_file input_file;
       mret {| status := "success";
               message_of := FoundDatasets (length (fi_data_fields info));
               file_info_of := Some info;
               output_files := None |})
    (fun e => mret (error (AnalysisFailed e))).

Definition convert (input_file output_dir : string)
    (datasets : option (list string)) : M result :=
  try_except
    (present ← os_path_exists input_file;
     if negb present then mret (error (FileNotFound input_file))
     else
       os_makedirs output_dir ;;
       files ← hdf_to_geotiff_sinusoidal input_file (Some output_dir) datasets;
       match files with
       | _ :: _ =>
           mret {| status := "success";
                   message_of := Converted (length files);
                   file_info_of := None;
                   output_files := Some files |}
       | [] => mret (error NoFilesConverted)
       end)
    (fun e => mret (error (ConversionFailed e))).

(** The dict [request]. *)
Record request : Type := {
  input_file : option string;
  output_dir : option string;
  datasets : option (list string);
  analyze_only : bool
}.

Definition handle_hdf_to_geotiff_conversion (r : request) : M result :=
  if negb (truthy_str (input_file r)) then mret (error MissingInputFile)
  else
    let file := default EmptyString (input_file r) in
    if analyze_only r then analyze file
    else
      let dir :=
        if truthy_str (output_dir r) then default EmptyString (output_dir r)
        else OsPath.dirname file in
      convert file dir (datasets r).

End Skill.

(** ** Effects on the log alone *)

(** A computation that leaves the files and the system as they are and
    only adds events to the log. *)
Definition log_only {A : Type} (m : M A) : Prop :=
  ∀ st, ∃ r lg,
    m st = (r, {| os := os st; fs := fs st; log := log st ++ lg |}).

(** The double written [-3000], the fill value of the vegetation
    indices. *)
Definition minus_3000 : spec_float :=
  Eval vm_compute in PyNum.of_decimal true 3000 0.

(** ** Reading a float to two decimals *)

(** The integer nearest to [100 * f] for a finite [f], halves away from
    zero: [f] rounded to two decimals, in hundredths. *)
Definition nearest_hundredth (f : spec_float) : option Z :=
  match f with
  | S754_zero _ => Some 0
  | S754_finite s m e =>
      let num := 100 * Zpos m * 2 ^ Z.max e 0 in
      let den := 2 ^ Z.max (- e) 0 in
      let q := (2 * num + den) / (2 * den) in
      Some (if s then - q else q)
  | _ => None
  end.

(** ** Sample archives and file systems *)

Module Sample.
Import Converter Skill.

Definition env_ok : env :=
  {| gtiff_driver := true;
     create_fails := fun _ => false;
     remove_denied := fun _ => false;
     mkdir_denied := fun _ => false |}.

(** The tile of the end-to-end example. *)
Definition tile_metadata : string :=
  "UpperLeftPointMtrs=(-10007554.7,5559752.6) LowerRightMtrs=(-8895604.2,4447802.1) XDim=4800 YDim=4800".

(** The same block without its lower-right corner. *)
Definition no_lower_right_metadata : string :=
  "UpperLeftPointMtrs=(-10007554.7,5559752.6) XDim=4800 YDim=4800".

(** A block in which every pattern matches and the width is zero. *)
Definition zero_width_metadata : string :=
  "UpperLeftPointMtrs=(0,10) LowerRightMtrs=(10,0) XDim=0 YDim=10".

Definition ndvi : dataset :=
  {| ds_name := "250m 16 days NDVI";
     ds_read := Some ([4800%nat; 4800%nat],
                      [("long_name", AStr "250m 16 days NDVI");
                       ("_FillValue", AInt (-3000))]) |}.

Definition evi : dataset :=
  {| ds_name := "250m 16 days EVI";
     ds_read := Some ([4800%nat; 4800%nat],
                      [("long_name", AStr "250m 16 days EVI");
                       ("NoData Value", AInt 0)]) |}.

Definition quality : dataset :=
  {| ds_name := "250m 16 days VI Quality";
     ds_read := Some ([4800%nat; 4800%nat],
                      [("long_name", AStr "VI quality indicators");
                       ("Legend NoData", AInt 65535)]) |}.

(** A grid of rank 3 whose name the default policy selects. *)
Definition ndvi_stack : dataset :=
  {| ds_name := "NDVI stack";
     ds_read := Some ([2%nat; 4800%nat; 4800%nat], []) |}.

Definition archive_of (metadata : string) (l : list dataset) : archive :=
  {| ar_attrs := [("HDFEOSVersion", AStr "HDFEOS_V2.19");
                  ("StructMetadata.0", AStr metadata)];
     ar_datasets := l |}.

Definition hdf_path : string := "/data/MOD13Q1.A2015209.h12v04.061.hdf".

(** A file system with the root, the directory [/data] and one file at
    [path]. *)
Definition disk (path : string) (f : file) : state :=
  {| os := env_ok;
     fs := {[ "/" := Dir; "/data" := Dir; path := f ]};
     log := [] |}.

Definition tile_disk : state :=
  disk hdf_path (Hdf (archive_of tile_metadata [ndvi; evi; quality])).

Definition no_corner_disk : state :=
  disk hdf_path (Hdf (archive_of no_lower_right_metadata [ndvi; evi; quality])).

Definition zero_width_disk : state :=
  disk hdf_path (Hdf (archive_of zero_width_metadata [ndvi; evi; quality])).

(** The archive with a rank-3 grid before the NDVI grid, and an older
    output file at the path of the rank-3 grid. *)
Definition stack_path : string := "/data/MOD13Q1_20150728_NDVI_stack.tif".

Definition stack_disk : state :=
  set_fs (insert stack_path Blob)
    (disk hdf_path (Hdf (archive_of tile_metadata [ndvi_stack; ndvi]))).

(** A file with the name of an archive that no reader can open. *)
Definition broken_disk : state := disk hdf_path Blob.

(** An archive named without a directory part. *)
Definition bare_name : string := "MOD13Q1.A2015209.h12v04.061.hdf".

Definition bare_disk : state :=
  {| os := env_ok;
     fs := {[ bare_name := Hdf (archive_of tile_metadata [ndvi; evi; quality]) ]};
     log := [] |}.

(** The output path of the NDVI grid next to the archive. *)
Definition ndvi_path : string :=
  "/data/MOD13Q1_20150728_250m_16_days_NDVI.tif".

Definition quality_path : string :=
  "/data/MOD13Q1_20150728_250m_16_days_VI_Quality.tif".

(** The tile with a directory where the NDVI raster should go. *)
Definition blocked_disk : state := set_fs (insert ndvi_path Dir) tile_disk.

(** The tile with an older NDVI raster that the system refuses to remove,
    as it does for a file that another program holds open. *)
Definition locked_disk : state :=
  {| os := {| gtiff_driver := true;
              create_fails := fun _ => false;
              remove_denied := String.eqb ndvi_path;
              mkdir_denied := fun _ => false |};
     fs := insert ndvi_path Blob (fs tile_disk);
     log := [] |}.

(** The archive with the rank-3 grid, and a directory at the output path
    of that grid. *)
Definition stack_blocked_disk : state :=
  set_fs (insert stack_path Dir)
    (disk hdf_path (Hdf (archive_of tile_metadata [ndvi_stack; ndvi]))).

(** A grid whose first no-data attribute holds a text; a number follows
    under another no-data key. *)
Definition reliability : dataset :=
  {| ds_name := "250m 16 days pixel reliability";
     ds_read := Some ([4800%nat; 4800%nat],
                      [("long_name", AStr "VI usefulness");
                       ("NoData description", AStr "255 = fill");
                       ("nodata", AInt 255)]) |}.

Definition reliability_disk : state :=
  disk hdf_path (Hdf (archive_of tile_metadata [ndvi; reliability])).

Definition reliability_path : string :=
  "/data/MOD13Q1_20150728_250m_16_days_pixel_reliability.tif".

(** An archive in which two datasets bear the name of the NDVI grid; the
    second is smaller. *)
Definition ndvi_again : dataset :=
  {| ds_name := "250m 16 days NDVI";
     ds_read := Some ([2400%nat; 2400%nat], []) |}.

Definition twin_disk : state :=
  disk hdf_path (Hdf (archive_of tile_metadata [ndvi; ndvi_again; evi])).

(** A handle on the tile archive, and one on the archive with the
    rank-3 grid. *)
Definition tile_handle : handle :=
  {| h_id := 0; h_archive := archive_of tile_metadata [ndvi; evi; quality] |}.

Definition stack_handle : handle :=
  {| h_id := 0; h_archive := archive_of tile_metadata [ndvi_stack; ndvi] |}.

(** The bundle of the tile. *)
Definition tile_info : option projection_info :=
  match fst (get_modis_projection_info hdf_path tile_disk) with
  | Ret i => i
  | Raise _ => None
  end.

(** The names of the selector examples. *)
Definition product_names : list string :=
  ["250m_16_days_NDVI"; "250m_16_days_EVI"; "250m_16_days_VI_Quality"].

End Sample.

(** ** Notions that the properties of the whole functions use *)

(** Whether the character [c] occurs in [s]. *)
Fixpoint has_char (c : ascii) (s : string) : bool :=
  match s with
  | EmptyString => false
  | String a s' => Ascii.eqb a c || has_char c s'
  end.

(** Whether [c] is the character [b] or, for a small letter [b] of the
    alphabet, its capital. *)
Definition same_letter (b c : ascii) : bool :=
  let n := N_of_ascii b in
  Ascii.eqb c b
  || ((97 <=? n) && (n <=? 122) && (N_of_ascii c + 32 =? n))%N.

(** Whether [s] starts with the word [w], a capital of [s] standing for
    its small letter. *)
Fixpoint word_at (w s : string) : bool :=
  match w, s with
  | EmptyString, _ => true
  | String b w', String c s' => same_letter b c && word_at w' s'
  | String _ _, EmptyString => false
  end.

(** Whether the word [w] occurs in [s], whatever the case of the letters
    of [s]. *)
Fixpoint has_word (w s : string) : bool :=
  word_at w s
  || match s with
     | EmptyString => false
     | String _ s' => has_word w s'
     end.

(** Whether a key names a no-data value: it contains [no data] or
    [nodata], in small letters or capitals. *)
Definition names_nodata (key : string) : bool :=
  has_word "no data" key || has_word "nodata" key.

(** Whether the [try] block of the dataset [name] runs to its end when it
    writes to [path]: the dataset is read, the driver is there, the grid
    has rank 2, the raster is created, the bundle has a geotransform and
    the no-data value is a number. *)
Definition convertible (e : env) (a : archive)
    (pi : option Converter.projection_info) (path name : string) : bool :=
  match List.find (fun d => String.eqb (ds_name d) name) (ar_datasets a) with
  | Some d =>
      match ds_read d with
      | Some ([_; _], items) =>
          gtiff_driver e && negb (create_fails e path)
          && bool_decide (is_Some (Converter.usable_geotransform pi))
          && match Converter.nodata_argument name items with
             | Some v =>
                 match Converter.as_double v with
                 | Ret _ => true
                 | Raise _ => false
                 end
             | None => true
             end
      | _ => false
      end
  | None => false
  end.

(** The path that the conversion returns for the dataset [name], if it
    returns one. *)
Definition converted_path (e : env) (a : archive)
    (pi : option Converter.projection_info) (dir base : string)
    (date : option string) (name : string) : option string :=
  match Converter.output_filename base date name with
  | Ret fn =>
      let path := OsPath.join dir fn in
      if convertible e a pi path name then Some path else None
  | Raise _ => None
  end.

(** The names under which the datasets of an archive are listed: each
    name once, in the order in which the names first come. *)
Definition dataset_names (a : archive) : list string :=
  dict_keys (map ds_name (ar_datasets a)).

(** The entries of ['data_fields'] for an archive whose data fields are
    listed: one for each listed name whose grid can be read, in the order
    of the archive. *)
Definition readable_fields (a : archive) : list Converter.field_info :=
  omap (fun name =>
          match List.find (fun d => String.eqb (ds_name d) name)
                  (ar_datasets a) with
          | Some d =>
              match ds_read d with
              | Some (shape, _) =>
                  Some {| Converter.fi_name := name;
                          Converter.fi_shape := shape |}
              | None => None
              end
          | None => None
          end)
    (dataset_names a).

(** ** The Gregorian calendar, as a reference for the dates *)

Module Calendar.

Definition is_leap (y : Z) : bool :=
  (y mod 4 =? 0) && (negb (y mod 100 =? 0) || (y mod 400 =? 0)).

Definition days_in_year (y : Z) : Z := if is_leap y then 366 else 365.

(** The lengths of the twelve months of the year [y]. *)
Definition month_lengths (y : Z) : list Z :=
  [31; if is_leap y then 29 else 28; 31; 30; 31; 30; 31; 31; 30; 31; 30; 31].

(** Month and day of the day numbered [doy], counted from the first day
    of the month [m], whose length and those of the months after it are
    [lengths]. *)
Fixpoint month_and_day (lengths : list Z) (m doy : Z) : Z * Z :=
  match lengths with
  | [] => (m, doy)
  | len :: rest =>
      if doy <=? len then (m, doy)
      else month_and_day rest (m + 1) (doy - len)
  end.

(** Whether the date arithmetic of the model gives, for the day [doy]
    of the year [y], the month and day of the calendar. *)
Definition agrees (y doy : Z) : bool :=
  let '(m, d) := month_and_day (month_lengths y) 1 doy in
  let '(y', m', d') :=
    ModisDate.ymd_of_ordinal (ModisDate.days_before_year y + doy) in
  (y' =? y) && (m' =? m) && (d' =? d).

End Calendar.

(** ** The prompts and the batch functions of [converter.py] *)

Module Prompt.
Import PyStr PyNum Converter.

(** What a loop around [input()] gives on the lines that are left on the
    standard input: an answer and the lines after it, or the end of the
    input, at which [input()] raises [EOFError] and the function with
    it. *)
Inductive asked (A : Type) : Type :=
| Answered (a : A) (rest : list string)
| EndOfInput.
Arguments Answered {A} a rest.
Arguments EndOfInput {A}.

(** [[int(idx.strip()) - 1 for idx in items]]. *)
Fixpoint indices_of (items : list string) : outcome (list Z) :=
  match items with
  | [] => Ret []
  | idx :: rest =>
      match py_int (strip idx) with
      | Raise e => Raise e
      | Ret z =>
          match indices_of rest with
          | Raise e => Raise e
          | Ret l => Ret (z - 1 :: l)
          end
      end
  end.

(** [[fields[i]['name'] for i in indices if 0 <= i < len(fields)]]. *)
Definition names_at (fields : list field_info) (indices : list Z)
  : list string :=
  omap (fun i =>
          if (0 <=? i) && (i <? Z.of_nat (length fields))
          then fi_name <$> fields !! Z.to_nat i
          else None) indices.

(** The [try] block of a prompt on the line [user_input]: the selection,
    or [None] when the line is refused, for an exception or for a
    selection that is empty. *)
Definition numbered_choice (fields : list field_info) (user_input : string)
  : option (list string) :=
  match indices_of (split_on "," user_input) with
  | Ret indices =>
      match names_at fields indices with
      | [] => None
      | selected_fields => Some selected_fields
      end
  | Raise _ => None
  end.

(** The [while True] loop of [get_user_selection] on the fields of one
    file. *)
Fixpoint ask_fields (fields : list field_info) (lines : list string)
  : asked (list string) :=
  match lines with
  | [] => EndOfInput
  | user_input :: rest =>
      if String.eqb (lower user_input) "ndvi" then
        match List.filter (fun name => contains "NDVI" name)
                (map fi_name fields) with
        | [] => ask_fields fields rest
        | selected_fields => Answered selected_fields rest
        end
      else
        match numbered_choice fields user_input with
        | Some selected_fields => Answered selected_fields rest
        | None => ask_fields fields rest
        end
  end.

(** The dict that [get_user_selection] returns: one selection for every
    file, or the dict [selections] from paths to selections. *)
Inductive selection : Type :=
| SameForAll (selected_fields : list string)
| PerFile (selections : gmap string (list string)).

(** The loop over the files that asks for each of them. *)
Fixpoint ask_each (file_infos : list file_info)
    (selections : gmap string (list string)) (lines : list string)
  : asked selection :=
  match file_infos with
  | [] => Answered (PerFile selections) lines
  | info :: more =>
      match ask_fields (fi_data_fields info) lines with
      | Answered selected_fields rest =>
          ask_each more (<[fi_path info := selected_fields]> selections) rest
      | EndOfInput => EndOfInput
      end
  end.

Definition get_user_selection (file_infos : list file_info) (all_same : bool)
    (lines : list string) : asked selection :=
  match file_infos with
  | first :: _ =>
      if all_same then
        match ask_fields (fi_data_fields first) lines with
        | Answered selected_fields rest =>
            Answered (SameForAll selected_fields) rest
        | EndOfInput => EndOfInput
        end
      else ask_each file_infos ∅ lines
  | [] => ask_each file_infos ∅ lines
  end.

(** The dict that [compare_hdf_files] returns, without its entry
    ['resolutions'], whose members are the texts of the resolutions. *)
Record comparison : Type := {
  file_infos : list file_info;
  product_types : gset string;
  all_fields_same : bool;
  total_files : nat
}.

Fixpoint analyze_all (hdf_files : list string) : M (list file_info) :=
  match hdf_files with
  | [] => mret []
  | hdf_file :: rest =>
      file_info ← analyze_hdf_file hdf_file;
      infos ← analyze_all rest;
      mret (file_info :: infos)
  end.

(** The set of the names of the data fields of a file. *)
Definition field_names (info : file_info) : gset string :=
  list_to_set (map fi_name (fi_data_fields info)).

(** [compare_hdf_files(hdf_files)]; [None] is the empty dict. *)
Definition compare_hdf_files (hdf_files : list string)
  : M (option comparison) :=
  match hdf_files with
  | [] => mret None
  | _ :: _ =>
      infos ← analyze_all hdf_files;
      let data_field_sets := map field_names infos in
      mret (Some {| file_infos := infos;
                    product_types := list_to_set (map fi_product_type infos);
                    all_fields_same :=
                      forallb (fun fields =>
                                 bool_decide
                                   (fields = nth 0 data_field_sets ∅))
                        data_field_sets;
                    total_files := length hdf_files |})
  end.

(** The dict [results]. *)
Record batch_result : Type := {
  total : nat;
  success : nat;
  failed : nat;
  created_files : list string
}.

(** [results] after a conversion that returned [output_files]. *)
Definition count_conversion (output_files : list string) (r : batch_result)
  : batch_result :=
  match output_files with
  | _ :: _ =>
      {| total := total r; success := S (success r); failed := failed r;
         created_files := created_files r ++ output_files |}
  | [] =>
      {| total := total r; success := success r; failed := S (failed r);
         created_files := created_files r |}
  end.

(** [results] after a file that is skipped. *)
Definition count_skipped (r : batch_result) : batch_result :=
  {| total := total r; success := success r; failed := S (failed r);
     created_files := created_files r |}.

(** The loop of the conversions with one selection for every file. *)
Fixpoint convert_all_same (hdf_files : list string)
    (output_dir : option string) (selected_fields : list string)
    (results : batch_result) : M batch_result :=
  match hdf_files with
  | [] => mret results
  | hdf_file :: rest =>
      output_files ←
        hdf_to_geotiff_sinusoidal hdf_file output_dir (Some selected_fields);
      convert_all_same rest output_dir selected_fields
        (count_conversion output_files results)
  end.

(** The loop of the conversions with a selection for each file. *)
Fixpoint convert_each (hdf_files : list string) (output_dir : option string)
    (selections : gmap string (list string)) (results : batch_result)
  : M batch_result :=
  match hdf_files with
  | [] => mret results
  | hdf_file :: rest =>
      match selections !! hdf_file with
      | Some selected_fields =>
          output_files ←
            hdf_to_geotiff_sinusoidal hdf_file output_dir
              (Some selected_fields);
          convert_each rest output_dir selections
            (count_conversion output_files results)
      | None =>
          convert_each rest output_dir selections (count_skipped results)
      end
  end.

(** [batch_convert_hdf_files(hdf_files, output_dir)] on the lines of the
    standard input. *)
Definition batch_convert_hdf_files (hdf_files : list string)
    (output_dir : option string) (lines : list string)
  : M (asked batch_result) :=
  let results :=
    {| total := length hdf_files; success := 0; failed := 0;
       created_files := [] |} in
  match hdf_files with
  | [] => mret (Answered results lines)
  | _ :: _ =>
      comparison ← compare_hdf_files hdf_files;
      match comparison with
      | None => mret (Answered results lines)
      | Some c =>
          match get_user_selection (file_infos c) (all_fields_same c)
                  lines with
          | EndOfInput => mret EndOfInput
          | Answered (SameForAll selected_fields) rest =>
              r ← convert_all_same hdf_files output_dir selected_fields
                    results;
              mret (Answered r rest)
          | Answered (PerFile selections) rest =>
              r ← convert_each hdf_files output_dir selections results;
              mret (Answered r rest)
          end
      end
  end.

(** The messages of [convert_with_user_selection]. *)
Inductive report : Type :=
| HdfFileNotFound (hdf_file : string)
| NoDataFields
| ConvertedFields (n : nat)
| ConversionFailed.

(** The dict that [convert_with_user_selection] returns. *)
Record outcome_of_selection : Type := {
  status : string;
  message : report;
  output_files : option (list string)
}.

Definition failure (m : report) : outcome_of_selection :=
  {| status := "error"; message := m; output_files := None |}.

(** The [while True] loop of [convert_with_user_selection]. *)
Fixpoint ask_fields_or_all (fields : list field_info) (lines : list string)
  : asked (list string) :=
  match lines with
  | [] => EndOfInput
  | user_input :: rest =>
      if String.eqb (lower user_input) "all" then
        Answered (map fi_name fields) rest
      else
        match numbered_choice fields user_input with
        | Some selected_fields => Answered selected_fields rest
        | None => ask_fields_or_all fields rest
        end
  end.

(** Step 4 of [convert_with_user_selection]. *)
Definition convert_selected (hdf_file : string) (output_dir : option string)
    (selected_fields : list string) : M outcome_of_selection :=
  files ← hdf_to_geotiff_sinusoidal hdf_file output_dir (Some selected_fields);
  match files with
  | _ :: _ =>
      mret {| status := "success";
              message := ConvertedFields (length files);
              output_files := Some files |}
  | [] => mret (failure ConversionFailed)
  end.

(** [convert_with_user_selection(hdf_file, output_dir, interactive)] on
    the lines of the standard input; the dict of the analysis has
    entries, so the test [not file_info] never holds. *)
Definition convert_with_user_selection (hdf_file : string)
    (output_dir : option string) (interactive : bool) (lines : list string)
  : M (asked outcome_of_selection) :=
  present ← os_path_exists hdf_file;
  if negb present
  then mret (Answered (failure (HdfFileNotFound hdf_file)) lines)
  else
    file_info ← analyze_hdf_file hdf_file;
    if interactive then
      match ask_fields_or_all (fi_data_fields file_info) lines with
      | Answered selected_fields rest =>
          r ← convert_selected hdf_file output_dir selected_fields;
          mret (Answered r rest)
      | EndOfInput => mret EndOfInput
      end
    else
      match fi_data_fields file_info with
      | first :: _ =>
          r ← convert_selected hdf_file output_dir [fi_name first];
          mret (Answered r lines)
      | [] => mret (Answered (failure NoDataFields) lines)
      end.

End Prompt.

(** ** Sample inputs of the prompts *)

Module PromptSample.
Import Converter Sample.

(** The analysis of the tile, as the list [file_infos] of one file. *)
Definition tile_analysis : list file_info :=
  match fst (analyze_hdf_file hdf_path tile_disk) with
  | Ret i => [i]
  | Raise _ => []
  end.

(** The result of the batch conversion of the tile with the NDVI grid. *)
Definition ndvi_batch : Prompt.batch_result :=
  {| Prompt.total := 1; Prompt.success := 1; Prompt.failed := 0;
     Prompt.created_files := [ndvi_path] |}.

(** The result of the conversion of the first field of the tile. *)
Definition ndvi_converted : Prompt.outcome_of_selection :=
  {| Prompt.status := "success";
     Prompt.message := Prompt.ConvertedFields 1;
     Prompt.output_files := Some [ndvi_path] |}.

End PromptSample.

(** ** [run_skill] *)

Module RunSkill.
Import PyStr Skill.

Definition is_quote (c : ascii) : bool :=
  Ascii.eqb c "034" || Ascii.eqb c "'".

Fixpoint lstrip_quotes (s : string) : string :=
  match s with
  | String c s' => if is_quote c then lstrip_quotes s' else s
  | EmptyString => EmptyString
  end.

Fixpoint rstrip_quotes (s : string) : string :=
  match s with
  | EmptyString => EmptyString
  | String c s' =>
      match rstrip_quotes s' with
      | EmptyString => if is_quote c then EmptyString else String c EmptyString
      | r => String c r
      end
  end.

(** [s.strip(chars)] for the two quotation marks. *)
Definition strip_quotes (s : string) : string :=
  rstrip_quotes (lstrip_quotes s).

(** A quoted alternative of the group at the start of [s]: the mark [q],
    one or more characters other than it, and the mark again; the result
    is the text matched, marks included.  The class takes every character
    up to the next mark, and taking fewer never helps. *)
Definition quoted_at (q : ascii) (s : string) : option string :=
  match s with
  | String c r =>
      if Ascii.eqb c q then
        let '(body, r1) := span (Re.other_than q) r in
        match r1 with
        | String _ _ =>
            if is_empty body then None
            else Some (String q (body ++ String q EmptyString))
        | EmptyString => None
        end
      else None
  | EmptyString => None
  end.

Definition is_plain (c : ascii) : bool :=
  negb (Ascii.eqb c ",") && negb (Ascii.eqb c "010").

(** The last alternative of the group, [[^,\n]+], at the start of [s]. *)
Definition plain_at (s : string) : option string :=
  let '(body, _) := span is_plain s in
  if is_empty body then None else Some body.

(** The group at the start of [s]: the alternative quoted with the
    double mark, the one quoted with the single mark, and [[^,\n]+]; they
    are tried in this order, and the group ends the pattern, so the first
    that matches is the match. *)
Definition value_at (s : string) : option string :=
  match quoted_at "034" s with
  | Some v => Some v
  | None =>
      match quoted_at "'" s with
      | Some v => Some v
      | None => plain_at s
      end
  end.

(** [\s*] and the group at the start of [s]: the whitespace is taken as
    far as it goes and given back one character at a time while the
    group does not match. *)
Fixpoint spaces_then_value (s : string) : option string :=
  match s with
  | String c r =>
      if is_space c then
        match spaces_then_value r with
        | Some v => Some v
        | None => value_at s
        end
      else value_at s
  | EmptyString => value_at s
  end.

(** [key\s*[:=]\s*(group)] at the start of [s]: the group.  The first
    run of whitespace is taken whole, a whitespace character being
    neither a colon nor an equals sign. *)
Definition param_at (key s : string) : option string :=
  match strip_prefix key s with
  | Some r =>
      match lstrip r with
      | String c r2 =>
          if Ascii.eqb c ":" || Ascii.eqb c "=" then spaces_then_value r2
          else None
      | EmptyString => None
      end
  | None => None
  end.

(** [re.search(pattern, input_data)] and the group stripped of
    quotation marks, for the parameter [key]. *)
Definition search_param (key input_data : string) : option string :=
  option_map strip_quotes (Re.search (param_at key) input_data).

(** What [run_skill] is given: a dict, a str, or anything else. *)
Inductive skill_input : Type :=
| DictInput (r : request)
| StrInput (s : string)
| OtherInput.

(** What [run_skill] returns: the result of the handler, or the dict
    with the status [error] and the message that the input format is
    invalid. *)
Inductive answer : Type :=
| Handled (r : result)
| InvalidInputFormat.

(** [run_skill(input_data)]; [glob] is [glob.glob], whose list is the
    file system's to decide. *)
Definition run_skill (glob : string -> list string)
    (input_data : skill_input) : M answer :=
  match input_data with
  | DictInput r =>
      result ← handle_hdf_to_geotiff_conversion r;
      mret (Handled result)
  | StrInput s =>
      let input_file :=
        match search_param "input_file" s with
        | Some v => Some v
        | None =>
            match glob (OsPath.join s "*.hdf") with
            | f :: _ => Some f
            | [] => None
            end
        end in
      let output_dir := search_param "output_dir" s in
      result ←
        handle_hdf_to_geotiff_conversion
          {| input_file := input_file; output_dir := output_dir;
             datasets := None; analyze_only := false |};
      mret (Handled result)
  | OtherInput => mret InvalidInputFormat
  end.

(** A value that the pattern reads back as it is: not empty, without
    comma and line feed, with no whitespace at its start and no
    quotation mark at either end. *)
Definition plain_value (v : string) : Prop :=
  has_char "," v = false ∧ has_char "010" v = false
  ∧ strip_quotes v = v
  ∧ ∃ c r, v = String c r ∧ is_space c = false ∧ is_quote c = false.

End RunSkill.

(** * Properties *)

(** ** Strings *)

Section StringFacts.
Import PyStr.

Lemma strip_prefix_spec (p s r : string) :
  strip_prefix p s = Some r ↔ s = (p ++ r)%string.
Proof.
  revert s; induction p as [|a p IH]; intros s; simpl.
  - split; [intros [= ->] | intros ->]; done.
  - destruct s as [|b s]; [split; discriminate|].
    destruct (Ascii.eqb_spec a b) as [->|Hab].
    + rewrite IH. split; [intros -> | intros [= ->]]; done.
    + split; [discriminate | intros [= -> _]; done].
Qed.

Lemma strip_prefix_None (p s : string) :
  strip_prefix p s = None ↔ ∀ r, s ≠ (p ++ r)%string.
Proof.
  split.
  - intros H r Hr. apply strip_prefix_spec in Hr. congruence.
  - intros H. destruct (strip_prefix p s) as [r|] eqn:E; [|done].
    apply strip_prefix_spec in E. by destruct (H r).
Qed.

(** [sub in s] holds exactly when [s] is some text, then [sub], then some
    text. *)
Lemma contains_spec (sub s : string) :
  contains sub s = true ↔ ∃ pre post, s = (pre ++ sub ++ post)%string.
Proof.
  induction s as [|a s IH]; simpl.
  - destruct (strip_prefix sub "") as [r|] eqn:E.
    + apply strip_prefix_spec in E. split; [|done].
      intros _. by exists ""%string, r.
    + split; [discriminate|]. intros ([|b pre] & post & H); [|discriminate].
      simpl in H. rewrite strip_prefix_None in E. by destruct (E post).
  - destruct (strip_prefix sub (String a s)) as [r|] eqn:E.
    + apply strip_prefix_spec in E. split; [|done].
      intros _. by exists ""%string, r.
    + rewrite IH. split.
      * intros (pre & post & ->). by exists (String a pre), post.
      * intros ([|b pre] & post & H); simpl in H.
        -- rewrite strip_prefix_None in E. by destruct (E post).
        -- injection H as -> ->. by exists pre, post.
Qed.

Lemma mem_spec (x : string) (l : list string) : mem x l = true ↔ x ∈ l.
Proof.
  unfold mem. rewrite existsb_exists, list_elem_of_In. split.
  - intros (y & Hy & E). apply String.eqb_eq in E. by subst.
  - intros H. exists x. split; [done | apply String.eqb_refl].
Qed.

Lemma filter_sublist {A : Type} (f : A -> bool) (l : list A) :
  List.filter f l `sublist_of` l.
Proof.
  induction l as [|x l IH]; simpl; [constructor|].
  destruct (f x); by constructor.
Qed.

Lemma elem_of_filter_bool {A : Type} (f : A -> bool) (l : list A) (x : A) :
  x ∈ List.filter f l ↔ x ∈ l ∧ f x = true.
Proof. by rewrite !list_elem_of_In, filter_In. Qed.

Lemma string_app_assoc (a b c : string) :
  ((a ++ b) ++ c)%string = (a ++ b ++ c)%string.
Proof.
  induction a as [|x a IH]; [done|].
  change (String x ((a ++ b) ++ c) = String x (a ++ b ++ c))%string.
  by rewrite IH.
Qed.

Lemma string_app_length (a b : string) :
  String.length (a ++ b) = (String.length a + String.length b)%nat.
Proof. induction a as [|c a IH]; simpl; [done | by rewrite IH]. Qed.

Lemma string_app_nil (s : string) : (s ++ "")%string = s.
Proof.
  induction s as [|c s IH]; [done|].
  change (String c (s ++ "") = String c s)%string. by rewrite IH.
Qed.

(** The keys of a dict are the keys assigned, each once. *)
Lemma dict_keys_elem (l : list string) (x : string) :
  x ∈ dict_keys l ↔ x ∈ l.
Proof.
  induction l as [|k l IH]; simpl; [done|].
  rewrite !elem_of_cons, elem_of_filter_bool, IH.
  destruct (String.eqb_spec x k) as [->|Hne]; simpl; [tauto|].
  split; [intros [?|[? _]]; eauto | intros [?|?]; eauto].
Qed.

Lemma dict_keys_sublist (l : list string) : dict_keys l `sublist_of` l.
Proof.
  induction l as [|k l IH]; simpl; [done|].
  apply sublist_skip. etrans; [apply filter_sublist|exact IH].
Qed.

Lemma NoDup_filter_bool {A : Type} (f : A -> bool) (l : list A) :
  NoDup l → NoDup (List.filter f l).
Proof. intros H. eapply sublist_NoDup; [done|apply filter_sublist]. Qed.

Lemma dict_keys_NoDup (l : list string) : NoDup (dict_keys l).
Proof.
  induction l as [|k l IH]; simpl; [constructor|].
  constructor; [|by apply NoDup_filter_bool].
  rewrite elem_of_filter_bool. intros [_ H].
  by rewrite String.eqb_refl in H.
Qed.

Lemma dict_keys_distinct (l : list string) : NoDup l → dict_keys l = l.
Proof.
  induction 1 as [|k l Hk _ IH]; simpl; [done|]. rewrite IH. f_equal.
  clear IH. induction l as [|x l IH]; simpl; [done|].
  apply not_elem_of_cons in Hk as [Hne Hk].
  destruct (String.eqb_spec x k) as [->|_]; [done|]. simpl.
  by rewrite IH.
Qed.

(** Filtering a part of a list gives a part of the filtered list. *)
Lemma filter_of_sublist {A : Type} (f : A -> bool) (l k : list A) :
  l `sublist_of` k → List.filter f l `sublist_of` List.filter f k.
Proof.
  induction 1 as [|x l k _ IH|x l k _ IH]; simpl; [done| |].
  - destruct (f x); [by apply sublist_skip|done].
  - destruct (f x); [by apply sublist_cons|done].
Qed.

Lemma map_of_sublist {A B : Type} (f : A -> B) (l k : list A) :
  l `sublist_of` k → map f l `sublist_of` map f k.
Proof.
  induction 1; simpl; [done|by apply sublist_skip|by apply sublist_cons].
Qed.

End StringFacts.

(** ** Handles and the monad *)

Section MonadFacts.

Lemma event_id_lt_fresh (l : list event) (e : event) :
  e ∈ l → (event_id e < fresh_handle l)%nat.
Proof.
  induction l as [|x l IH]; simpl; [by intros ?%elem_of_nil|].
  intros [->|H]%elem_of_cons; [lia|]. specialize (IH H). lia.
Qed.

(** A new handle is not ended in the log that it is taken from. *)
Lemma fresh_handle_not_ended (l : list event) :
  ended (fresh_handle l) l = false.
Proof.
  unfold ended. apply not_true_is_false. intros H.
  apply existsb_exists in H as (e & He & Hk).
  apply list_elem_of_In, event_id_lt_fresh in He.
  destruct e; try done. apply Nat.eqb_eq in Hk. simpl in He. lia.
Qed.

Lemma ended_app (h : nat) (l k : list event) :
  ended h (l ++ k) = ended h l || ended h k.
Proof. unfold ended. apply existsb_app. Qed.

End MonadFacts.

(** Unfolds the monad so that a computation runs on its state. *)
Ltac run_monad :=
  unfold mbind, M_bind, mret, M_ret, try_except, lift, raise in *; simpl in *.

(** ** The geotransform builder *)

Section Builder.
Import PyNum Converter.

(** Opening an archive and reading its global attributes. *)
Lemma opened_attributes (st : state) (hdf_file : string) (a : archive) :
  fs st !! hdf_file = Some (Hdf a) →
  let h := {| h_id := fresh_handle (log st); h_archive := a |} in
  SD hdf_file st = (Ret h, add_event (EOpen (h_id h)) st)
  ∧ sd_attributes h (add_event (EOpen (h_id h)) st)
    = (Ret (ar_attrs a),
       add_event (EUse (h_id h)) (add_event (EOpen (h_id h)) st)).
Proof.
  intros H h. split.
  - unfold SD. by rewrite H.
  - unfold sd_attributes, sd_use. run_monad.
    by rewrite ended_app, fresh_handle_not_ended.
Qed.

(** The handle of [opened_attributes] can be ended after its use. *)
Lemma end_after_use (h : handle) (st : state) :
  h_id h = fresh_handle (log st) →
  sd_end h (add_event (EUse (h_id h)) (add_event (EOpen (h_id h)) st))
  = (Ret tt,
     add_event (EEnd (h_id h))
       (add_event (EUse (h_id h)) (add_event (EOpen (h_id h)) st))).
Proof.
  intros Hh. unfold sd_end. simpl.
  by rewrite !ended_app, Hh, fresh_handle_not_ended.
Qed.

(** Without the attribute the metadata text is the empty one. *)
Lemma absent_metadata (d : attrs) :
  (∀ v, ("StructMetadata.0"%string, v) ∉ d) →
  struct_metadata_of d = AStr "".
Proof.
  unfold struct_metadata_of. induction d as [|[k v] d IH]; intros H; [done|].
  simpl. destruct (String.eqb_spec k "StructMetadata.0") as [->|_].
  - destruct (H v). by left.
  - apply IH. intros w Hw. apply (H w). by right.
Qed.

(** The resolution, an absolute value, is never below zero. *)
Lemma fabs_not_negative (x : spec_float) : SFltb (fabs x) fzero = false.
Proof. by destruct x. Qed.

(** C2. When the archive has no structural metadata, or when one of the
    four patterns [UpperLeftPointMtrs], [LowerRightMtrs], [XDim], [YDim]
    does not match its text, [get_modis_projection_info] returns [None]:
    no bundle, and so none with default or zero values. *)
Theorem missing_pattern_yields_no_bundle
    (st : state) (hdf_file : string) (a : archive) :
  fs st !! hdf_file = Some (Hdf a) →
  ((∀ v, ("StructMetadata.0"%string, v) ∉ ar_attrs a)
   ∨ ∃ text, struct_metadata_of (ar_attrs a) = AStr text
       ∧ (Re.search_pair "UpperLeftPointMtrs" text = None
          ∨ Re.search_pair "LowerRightMtrs" text = None
          ∨ Re.search_dim "XDim" text = None
          ∨ Re.search_dim "YDim" text = None)) →
  fst (get_modis_projection_info hdf_file st) = Ret None.
Proof.
  intros Hf Hm.
  assert (∃ text, struct_metadata_of (ar_attrs a) = AStr text
       ∧ (Re.search_pair "UpperLeftPointMtrs" text = None
          ∨ Re.search_pair "LowerRightMtrs" text = None
          ∨ Re.search_dim "XDim" text = None
          ∨ Re.search_dim "YDim" text = None)) as (text & Ht & Hnone).
  { destruct Hm as [Habs|Hm]; [|done].
    exists ""%string. split; [by apply absent_metadata | by left]. }
  destruct (opened_attributes st hdf_file a Hf) as [Ho Ha].
  unfold get_modis_projection_info. run_monad.
  rewrite Ho. simpl. rewrite Ha, Ht. simpl.
  destruct (Re.search_pair "UpperLeftPointMtrs" text) as [ul|],
    (Re.search_pair "LowerRightMtrs" text) as [lr|],
    (Re.search_dim "XDim" text) as [xd|],
    (Re.search_dim "YDim" text) as [yd|];
    try (rewrite end_after_use by done; reflexivity).
  by destruct Hnone as [?|[?|[?|?]]].
Qed.


End Builder.

(** ** The raster materializer *)

Section Materializer.
Import PyStr PyNum Converter.

Lemma app_one_neq {A : Type} (l : list A) (x : A) : l ≠ l ++ [x].
Proof.
  intros H. apply (f_equal length) in H. rewrite length_app in H.
  simpl in H. lia.
Qed.

(** When the steps before the [try] block raise nothing, the output path
    is the joined name, and the only change is that no file is at that
    path any more. *)
Lemma prepare_output_ret (dir base : string) (date : option string)
    (name path : string) (st st1 : state) :
  prepare_output dir base date name st = (Ret path, st1) →
  (∃ fn, output_filename base date name = Ret fn ∧ path = OsPath.join dir fn)
  ∧ os st1 = os st ∧ log st1 = log st ∧ fs st1 = delete path (fs st).
Proof.
  unfold prepare_output, os_path_exists, os_remove. run_monad.
  destruct (output_filename base date name) as [fn|e]; [|done].
  case_bool_decide as Hp.
  - destruct Hp as [f Hp]. rewrite Hp.
    destruct f; try done;
      (destruct (remove_denied _ _); [done|]; intros [= <- <-]; eauto 10).
  - intros [= <- <-]. repeat split; eauto.
    symmetry. apply delete_id. by apply eq_None_not_Some.
Qed.

(** The [try] block on a grid whose rank is not 2: [continue], whatever
    else holds, and no file is touched. *)
Lemma materialize_rank (h : handle) (pi : option projection_info)
    (path name : string) (acc : list string) (st : state)
    (d : dataset) (shape : list nat) (items : attrs) :
  List.find (fun d => String.eqb (ds_name d) name)
    (ar_datasets (h_archive h)) = Some d →
  ds_read d = Some (shape, items) →
  length shape ≠ 2%nat →
  ∃ st', materialize h pi path name acc st = (Ret acc, st')
    ∧ fs st' = fs st ∧ os st' = os st.
Proof.
  intros Hd Hr Hs.
  unfold materialize, sd_read, sd_use, gdal_driver. run_monad.
  destruct (ended (h_id h) (log st)); [eauto|]. simpl.
  rewrite Hd, Hr. simpl.
  destruct (gtiff_driver (os st)); simpl; [|eauto].
  destruct shape as [|y [|x [|z s]]]; simpl in *; try done; eauto.
Qed.

(** The [try] block that appends its path: what was read, and the raster
    that stands at the path. *)
Lemma materialize_success (h : handle) (pi : option projection_info)
    (path name : string) (acc : list string) (st st' : state) :
  materialize h pi path name acc st = (Ret (acc ++ [path]), st') →
  ∃ d x_size y_size items info gt r,
    List.find (fun d => String.eqb (ds_name d) name)
      (ar_datasets (h_archive h)) = Some d
    ∧ ds_read d = Some ([y_size; x_size], items)
    ∧ usable_geotransform pi = Some (info, gt)
    ∧ fs st' !! path = Some (Raster r)
    ∧ r_size r = (x_size, y_size)
    ∧ r_geotransform r = Some gt
    ∧ r_projection r
      = Some (if truthy_str (projection_wkt info)
              then default EmptyString (projection_wkt info)
              else sinusoidal_wkt)
    ∧ r_band r = Some name
    ∧ r_metadata r = Some items
    ∧ match nodata_argument name items with
      | Some v => ∃ x, as_double v = Ret x ∧ r_nodata r = Some x
      | None => r_nodata r = None
      end.
Proof.
  unfold materialize, sd_read, sd_use, gdal_driver, gdal_create,
    update_raster. run_monad.
  destruct (ended (h_id h) (log st)); simpl.
  { intros [= H _]. by apply app_one_neq in H. }
  destruct (List.find _ _) as [d|] eqn:Hd; simpl;
    [|intros [= H _]; by apply app_one_neq in H].
  destruct (ds_read d) as [[shape items]|] eqn:Hr; simpl;
    [|intros [= H _]; by apply app_one_neq in H].
  destruct (gtiff_driver (os st)); simpl;
    [|intros [= H _]; by apply app_one_neq in H].
  destruct shape as [|y [|x [|z s]]]; simpl;
    try (intros [= H _]; by apply app_one_neq in H).
  destruct (create_fails (os st) path); simpl;
    [intros [= H _]; by apply app_one_neq in H|].
  destruct (usable_geotransform pi) as [[info gt]|] eqn:Hg; simpl;
    [|intros [= H _]; by apply app_one_neq in H].
  destruct (nodata_argument name items) as [v|] eqn:Hn; simpl.
  - destruct (as_double v) as [x0|e] eqn:Hv; simpl;
      [|intros [= H _]; by apply app_one_neq in H].
    intros [= <-]. exists d, x, y, items, info, gt. eexists.
    repeat split; try done.
    { unfold set_fs, add_event; simpl.
      rewrite !lookup_alter_eq, lookup_insert_eq. simpl. reflexivity. }
    all: simpl; try done. rewrite Hn. eauto.
  - intros [= <-]. exists d, x, y, items, info, gt. eexists.
    repeat split; try done.
    { unfold set_fs, add_event; simpl.
      rewrite !lookup_alter_eq, lookup_insert_eq. simpl. reflexivity. }
    all: simpl; try done. by rewrite Hn.
Qed.

Lemma scan_nodata_first (pre post : attrs) (k : string) (v : attr_value) :
  Forall (fun kv => is_nodata_key kv.1 = false) pre →
  is_nodata_key k = true →
  scan_nodata (pre ++ (k, v) :: post) = Some v.
Proof.
  induction 1 as [|[k' v'] pre Hk _ IH]; intros Hkey; simpl in *.
  - by rewrite Hkey.
  - rewrite Hk. by apply IH.
Qed.

Lemma scan_nodata_none (items : attrs) :
  Forall (fun kv => is_nodata_key kv.1 = false) items →
  scan_nodata items = None.
Proof.
  induction 1 as [|[k v] items Hk _ IH]; simpl in *; [done|]. by rewrite Hk.
Qed.

Lemma as_double_minus_3000 : as_double (AInt (-3000)) = Ret minus_3000.
Proof. reflexivity. Qed.

Lemma sd_read_live (h : handle) (name : string) (st : state) :
  ended (h_id h) (log st) = false →
  sd_read h name st
  = (match List.find (fun d => String.eqb (ds_name d) name)
             (ar_datasets (h_archive h)) with
     | Some d => match ds_read d with
                 | Some r => Ret r
                 | None => Raise HDF4Error
                 end
     | None => Raise HDF4Error
     end, add_event (EUse (h_id h)) st).
Proof.
  intros He. unfold sd_read, sd_use. run_monad. rewrite He. simpl.
  destruct (List.find _ _) as [d|]; [|done]. by destruct (ds_read d).
Qed.

(** Lowercasing and the words of the no-data keys: a character becomes a
    letter of [no data] exactly when it is that letter or its capital. *)
Lemma lower_char_same_letter (b c : ascii) :
  In b (list_ascii_of_string "no dat") →
  Ascii.eqb b (lower_char c) = same_letter b c.
Proof.
  intros H. simpl in H.
  destruct H as [<-|[<-|[<-|[<-|[<-|[<-|[]]]]]]];
    destruct c as [[] [] [] [] [] [] [] []]; reflexivity.
Qed.

Lemma strip_prefix_lower (w s : string) :
  (∀ b, In b (list_ascii_of_string w) →
        In b (list_ascii_of_string "no dat")) →
  match strip_prefix w (lower s) with Some _ => true | None => false end
  = word_at w s.
Proof.
  revert s. induction w as [|b w IH]; intros s Hw; [done|].
  destruct s as [|c s]; [done|]. simpl.
  rewrite lower_char_same_letter by (apply Hw; by left).
  destruct (same_letter b c); [|done]. simpl. apply IH.
  intros b' Hb'. apply Hw. by right.
Qed.

Lemma contains_unfold (w s : string) :
  contains w s
  = match strip_prefix w s with Some _ => true | None => false end
    || match s with
       | EmptyString => false
       | String _ s' => contains w s'
       end.
Proof. destruct s; simpl; by destruct (strip_prefix _ _). Qed.

Lemma contains_lower (w s : string) :
  (∀ b, In b (list_ascii_of_string w) →
        In b (list_ascii_of_string "no dat")) →
  contains w (lower s) = has_word w s.
Proof.
  intros Hw. induction s as [|c s IH].
  - rewrite contains_unfold, strip_prefix_lower by done. done.
  - rewrite contains_unfold, strip_prefix_lower by done.
    simpl. by rewrite IH.
Qed.

(** The test of the code on the lowercased key is the test on the key
    read without regard to case. *)
Lemma is_nodata_key_names (key : string) :
  is_nodata_key key = names_nodata key.
Proof.
  unfold is_nodata_key, names_nodata.
  rewrite !contains_lower; [done| |]; intros b Hb; simpl in *; tauto.
Qed.

End Materializer.

Section MaterializerClaims.
Import PyStr PyNum Converter.

(** C4, as amended.  The removal of an older file at the output path
    comes before the shape is looked at.  For a selected dataset whose
    grid is not 2-dimensional, once the steps before the [try] block
    have raised nothing, the dataset is skipped with [output_files] as it
    was, no file stands at its output path afterwards, whether one stood
    there before or not, and every other path is as before. *)
Theorem skipped_rank_leaves_no_output_file
    (h : handle) (pi : option projection_info) (dir base : string)
    (date : option string) (name : string) (acc : list string)
    (st st1 : state) (path : string)
    (d : dataset) (shape : list nat) (items : attrs) :
  List.find (fun d => String.eqb (ds_name d) name)
    (ar_datasets (h_archive h)) = Some d →
  ds_read d = Some (shape, items) →
  length shape ≠ 2%nat →
  prepare_output dir base date name st = (Ret path, st1) →
  ∃ st2,
    process_dataset h pi dir base date name acc st = (Ret acc, st2)
    ∧ fs st2 !! path = None
    ∧ ∀ q, q ≠ path → fs st2 !! q = fs st !! q.
Proof.
  intros Hd Hr Hs Hp.
  destruct (materialize_rank h pi path name acc st1 d shape items Hd Hr Hs)
    as (st2 & Hm & Hfs & _).
  apply prepare_output_ret in Hp as Hp'. destruct Hp' as (_ & _ & _ & Hdel).
  exists st2. split; [|split].
  - unfold process_dataset. run_monad. by rewrite Hp, Hm.
  - rewrite Hfs, Hdel. apply lookup_delete_eq.
  - intros q Hq. rewrite Hfs, Hdel. by apply lookup_delete_ne.
Qed.

(** C6, as amended.  For a dataset whose raster the materializer
    writes (the handle is live, the grid is read and has rank 2, the
    driver is there, the raster is created and the bundle has a
    geotransform), the no-data value of the raster is: the double -3000
    when the name contains [NDVI] or [EVI], whatever the attributes;
    otherwise what the first attribute holds whose key contains
    [no data] or [nodata], in small letters or capitals, when that is a
    number that a double holds; otherwise none.  When the first such
    attribute holds a text, a sequence or an int beyond the doubles, the
    raster is left without a no-data value and the dataset is not
    reported: its path is not appended to [output_files]; the attributes
    that follow are not looked at. *)
Theorem nodata_of_materialized_dataset
    (h : handle) (pi : option projection_info) (path name : string)
    (acc : list string) (st : state) (d : dataset) (y_size x_size : nat)
    (items : attrs) (info : projection_info) (gt : list spec_float) :
  ended (h_id h) (log st) = false →
  List.find (fun d => String.eqb (ds_name d) name)
    (ar_datasets (h_archive h)) = Some d →
  ds_read d = Some ([y_size; x_size], items) →
  gtiff_driver (os st) = true →
  create_fails (os st) path = false →
  usable_geotransform pi = Some (info, gt) →
  ∃ outs st' r,
    materialize h pi path name acc st = (Ret outs, st')
    ∧ fs st' !! path = Some (Raster r)
    ∧ r_band r = Some name
    ∧ (contains "NDVI" name = true ∨ contains "EVI" name = true →
       r_nodata r = Some minus_3000 ∧ outs = acc ++ [path])
    ∧ (contains "NDVI" name = false → contains "EVI" name = false →
       (∀ pre k v post,
          items = pre ++ (k, v) :: post →
          Forall (fun kv => names_nodata kv.1 = false) pre →
          names_nodata k = true →
          match v with
          | AInt z =>
              match float_of_int z with
              | Ret x => r_nodata r = Some x ∧ outs = acc ++ [path]
              | Raise _ => r_nodata r = None ∧ outs = acc
              end
          | AFloat x => r_nodata r = Some x ∧ outs = acc ++ [path]
          | AStr _ | ASeq _ => r_nodata r = None ∧ outs = acc
          end)
       ∧ (Forall (fun kv => names_nodata kv.1 = false) items →
          r_nodata r = None ∧ outs = acc ++ [path])).
Proof.
  intros He Hd Hr Hdrv Hc Hg.
  assert (∀ pre k v post,
            items = pre ++ (k, v) :: post →
            Forall (fun kv => names_nodata kv.1 = false) pre →
            names_nodata k = true → scan_nodata items = Some v) as Hfirst.
  { intros pre k v post -> Hpre Hk. apply scan_nodata_first.
    - eapply Forall_impl; [exact Hpre|]. intros kv.
      by rewrite is_nodata_key_names.
    - by rewrite is_nodata_key_names. }
  assert (Forall (fun kv => names_nodata kv.1 = false) items →
          scan_nodata items = None) as Hnone.
  { intros Hall. apply scan_nodata_none.
    eapply Forall_impl; [exact Hall|]. intros kv.
    by rewrite is_nodata_key_names. }
  destruct (nodata_argument name items) as [v|] eqn:Hn;
    [destruct (as_double v) as [dv|ex] eqn:Hv|].
  all: eexists _, _, _;
    (split;
     [unfold materialize, gdal_driver, gdal_create, update_raster; run_monad;
      rewrite sd_read_live, Hd, Hr by done; simpl; rewrite Hdrv; simpl;
      rewrite Hc; simpl; rewrite Hg; simpl; rewrite Hn; simpl;
      rewrite ?Hv; simpl; reflexivity|]);
    (split;
     [simpl; rewrite ?lookup_alter_eq, lookup_insert_eq; simpl; reflexivity|]);
    (split; [reflexivity|]); simpl; unfold nodata_argument in Hn.
  - split.
    + intros Hveg.
      replace (contains "NDVI" name || contains "EVI" name) with true in Hn
        by (symmetry; apply orb_true_iff; done).
      injection Hn as <-. rewrite as_double_minus_3000 in Hv.
      by injection Hv as <-.
    + intros Hndvi Hevi. rewrite Hndvi, Hevi in Hn. simpl in Hn. split.
      * intros pre k v0 post Hitems Hpre Hk.
        rewrite (Hfirst pre k v0 post Hitems Hpre Hk) in Hn.
        injection Hn as ->. destruct v as [z|x|t|l]; simpl in Hv; try done.
        -- by rewrite Hv.
        -- by injection Hv as <-.
      * intros Hall. by rewrite (Hnone Hall) in Hn.
  - split.
    + intros Hveg.
      replace (contains "NDVI" name || contains "EVI" name) with true in Hn
        by (symmetry; apply orb_true_iff; done).
      injection Hn as <-. by rewrite as_double_minus_3000 in Hv.
    + intros Hndvi Hevi. rewrite Hndvi, Hevi in Hn. simpl in Hn. split.
      * intros pre k v0 post Hitems Hpre Hk.
        rewrite (Hfirst pre k v0 post Hitems Hpre Hk) in Hn.
        injection Hn as ->. destruct v as [z|x|t|l]; simpl in Hv; try done.
        by rewrite Hv.
      * intros Hall. by rewrite (Hnone Hall) in Hn.
  - split.
    + intros Hveg.
      replace (contains "NDVI" name || contains "EVI" name) with true in Hn
        by (symmetry; apply orb_true_iff; done).
      done.
    + intros Hndvi Hevi. rewrite Hndvi, Hevi in Hn. simpl in Hn. split.
      * intros pre k v0 post Hitems Hpre Hk.
        by rewrite (Hfirst pre k v0 post Hitems Hpre Hk) in Hn.
      * done.
Qed.

(** C7, as amended.  A selected dataset whose grid has a rank other than
    2 is skipped, and the loop goes on with the datasets that follow it,
    once the steps before the [try] block have raised nothing: the output
    name is computed, and an older file at the output path, if there is
    one, is removed.  Then the loop over the dataset and the rest is the
    loop over the rest, with the same [output_files], from a state with
    the same files and system.  A removal that raises is outside the
    [try] block of the dataset and ends the conversion of the archive. *)
Theorem rank_mismatch_is_skipped
    (h : handle) (pi : option projection_info) (dir base : string)
    (date : option string) (name : string) (rest acc : list string)
    (st st1 : state) (path : string)
    (d : dataset) (shape : list nat) (items : attrs) :
  List.find (fun d => String.eqb (ds_name d) name)
    (ar_datasets (h_archive h)) = Some d →
  ds_read d = Some (shape, items) →
  length shape ≠ 2%nat →
  prepare_output dir base date name st = (Ret path, st1) →
  ∃ st2,
    fs st2 = fs st1 ∧ os st2 = os st1
    ∧ process_dataset h pi dir base date name acc st = (Ret acc, st2)
    ∧ process_datasets h pi dir base date (name :: rest) acc st
      = process_datasets h pi dir base date rest acc st2.
Proof.
  intros Hd Hr Hs Hp.
  destruct (materialize_rank h pi path name acc st1 d shape items Hd Hr Hs)
    as (st2 & Hm & Hfs & Hos).
  assert (process_dataset h pi dir base date name acc st = (Ret acc, st2))
    as Hpd by (unfold process_dataset; run_monad; by rewrite Hp, Hm).
  exists st2. repeat split; try done.
  simpl. unfold mbind, M_bind. by rewrite Hpd.
Qed.

End MaterializerClaims.

(** ** Computations that only add to the log *)

Section LogOnly.
Import Converter.

Lemma state_eta (st : state) :
  {| os := os st; fs := fs st; log := log st ++ [] |} = st.
Proof. destruct st. simpl. by rewrite app_nil_r. Qed.

Lemma log_only_ret {A} (a : A) : log_only (mret a : M A).
Proof. intros st. exists (Ret a), []. rewrite state_eta; reflexivity. Qed.

Lemma log_only_raise {A} (e : exn) : log_only (raise e : M A).
Proof. intros st. exists (Raise e), []. rewrite state_eta; reflexivity. Qed.

Lemma log_only_lift {A} (o : outcome A) : log_only (lift o).
Proof. intros st. exists o, []. rewrite state_eta; reflexivity. Qed.

Lemma log_only_bind {A B} (m : M A) (f : A → M B) :
  log_only m → (∀ a, log_only (f a)) → log_only (m ≫= f).
Proof.
  intros Hm Hf st. destruct (Hm st) as (r & lg & E).
  unfold mbind, M_bind. rewrite E. destruct r as [a|e].
  - destruct (Hf a {| os := os st; fs := fs st; log := log st ++ lg |})
      as (r' & lg' & E'). rewrite E'. simpl.
    exists r', (lg ++ lg'). by rewrite app_assoc.
  - by exists (Raise e), lg.
Qed.

Lemma log_only_try {A} (m : M A) (f : exn → M A) :
  log_only m → (∀ e, log_only (f e)) → log_only (try_except m f).
Proof.
  intros Hm Hf st. destruct (Hm st) as (r & lg & E).
  unfold try_except. rewrite E. destruct r as [a|e].
  - by exists (Ret a), lg.
  - destruct (Hf e {| os := os st; fs := fs st; log := log st ++ lg |})
      as (r' & lg' & E'). rewrite E'. simpl.
    exists r', (lg ++ lg'). by rewrite app_assoc.
Qed.

Lemma log_only_SD (p : string) : log_only (SD p).
Proof.
  intros st. unfold SD.
  destruct (fs st !! p) as [[]|];
    try (exists (Raise HDF4Error), []; rewrite state_eta; reflexivity).
  by eexists _, [_].
Qed.

Lemma log_only_sd_use (h : handle) : log_only (sd_use h).
Proof.
  intros st. unfold sd_use. destruct (ended _ _).
  - exists (Raise HDF4Error), []; rewrite state_eta; reflexivity.
  - by eexists _, [_].
Qed.

Lemma log_only_sd_end (h : handle) : log_only (sd_end h).
Proof.
  intros st. unfold sd_end. destruct (ended _ _).
  - exists (Raise HDF4Error), []; rewrite state_eta; reflexivity.
  - by eexists _, [_].
Qed.

Lemma log_only_re_search {A} (pat : string → option A) (v : attr_value) :
  log_only (re_search pat v).
Proof. destruct v; simpl; auto using @log_only_ret, @log_only_raise. Qed.

Ltac log_only_step :=
  first [ apply log_only_ret | apply log_only_raise | apply log_only_lift
        | apply log_only_SD | apply log_only_sd_use | apply log_only_sd_end
        | apply log_only_re_search
        | apply log_only_try; [|intros ?]
        | apply log_only_bind; [|intros ?] ].

Lemma log_only_get_modis_projection_info (p : string) :
  log_only (get_modis_projection_info p).
Proof.
  unfold get_modis_projection_info, sd_attributes.
  repeat log_only_step.
  repeat case_match; repeat log_only_step.
Qed.

(** [get_modis_projection_info] raises nothing and touches no file. *)
Lemma get_modis_projection_info_returns (p : string) (st : state) :
  ∃ pi lg,
    get_modis_projection_info p st
    = (Ret pi, {| os := os st; fs := fs st; log := log st ++ lg |}).
Proof.
  destruct (log_only_get_modis_projection_info p st) as (r & lg & E).
  destruct r as [pi|e]; [eauto|].
  unfold get_modis_projection_info, try_except in E.
  repeat case_match; simplify_eq.
Qed.

End LogOnly.

(** ** Making directories *)

Section Directories.
Import PyStr.

Lemma split_last_slash_app (p h t : string) :
  OsPath.split_last_slash p = Some (h, t) → p = (h ++ t)%string.
Proof.
  revert h t. induction p as [|a p IH]; intros h t; simpl; [done|].
  destruct (OsPath.split_last_slash p) as [[h' t']|].
  - intros [= <- <-]. by rewrite (IH h' t' eq_refl) at 1.
  - destruct (Ascii.eqb_spec a "/") as [->|]; [|done]. by intros [= <- <-].
Qed.

Lemma rstrip_slash_prefix (h : string) :
  ∃ r, h = (OsPath.rstrip_slash h ++ r)%string.
Proof.
  induction h as [|c h [r IH]]; simpl; [by exists ""%string|].
  destruct (OsPath.rstrip_slash h) as [|x y] eqn:E.
  - destruct (Ascii.eqb c "/"); [by eexists|].
    exists h. done.
  - exists r. simpl. by rewrite IH at 1.
Qed.

(** A head is the start of its path. *)
Lemma dirname_prefix (p : string) :
  ∃ r, p = (OsPath.dirname p ++ r)%string.
Proof.
  unfold OsPath.dirname.
  destruct (OsPath.split_last_slash p) as [[h t]|] eqn:E; [|by exists p].
  apply split_last_slash_app in E as ->.
  destruct (rstrip_slash_prefix h) as [r Hr].
  destruct (OsPath.rstrip_slash h) as [|x y] eqn:Es; [by eexists|].
  exists (r ++ t)%string. rewrite <- string_app_assoc. by rewrite <- Hr.
Qed.

Lemma is_empty_length (s : string) :
  is_empty s = false ↔ (0 < String.length s)%nat.
Proof. destruct s; simpl; split; (done || lia). Qed.

(** A head is shorter than its path when the tail is not empty. *)
Lemma dirname_shorter (p : string) :
  is_empty (OsPath.basename p) = false →
  (String.length (OsPath.dirname p) < String.length p)%nat.
Proof.
  unfold OsPath.dirname, OsPath.basename.
  destruct (OsPath.split_last_slash p) as [[h t]|] eqn:E.
  - apply split_last_slash_app in E as ->. intros Ht%is_empty_length.
    destruct (rstrip_slash_prefix h) as [r Hr].
    assert (String.length (OsPath.rstrip_slash h) <= String.length h)%nat.
    { rewrite Hr at 2. rewrite string_app_length. lia. }
    rewrite string_app_length.
    destruct (OsPath.rstrip_slash h); simpl in *; lia.
  - intros Hp%is_empty_length. simpl. lia.
Qed.

Lemma dirname_not_longer (p : string) :
  (String.length (OsPath.dirname p) <= String.length p)%nat.
Proof.
  destruct (dirname_prefix p) as [r Hr]. rewrite Hr at 2.
  rewrite string_app_length. lia.
Qed.

Lemma split_parent_prefix (p head tail : string) :
  split_parent p = (head, tail) → ∃ r, p = (head ++ r)%string.
Proof.
  unfold split_parent, OsPath.split.
  destruct (is_empty (OsPath.basename p)); intros [= <- <-].
  - destruct (dirname_prefix p) as [r Hr].
    destruct (dirname_prefix (OsPath.dirname p)) as [r' Hr'].
    exists (r' ++ r)%string. rewrite <- string_app_assoc.
    by rewrite <- Hr', <- Hr.
  - apply dirname_prefix.
Qed.

Lemma split_parent_shorter (p head tail : string) :
  split_parent p = (head, tail) → is_empty tail = false →
  (String.length head < String.length p)%nat.
Proof.
  unfold split_parent, OsPath.split.
  destruct (is_empty (OsPath.basename p)) eqn:E; intros [= <- <-] Ht.
  - pose proof (dirname_shorter _ Ht). pose proof (dirname_not_longer p). lia.
  - by apply dirname_shorter.
Qed.

(** Fuel above the length of the path is enough: more changes nothing. *)
Lemma makedirs_fuel (n m : nat) (name : string) (st : state) :
  (String.length name < n)%nat → (String.length name < m)%nat →
  makedirs n name st = makedirs m name st.
Proof.
  revert m name st. induction n as [|n IH]; intros m name st Hn Hm; [lia|].
  destruct m as [|m]; [lia|]. simpl.
  destruct (split_parent name) as [head tail] eqn:Hs.
  unfold mbind, M_bind, mret, M_ret, os_path_exists. simpl.
  destruct (negb (is_empty head) && negb (is_empty tail)) eqn:Ha; [|done].
  destruct (bool_decide _); [done|].
  apply andb_prop in Ha as [_ Ht%negb_true_iff].
  pose proof (split_parent_shorter _ _ _ Hs Ht).
  by rewrite (IH m head st) by lia.
Qed.

Ltac unchanged :=
  simpl; repeat case_match; intros [= <- <-]; eauto.

(** What [os.makedirs] does to the files, whatever it returns: the
    system and the log stay, what was there stays, and what is new is a
    directory at a start of the path. *)
Lemma makedirs_frame (n : nat) (name : string) (st st1 : state)
    (r : outcome unit) :
  makedirs n name st = (r, st1) →
  os st1 = os st ∧ log st1 = log st
  ∧ ∀ q, fs st1 !! q = fs st !! q
         ∨ fs st !! q = None ∧ fs st1 !! q = Some Dir
           ∧ ∃ rest, name = (q ++ rest)%string.
Proof.
  revert name st st1 r.
  induction n as [|n IH]; intros name st st1 r; simpl.
  { intros [= <- <-]. eauto. }
  destruct (split_parent name) as [head tail] eqn:Hs.
  assert (∀ s s1 r0,
            (if false && String.eqb tail "." then dir_is_there name
             else try_except (os_mkdir name)
                    (fun e => isdir ← os_path_isdir name;
                              if isdir : bool then mret tt else raise e)) s
            = (r0, s1) →
            os s1 = os s ∧ log s1 = log s
            ∧ ∀ q, fs s1 !! q = fs s !! q
                   ∨ fs s !! q = None ∧ fs s1 !! q = Some Dir
                     ∧ ∃ rest, name = (q ++ rest)%string) as Hmk.
  { intros s s1 r0. simpl.
    unfold try_except, os_mkdir, os_path_isdir, mbind, M_bind, mret, M_ret,
      raise.
    rewrite Hs.
    destruct (is_empty name); [unchanged|].
    simpl.
    destruct (fs s !! name) as [x|] eqn:E; [unchanged|].
    destruct (_ || _); simpl; [|unchanged].
    destruct (mkdir_denied _ _); simpl; [unchanged|].
    intros [= <- <-]. simpl. split; [done|]. split; [done|].
    intros q. destruct (decide (q = name)) as [->|Hne].
    - right. rewrite lookup_insert_eq. split; [done|]. split; [done|].
      exists ""%string. by rewrite string_app_nil.
    - left. by rewrite lookup_insert_ne. }
  unfold mbind at 1, M_bind at 1.
  destruct (negb (is_empty head) && negb (is_empty tail)) eqn:Ha.
  2:{ unfold mret, M_ret. apply Hmk. }
  unfold mbind at 1, M_bind at 1, os_path_exists.
  destruct (bool_decide (is_Some (fs st !! head))) eqn:Hp.
  { unfold mret, M_ret. apply Hmk. }
  unfold mbind at 1, M_bind at 1.
  destruct (makedirs n head st) as [[[]|e] st0] eqn:Hrec.
  2:{ intros [= <- <-]. apply IH in Hrec as (Hos & Hlog & Hfr).
      split; [done|]. split; [done|]. intros q.
      destruct (Hfr q) as [?|(? & ? & r0 & Hr0)]; [by left|right].
      split; [done|]. split; [done|].
      destruct (split_parent_prefix _ _ _ Hs) as [r1 Hr1].
      exists (r0 ++ r1)%string. rewrite <- string_app_assoc.
      by rewrite <- Hr0. }
  apply IH in Hrec as (Hos & Hlog & Hfr).
  assert (∀ q, fs st0 !! q = fs st !! q
               ∨ fs st !! q = None ∧ fs st0 !! q = Some Dir
                 ∧ ∃ rest, name = (q ++ rest)%string) as Hfr0.
  { intros q.
    destruct (Hfr q) as [?|(? & ? & r0 & Hr0)]; [by left|right].
    split; [done|]. split; [done|].
    destruct (split_parent_prefix _ _ _ Hs) as [r1 Hr1].
    exists (r0 ++ r1)%string. rewrite <- string_app_assoc.
    by rewrite <- Hr0. }
  assert (∀ s1 r0,
            os s1 = os st0 ∧ log s1 = log st0
            ∧ (∀ q, fs s1 !! q = fs st0 !! q
                    ∨ fs st0 !! q = None ∧ fs s1 !! q = Some Dir
                      ∧ ∃ rest, name = (q ++ rest)%string) →
            (r0, s1) = (r, st1) →
            os st1 = os st ∧ log st1 = log st
            ∧ ∀ q, fs st1 !! q = fs st !! q
                   ∨ fs st !! q = None ∧ fs st1 !! q = Some Dir
                     ∧ ∃ rest, name = (q ++ rest)%string) as Hcomp.
  { intros s1 r0 (Hos1 & Hlog1 & Hfr1) [= <- <-].
    split; [congruence|]. split; [congruence|]. intros q.
    destruct (Hfr1 q) as [E1|(E1 & E2 & Hpre)];
      destruct (Hfr0 q) as [E0|(E0 & E0' & Hpre0)].
    - left. congruence.
    - right. rewrite E1. done.
    - right. rewrite <- E0. done.
    - congruence. }
  unfold mret at 1, M_ret at 1. cbv beta iota.
  destruct (String.eqb tail ".") eqn:Hdot; simpl.
  - unfold dir_is_there.
    destruct (fs st0 !! name) as [x|] eqn:E.
    + destruct x; apply Hcomp; eauto.
    + apply Hcomp. simpl. split; [done|]. split; [done|]. intros q.
      destruct (decide (q = name)) as [->|Hne].
      * right. rewrite lookup_insert_eq. split; [done|]. split; [done|].
        exists ""%string. by rewrite string_app_nil.
      * left. by rewrite lookup_insert_ne.
  - intros E. specialize (Hmk st0 st1 r E). apply (Hcomp st1 r); [|done].
    exact Hmk.
Qed.

Lemma mkdir_or_there (name : string) (s s1 : state) :
  try_except (os_mkdir name)
    (fun e => isdir ← os_path_isdir name;
              if isdir : bool then mret tt else raise e) s
  = (Ret tt, s1) →
  fs s1 !! name = Some Dir ∧ is_empty name = false
  ∧ ∀ q, is_Some (fs s !! q) → is_Some (fs s1 !! q).
Proof.
  unfold try_except, os_mkdir, os_path_isdir, mbind, M_bind, mret, M_ret,
    raise.
  destruct (split_parent name) as [head tail].
  destruct (is_empty name) eqn:En.
  { simpl. destruct (fs s !! name) as [[]|]; done. }
  destruct (fs s !! name) as [x|] eqn:E.
  { simpl. rewrite E. destruct x; try done. simpl. by intros [= <-]. }
  destruct (_ || _); simpl; [|by rewrite E].
  destruct (mkdir_denied _ _); simpl; [by rewrite E|].
  intros [= <-]. simpl. rewrite lookup_insert_eq. split; [done|].
  split; [done|]. intros q [x Hq].
  destruct (decide (q = name)) as [->|Hne]; [congruence|].
  rewrite lookup_insert_ne by done. eauto.
Qed.

(** When [os.makedirs] returns, the path is a directory, and so is what
    stands above it. *)
Lemma makedirs_ret (n : nat) (name : string) (st st1 : state) :
  makedirs n name st = (Ret tt, st1) →
  fs st1 !! name = Some Dir ∧ is_empty name = false
  ∧ ∀ head tail, split_parent name = (head, tail) →
      is_empty head = false → is_empty tail = false →
      is_Some (fs st1 !! head).
Proof.
  revert name st st1. induction n as [|n IH]; intros name st st1; [done|].
  simpl. destruct (split_parent name) as [head tail] eqn:Hs.
  unfold mbind at 1, M_bind at 1.
  destruct (negb (is_empty head) && negb (is_empty tail)) eqn:Ha.
  2:{ unfold mret, M_ret. simpl. intros (H1 & H2 & _)%mkdir_or_there.
      split; [done|]. split; [done|]. intros h t [= <- <-] Hh Ht.
      by rewrite Hh, Ht in Ha. }
  unfold mbind at 1, M_bind at 1, os_path_exists.
  case_bool_decide as Hp.
  { unfold mret, M_ret. simpl. intros (H1 & H2 & H3)%mkdir_or_there.
    split; [done|]. split; [done|]. intros h t [= <- <-] _ _. by apply H3. }
  unfold mbind at 1, M_bind at 1.
  destruct (makedirs n head st) as [[[]|e] st0] eqn:Hrec; [|done].
  apply IH in Hrec as (Hhead & _ & _).
  unfold mret at 1, M_ret at 1. cbv beta iota.
  destruct (String.eqb tail ".") eqn:Hdot; simpl.
  - unfold dir_is_there.
    assert (is_empty name = false) as Hne.
    { destruct (split_parent_prefix _ _ _ Hs) as [r ->].
      apply andb_prop in Ha as [Hh%negb_true_iff _]. by destruct head. }
    destruct (fs st0 !! name) as [[]|] eqn:E; try done.
    + intros [= <-]. split; [done|]. split; [done|].
      intros h t [= <- <-] _ _. eauto.
    + intros [= <-]. simpl. rewrite lookup_insert_eq. split; [done|].
      split; [done|]. intros h t [= <- <-] _ _.
      destruct (decide (head = name)) as [->|Hn]; [congruence|].
      rewrite lookup_insert_ne by done. eauto.
  - intros (H1 & H2 & H3)%mkdir_or_there. split; [done|]. split; [done|].
    intros h t [= <- <-] _ _. apply H3. eauto.
Qed.

(** On a directory below a path that is there, [os.makedirs] does
    nothing. *)
Lemma makedirs_settled (n : nat) (name : string) (s : state) :
  is_empty name = false → fs s !! name = Some Dir →
  (∀ head tail, split_parent name = (head, tail) →
     is_empty head = false → is_empty tail = false →
     is_Some (fs s !! head)) →
  makedirs (S n) name s = (Ret tt, s).
Proof.
  intros Hne Hd Hh. simpl.
  destruct (split_parent name) as [head tail] eqn:Hs.
  assert (try_except (os_mkdir name)
            (fun e => isdir ← os_path_isdir name;
                      if isdir : bool then mret tt else raise e) s
          = (Ret tt, s)) as Hmk.
  { unfold try_except, os_mkdir, os_path_isdir, mbind, M_bind, mret, M_ret.
    cbv beta. rewrite Hne, Hd. cbv beta iota. by rewrite ?Hd, ?Hne. }
  unfold mbind at 1, M_bind at 1.
  destruct (negb (is_empty head) && negb (is_empty tail)) eqn:Ha.
  2:{ unfold mret, M_ret. exact Hmk. }
  apply andb_prop in Ha as [H1%negb_true_iff H2%negb_true_iff].
  unfold mbind at 1, M_bind at 1, os_path_exists.
  rewrite bool_decide_eq_true_2 by eauto.
  unfold mret, M_ret. exact Hmk.
Qed.

(** [os.makedirs] keeps what was there. *)
Lemma os_makedirs_ret (p : string) (st st1 : state) :
  os_makedirs p st = (Ret tt, st1) →
  os st1 = os st ∧ log st1 = log st
  ∧ fs st1 !! p = Some Dir
  ∧ ∀ q f, fs st !! q = Some f → fs st1 !! q = Some f.
Proof.
  unfold os_makedirs. intros H.
  destruct (makedirs_frame _ _ _ _ _ H) as (Hos & Hlog & Hfr).
  destruct (makedirs_ret _ _ _ _ H) as (Hd & _).
  repeat split; try done. intros q f Hq.
  destruct (Hfr q) as [->|[? _]]; congruence.
Qed.

(** [os.makedirs] leaves the system and the log, and every path longer
    than its own; what it changes was missing and is a directory
    afterwards, at a start of its path. *)
Lemma os_makedirs_frame (p : string) (st st1 : state) (r : outcome unit) :
  os_makedirs p st = (r, st1) →
  os st1 = os st ∧ log st1 = log st
  ∧ (∀ q, (String.length p < String.length q)%nat →
          fs st1 !! q = fs st !! q)
  ∧ (∀ q, fs st1 !! q = fs st !! q
          ∨ fs st !! q = None ∧ fs st1 !! q = Some Dir
            ∧ ∃ rest, p = (q ++ rest)%string).
Proof.
  unfold os_makedirs. intros H.
  destruct (makedirs_frame _ _ _ _ _ H) as (Hos & Hlog & Hfr).
  repeat split; try done. intros q Hq.
  destruct (Hfr q) as [->|(_ & _ & r0 & ->)]; [done|].
  rewrite string_app_length in Hq. lia.
Qed.

(** Once made, made again: [os.makedirs] does nothing on a state that
    holds, at the paths no longer than its own, what the first call
    left. *)
Lemma os_makedirs_settled (p : string) (st st1 s : state) :
  os_makedirs p st = (Ret tt, st1) →
  (∀ q, (String.length q <= String.length p)%nat →
        fs s !! q = fs st1 !! q) →
  os_makedirs p s = (Ret tt, s).
Proof.
  unfold os_makedirs. intros H Hs.
  destruct (makedirs_ret _ _ _ _ H) as (Hd & Hne & Hh).
  apply makedirs_settled; [done|by rewrite Hs|].
  intros head tail Hsp H1 H2. rewrite Hs; [by eapply Hh|].
  destruct (split_parent_prefix _ _ _ Hsp) as [r Hr].
  apply (f_equal String.length) in Hr. rewrite string_app_length in Hr. lia.
Qed.

Lemma os_makedirs_nonempty (p : string) (st st1 : state) :
  os_makedirs p st = (Ret tt, st1) → is_empty p = false.
Proof.
  unfold os_makedirs. intros H. by destruct (makedirs_ret _ _ _ _ H) as (_ & ? & _).
Qed.

(** The empty path cannot be made. *)
Lemma os_makedirs_empty (st : state) :
  os_makedirs "" st = (Raise OSError, st).
Proof.
  unfold os_makedirs. simpl.
  unfold mbind, M_bind, mret, M_ret, try_except, os_mkdir, os_path_isdir,
    raise. simpl.
  by destruct (fs st !! ""%string) as [[]|].
Qed.
End Directories.

(** ** The dataset selector *)

Section Selector.
Import PyStr Converter.

(** The names of an opened archive. *)
Lemma opened_datasets (st : state) (hdf_file : string) (a : archive) :
  fs st !! hdf_file = Some (Hdf a) →
  let h := {| h_id := fresh_handle (log st); h_archive := a |} in
  SD hdf_file st = (Ret h, add_event (EOpen (h_id h)) st)
  ∧ sd_datasets h (add_event (EOpen (h_id h)) st)
    = (Ret (dataset_names a),
       add_event (EUse (h_id h)) (add_event (EOpen (h_id h)) st)).
Proof.
  intros H h. split.
  - unfold SD. by rewrite H.
  - unfold sd_datasets, sd_use. run_monad.
    by rewrite ended_app, fresh_handle_not_ended.
Qed.

(** The selection out of the listed names is a part of the selection out
    of all names. *)
Lemma select_datasets_keys (ds : option (list string)) (l : list string) :
  select_datasets ds (dict_keys l) `sublist_of` select_datasets ds l.
Proof.
  destruct ds; apply filter_of_sublist, dict_keys_sublist.
Qed.

Lemma select_datasets_keys_elem (ds : option (list string))
    (l : list string) (x : string) :
  x ∈ select_datasets ds (dict_keys l) ↔ x ∈ select_datasets ds l.
Proof.
  destruct ds; simpl; by rewrite !elem_of_filter_bool, dict_keys_elem.
Qed.

(** C5.  Without a request the selector takes the names that contain
    [NDVI], the letters as they are; with a request it takes the names
    that are both in the archive and in the request; in both cases in
    the order of the archive, whatever the order of the request.  An
    empty selection is no error: the conversion returns the empty list
    through its normal end, the archive handle ended, and creates no
    file. *)
Theorem selector_policy (all_datasets : list string) :
  (∀ x, x ∈ select_datasets None all_datasets
        ↔ x ∈ all_datasets ∧ ∃ pre post, x = (pre ++ "NDVI" ++ post)%string)
  ∧ (∀ requested x,
       x ∈ select_datasets (Some requested) all_datasets
       ↔ x ∈ all_datasets ∧ x ∈ requested)
  ∧ (∀ datasets, select_datasets datasets all_datasets `sublist_of` all_datasets)
  ∧ (∀ requested requested',
       (∀ x, x ∈ requested ↔ x ∈ requested') →
       select_datasets (Some requested) all_datasets
       = select_datasets (Some requested') all_datasets)
  ∧ (∀ st st1 hdf_file a output_dir datasets,
       map ds_name (ar_datasets a) = all_datasets →
       fs st !! hdf_file = Some (Hdf a) →
       os_makedirs (match output_dir with
                    | None => OsPath.dirname hdf_file
                    | Some d => d
                    end) st = (Ret tt, st1) →
       select_datasets datasets all_datasets = [] →
       ∃ st' h,
         hdf_to_geotiff_sinusoidal hdf_file output_dir datasets st
         = (Ret [], st')
         ∧ fs st' = fs st1
         ∧ last (log st') = Some (EEnd h)).
Proof.
  split; [|split; [|split; [|split]]].
  - intros x. unfold select_datasets.
    by rewrite elem_of_filter_bool, contains_spec.
  - intros req x. unfold select_datasets.
    by rewrite elem_of_filter_bool, mem_spec.
  - intros [req|]; apply filter_sublist.
  - intros req req' Heq. simpl. apply filter_ext. intros x.
    apply eq_true_iff_eq. by rewrite !mem_spec.
  - intros st st1 hdf_file a output_dir datasets Hnames Hf Hmk Hsel.
    destruct (os_makedirs_ret _ _ _ Hmk) as (Hos & Hlog & _ & Hkeep).
    destruct (get_modis_projection_info_returns hdf_file st1)
      as (pi & lg & Hpi).
    set (st2 := {| os := os st1; fs := fs st1; log := log st1 ++ lg |}) in *.
    destruct (opened_datasets st2 hdf_file a (Hkeep _ _ Hf)) as [Ho Hd].
    eexists _, (fresh_handle (log st2)). split; [|split].
    + unfold hdf_to_geotiff_sinusoidal, os_path_exists. run_monad.
      rewrite bool_decide_eq_true_2 by (by rewrite Hf). simpl.
      rewrite Hmk, Hpi. fold st2. rewrite Ho. simpl in *. rewrite Hd.
      assert (select_datasets datasets (dataset_names a) = []) as ->.
      { apply sublist_nil_r. rewrite <- Hsel, <- Hnames.
        apply select_datasets_keys. }
      simpl. rewrite end_after_use by done.
      reflexivity.
    + done.
    + simpl. by rewrite last_snoc.
Qed.

End Selector.

(** ** The conversion as a whole *)

Section Conversion.
Import PyStr PyNum Converter Skill.

Lemma split_last_slash_None (p : string) :
  OsPath.split_last_slash p = None → ∀ r, p ≠ String "/" r.
Proof.
  destruct p as [|a p]; [done|]. simpl.
  destruct (OsPath.split_last_slash p) as [[h t]|]; [done|].
  destruct (Ascii.eqb_spec a "/"); [done|]. intros _ r [= ? _]. done.
Qed.

(** A base name does not start with a slash. *)
Lemma basename_no_leading_slash (p r : string) :
  OsPath.basename p ≠ String "/" r.
Proof.
  unfold OsPath.basename.
  destruct (OsPath.split_last_slash p) as [[h t]|] eqn:E;
    [|by apply split_last_slash_None].
  revert h t E. induction p as [|a p IH]; intros h t; [done|]. simpl.
  destruct (OsPath.split_last_slash p) as [[h' t']|] eqn:E'.
  - intros [= <- <-]. by eapply IH.
  - destruct (Ascii.eqb_spec a "/"); [|done]. intros [= <- <-].
    by apply split_last_slash_None.
Qed.

Lemma split_on_head (c : ascii) (s : string) :
  ∃ h t, split_on c s = h :: t
    ∧ (h = ""%string ∨ ∃ a r r', s = String a r ∧ h = String a r').
Proof.
  destruct s as [|a s]; simpl; [by eexists _, _; eauto|].
  destruct (Ascii.eqb a c); [by eexists _, _; eauto|].
  destruct (split_on c s) as [|h t]; eexists _, _; split; eauto 10.
Qed.

Lemma output_filename_no_leading_slash (p : string) (date : option string)
    (name fn : string) :
  output_filename (OsPath.basename p) date name = Ret fn →
  ∀ r, fn ≠ String "/" r.
Proof.
  unfold output_filename.
  destruct (split_on_head "." (OsPath.basename p)) as (h & t & -> & Hh).
  simpl.
  assert (∀ x r, (h ++ "_" ++ x)%string ≠ String "/" r) as Hne.
  { intros x r0. destruct Hh as [->|(a & r1 & r' & Hb & ->)]; [done|].
    simpl. intros [= -> _]. by eapply basename_no_leading_slash. }
  destruct (truthy_str date); [intros [= <-]; apply Hne|].
  destruct t; [done|]. intros [= <-]; apply Hne.
Qed.

Lemma output_filename_nonempty (b : string) (date : option string)
    (name fn : string) :
  output_filename b date name = Ret fn → (0 < String.length fn)%nat.
Proof.
  unfold output_filename. destruct (truthy_str date).
  - intros [= <-]. rewrite !string_app_length. simpl. lia.
  - destruct (split_on "." b) as [|? [|? ?]]; try done.
    intros [= <-]. rewrite !string_app_length. simpl. lia.
Qed.

(** A second part that starts with no slash is appended to the first. *)
Lemma join_appends (a b : string) :
  (∃ r, b = String "/" r)
  ∨ OsPath.join a b
    = if is_empty a || OsPath.ends_with_slash a then (a ++ b)%string
      else (a ++ "/" ++ b)%string.
Proof.
  unfold OsPath.join. destruct b as [|c b]; [by right|].
  destruct (Ascii.eqb_spec c "/") as [->|Hc]; [left; eauto | right].
  destruct c as [[] [] [] [] [] [] [] []]; try done.
Qed.

(** An output path is longer than the path of the output directory. *)
Lemma join_longer (p dir : string) (date : option string)
    (name fn : string) :
  output_filename (OsPath.basename p) date name = Ret fn →
  (String.length dir < String.length (OsPath.join dir fn))%nat.
Proof.
  intros H. pose proof (output_filename_nonempty _ _ _ _ H) as Hlen.
  pose proof (output_filename_no_leading_slash _ _ _ _ H) as Hsl.
  destruct (join_appends dir fn) as [[r ->]| ->]; [by destruct (Hsl r)|].
  destruct (_ || _); rewrite !string_app_length; simpl; lia.
Qed.

(** An output path is never the output directory itself. *)
Lemma join_neq_dir (p dir : string) (date : option string)
    (name fn : string) :
  output_filename (OsPath.basename p) date name = Ret fn →
  OsPath.join dir fn ≠ dir.
Proof.
  intros H. pose proof (output_filename_nonempty _ _ _ _ H) as Hlen.
  pose proof (output_filename_no_leading_slash _ _ _ _ H) as Hsl.
  destruct (join_appends dir fn) as [[r ->]| ->]; [by destruct (Hsl r)|].
  assert (∀ x : string, (dir ++ x ++ fn)%string ≠ dir) as Hne.
  { intros x E. apply (f_equal String.length) in E.
    rewrite !string_app_length in E. lia. }
  destruct (_ || _); [apply (Hne ""%string) | apply (Hne "/"%string)].
Qed.

Lemma log_only_fs {A} (m : M A) (st st' : state) (r : outcome A) :
  log_only m → m st = (r, st') → fs st' = fs st ∧ os st' = os st.
Proof.
  intros H E. destruct (H st) as (r' & lg & E'). rewrite E in E'.
  by injection E' as -> ->.
Qed.

Lemma log_only_sd_read (h : handle) (name : string) : log_only (sd_read h name).
Proof.
  unfold sd_read. apply log_only_bind; [apply log_only_sd_use|]. intros _.
  repeat case_match; auto using @log_only_ret, @log_only_raise.
Qed.

(** The [try] block raises nothing: it returns [output_files] as it was or
    with the path appended, and changes no path but that one. *)
Lemma materialize_result (h : handle) (pi : option projection_info)
    (path name : string) (acc : list string) (st : state) :
  ∃ st',
    (materialize h pi path name acc st = (Ret acc, st')
     ∨ materialize h pi path name acc st = (Ret (acc ++ [path]), st'))
    ∧ os st' = os st
    ∧ ∀ q, q ≠ path → fs st' !! q = fs st !! q.
Proof.
  unfold materialize. run_monad.
  destruct (sd_read h name st) as [[[shape items]|e] st1] eqn:Hr;
    destruct (log_only_fs _ _ _ _ (log_only_sd_read h name) Hr) as [Hfs Hos];
    simpl; [|exists st1; rewrite Hfs; eauto].
  unfold gdal_driver. simpl.
  destruct (gtiff_driver (os st1)); simpl; [|exists st1; rewrite Hfs; eauto].
  destruct shape as [|y [|x [|z s]]]; simpl;
    try (exists st1; rewrite Hfs; by eauto).
  unfold gdal_create. destruct (create_fails (os st1) path); simpl;
    [exists st1; rewrite Hfs; by eauto|].
  destruct (usable_geotransform pi) as [[info gt]|]; simpl.
  2:{ eexists. split; [by left|]. split; [done|]. intros q Hq. simpl.
      by rewrite lookup_insert_ne, Hfs. }
  unfold update_raster. simpl.
  destruct (nodata_argument name items) as [v|]; simpl;
    [destruct (as_double v) as [d|e]; simpl|].
  all: eexists; (split; [first [left; reflexivity | right; reflexivity]|]);
    (split; [done|]); intros q Hq; simpl;
    by rewrite ?lookup_alter_ne, ?lookup_insert_ne, ?Hfs.
Qed.

Lemma prepare_output_frame (dir base : string) (date : option string)
    (name : string) (st st1 : state) (r : outcome string) :
  prepare_output dir base date name st = (r, st1) →
  os st1 = os st
  ∧ (∀ q,
       (∀ fn, output_filename base date name = Ret fn →
              q ≠ OsPath.join dir fn) →
       fs st1 !! q = fs st !! q).
Proof.
  unfold prepare_output, os_path_exists, os_remove. run_monad.
  destruct (output_filename base date name) as [fn|e]; [|by intros [= <- <-]].
  case_bool_decide as Hp.
  - destruct (fs st !! OsPath.join dir fn) as [[]|]; try by intros [= <- <-].
    all: destruct (remove_denied _ _); [by intros [= <- <-]|];
      intros [= <- <-]; (split; [done|]); intros q Hq; simpl;
      rewrite lookup_delete_ne; [done|]; intros <-; by apply (Hq fn).
  - by intros [= <- <-].
Qed.

Lemma process_dataset_result (h : handle) (pi : option projection_info)
    (dir base : string) (date : option string) (name : string)
    (acc : list string) (st st' : state) (r : outcome (list string)) :
  process_dataset h pi dir base date name acc st = (r, st') →
  os st' = os st
  ∧ (∀ q,
       (∀ fn, output_filename base date name = Ret fn →
              q ≠ OsPath.join dir fn) →
       fs st' !! q = fs st !! q)
  ∧ (∀ outs, r = Ret outs →
       outs = acc
       ∨ ∃ fn, output_filename base date name = Ret fn
               ∧ outs = acc ++ [OsPath.join dir fn]).
Proof.
  unfold process_dataset. run_monad.
  destruct (prepare_output dir base date name st) as [[path|e] st1] eqn:Hp.
  - destruct (prepare_output_frame _ _ _ _ _ _ _ Hp) as (Hos & Hfr).
    apply prepare_output_ret in Hp as ((fn & Hfn & ->) & _).
    destruct (materialize_result h pi (OsPath.join dir fn) name acc st1)
      as (st2 & Hm & Hos2 & Hfr2).
    intros E.
    assert (st' = st2
            ∧ (r = Ret acc ∨ r = Ret (acc ++ [OsPath.join dir fn])))
      as [-> Hr].
    { destruct Hm as [Hm|Hm]; rewrite Hm in E; injection E as <- <-; eauto. }
    split; [congruence|]. split.
    + intros q Hq. rewrite Hfr2 by eauto. by apply Hfr.
    + intros outs ->. destruct Hr as [[= ->]|[= ->]]; eauto.
  - destruct (prepare_output_frame _ _ _ _ _ _ _ Hp) as (Hos & Hfr).
    intros [= <- <-]. done.
Qed.

(** The loop changes no path other than the output paths of its datasets,
    and returns its start list and output paths of its datasets. *)
Lemma process_datasets_result (h : handle) (pi : option projection_info)
    (dir base : string) (date : option string) (names : list string)
    (acc : list string) (st st' : state) (r : outcome (list string)) :
  process_datasets h pi dir base date names acc st = (r, st') →
  os st' = os st
  ∧ (∀ q,
       (∀ name fn, name ∈ names →
                   output_filename base date name = Ret fn →
                   q ≠ OsPath.join dir fn) →
       fs st' !! q = fs st !! q)
  ∧ (∀ outs p, r = Ret outs → p ∈ outs →
       p ∈ acc
       ∨ ∃ name fn, name ∈ names
                    ∧ output_filename base date name = Ret fn
                    ∧ p = OsPath.join dir fn).
Proof.
  revert acc st. induction names as [|name names IH]; intros acc st; simpl.
  - intros [= <- <-]. repeat split; try done. intros outs p [= <-]. eauto.
  - unfold mbind, M_bind.
    destruct (process_dataset h pi dir base date name acc st)
      as [[acc'|e] st1] eqn:Hp;
      apply process_dataset_result in Hp as (Hos & Hfr & Hr).
    + intros E. apply IH in E as (Hos' & Hfr' & Hr').
      split; [congruence|]. split.
      * intros q Hq. rewrite Hfr'; [apply Hfr|]; intros; eapply Hq; eauto;
          by constructor.
      * intros outs p -> Hp.
        destruct (Hr' _ p eq_refl Hp) as [Hin|(n & fn & Hn & Hfn & ->)].
        -- destruct (Hr acc' eq_refl) as [->|(fn & Hfn & ->)]; [by left|].
           apply elem_of_app in Hin as [Hin|Hin%list_elem_of_singleton];
             [by left|].
           right. exists name, fn. split; [by left|done].
        -- right. exists n, fn. split; [by right|done].
    + intros [= <- <-]. split; [done|]. split; [|done].
      intros q Hq. apply Hfr. intros; eapply Hq; eauto; by constructor.
Qed.

Lemma log_only_sd_datasets (h : handle) : log_only (sd_datasets h).
Proof.
  unfold sd_datasets. apply log_only_bind; [apply log_only_sd_use|].
  intros _. apply log_only_ret.
Qed.

(** X3, the half of C8 that holds.  On an input that the archive reader
    cannot open, [convert] returns a result with the status [error], and
    no raster is written: every path holds what it held, but for the
    directories that [os.makedirs] makes, the output directory and what
    is missing above it; such a path held nothing before. *)
Theorem convert_reports_error_when_open_fails
    (st : state) (input dir : string) (ds : option (list string)) :
  (∀ a, fs st !! input ≠ Some (Hdf a)) →
  ∃ r st',
    convert input dir ds st = (Ret r, st')
    ∧ status r = "error"%string
    ∧ ∀ q, fs st' !! q = fs st !! q
           ∨ fs st !! q = None ∧ fs st' !! q = Some Dir.
Proof.
  assert (∀ (s s' : state) (p : string),
            (∀ q, fs s' !! q = fs s !! q
                  ∨ fs s !! q = None ∧ fs s' !! q = Some Dir
                    ∧ ∃ rest, p = (q ++ rest)%string) →
            ∀ q, fs s' !! q = fs s !! q
                 ∨ fs s !! q = None ∧ fs s' !! q = Some Dir) as Hweak.
  { intros s s' p H q. destruct (H q) as [?|(? & ? & _)]; eauto. }
  intros Hbad. unfold convert, os_path_exists. run_monad.
  case_bool_decide as Hex; simpl; [|eexists _, _; eauto].
  destruct (os_makedirs dir st) as [[[]|e] st1] eqn:Hmk; simpl.
  2:{ destruct (os_makedirs_frame _ _ _ _ Hmk) as (_ & _ & _ & Hst).
      eexists _, _. eauto. }
  destruct (os_makedirs_frame _ _ _ _ Hmk) as (_ & _ & _ & Hfr0).
  pose proof (Hweak _ _ _ Hfr0) as Hfr.
  unfold hdf_to_geotiff_sinusoidal, os_path_exists. run_monad.
  case_bool_decide as Hex1; simpl; [|eexists _, _; eauto].
  rewrite (os_makedirs_settled dir st st1 st1 Hmk) by done.
  simpl.
  destruct (get_modis_projection_info_returns input st1) as (pi & lg & ->).
  simpl. unfold SD. simpl.
  assert (∀ a, fs st1 !! input ≠ Some (Hdf a)) as Hbad1.
  { intros a. destruct (Hfr input) as [->|(_ & ->)]; [apply Hbad|done]. }
  destruct (fs st1 !! input) as [[| |a|]|]; simpl;
    try (eexists _, _; split; [reflexivity|]; split; [done|]; apply Hfr).
  by destruct (Hbad1 a).
Qed.

(** X4, the part of C10 that holds.  When the conversion of an existing
    archive with no output directory returns, the directory of the
    archive is a directory of the file system, every path returned is
    the output name of a dataset joined to that directory, and the
    conversion and the wrapper take the same directory: the conversion
    with [None] is the conversion with [os.path.dirname(hdf_file)], and
    the wrapper calls [convert] with it. *)
Theorem default_output_dir_is_archive_directory
    (f : string) (ds : option (list string)) (st st' : state)
    (outs : list string) :
  is_Some (fs st !! f) →
  hdf_to_geotiff_sinusoidal f None ds st = (Ret outs, st') →
  fs st' !! OsPath.dirname f = Some Dir
  ∧ (∀ p, p ∈ outs →
        ∃ name fn,
          output_filename (OsPath.basename f)
            (ModisDate.parse_modis_date (OsPath.basename f)) name = Ret fn
          ∧ p = OsPath.join (OsPath.dirname f) fn)
  ∧ hdf_to_geotiff_sinusoidal f None ds st
     = hdf_to_geotiff_sinusoidal f (Some (OsPath.dirname f)) ds st
  ∧ handle_hdf_to_geotiff_conversion
       {| input_file := Some f; output_dir := None; datasets := ds;
          analyze_only := false |} st
     = convert f (OsPath.dirname f) ds st.
Proof.
  intros Hex Hrun.
  assert (is_empty f = false) as Hf.
  { destruct f; [|done]. revert Hrun.
    unfold hdf_to_geotiff_sinusoidal, os_path_exists.
    unfold mbind, M_bind, mret, M_ret.
    rewrite bool_decide_eq_true_2 by done.
    change (negb true) with false. cbv beta iota.
    change (OsPath.dirname "") with ""%string.
    by rewrite os_makedirs_empty. }
  apply and_assoc. split.
  2:{ split; [reflexivity|].
      unfold handle_hdf_to_geotiff_conversion. simpl. by rewrite Hf. }
  revert Hrun. unfold hdf_to_geotiff_sinusoidal, os_path_exists. run_monad.
  rewrite bool_decide_eq_true_2 by done. simpl.
  destruct (os_makedirs (OsPath.dirname f) st) as [[[]|e] st1] eqn:Hmk;
    simpl; [|done].
  destruct (os_makedirs_ret _ _ _ Hmk) as (_ & _ & Hdir & _).
  destruct (get_modis_projection_info_returns f st1) as (pi & lg & ->). simpl.
  set (st1' := {| os := os st1; fs := fs st1; log := log st1 ++ lg |}).
  assert (∀ outs0 : list string, outs0 = [] → ∀ p, p ∈ outs0 →
        ∃ name fn,
          output_filename (OsPath.basename f)
            (ModisDate.parse_modis_date (OsPath.basename f)) name = Ret fn
          ∧ p = OsPath.join (OsPath.dirname f) fn) as Hnil.
  { intros ? -> p Hp. by apply elem_of_nil in Hp. }
  destruct (SD f st1') as [[h|e] st2] eqn:Ho;
    destruct (log_only_fs _ _ _ _ (log_only_SD f) Ho) as [Hfs2 _]; simpl;
    [|intros [= <- <-]; rewrite Hfs2; eauto].
  destruct (sd_datasets h st2) as [[names|e] st3] eqn:Hd;
    destruct (log_only_fs _ _ _ _ (log_only_sd_datasets h) Hd) as [Hfs3 _];
    simpl; [|intros [= <- <-]; rewrite Hfs3, Hfs2; eauto].
  destruct (process_datasets _ _ _ _ _ _ _ st3) as [[outs'|e] st4] eqn:Hpd;
    apply process_datasets_result in Hpd as (_ & Hfr4 & Hout4); simpl.
  2:{ intros [= <- <-]. rewrite Hfr4, Hfs3, Hfs2; [eauto|].
      intros name fn _ Hfn E. exact (join_neq_dir _ _ _ _ _ Hfn (eq_sym E)). }
  assert (fs st4 !! OsPath.dirname f = Some Dir) as Hdir4.
  { rewrite Hfr4, Hfs3, Hfs2; [done|].
    intros name fn _ Hfn E. exact (join_neq_dir _ _ _ _ _ Hfn (eq_sym E)). }
  destruct (sd_end h st4) as [[[]|e] st5] eqn:He;
    destruct (log_only_fs _ _ _ _ (log_only_sd_end h) He) as [Hfs5 _]; simpl;
    intros [= <- <-]; rewrite Hfs5; [|eauto].
  split; [done|]. intros p Hp.
  destruct (Hout4 _ p eq_refl Hp) as [Hin|(name & fn & _ & Hfn & ->)];
    [by apply elem_of_nil in Hin | by exists name, fn].
Qed.

(** X1.  Every bundle that the builder returns has the same form: the
    geotransform is [(x, r, 0, y, 0, -r)] with [r] the resolution of the
    bundle, which is never below zero, and the spatial reference is the
    fixed sinusoidal text, whatever the metadata holds. *)
Theorem bundle_is_well_formed (p : string) (st : state)
    (info : projection_info) :
  fst (get_modis_projection_info p st) = Ret (Some info) →
  ∃ ul_x ul_y res,
    geotransform info = Some [ul_x; res; fzero; ul_y; fzero; fneg res]
    ∧ resolution info = Some res
    ∧ projection_wkt info = Some sinusoidal_wkt
    ∧ SFltb res fzero = false.
Proof.
  unfold get_modis_projection_info. run_monad.
  destruct (SD p st) as [[h|e] st1]; simpl; [|discriminate].
  destruct (sd_attributes h st1) as [[ga|e] st2]; simpl; [|discriminate].
  destruct (struct_metadata_of ga) as [ | |text| ]; simpl; try discriminate.
  destruct (Re.search_pair "UpperLeftPointMtrs" text) as [ul|],
    (Re.search_pair "LowerRightMtrs" text) as [lr|],
    (Re.search_dim "XDim" text) as [xd|],
    (Re.search_dim "YDim" text) as [yd|];
    try (destruct (sd_end h st2) as [[[]|e] st3]; simpl; discriminate).
  do 8 (match goal with
        | |- context [match ?o with Ret _ => _ | Raise _ => _ end] =>
            destruct o as [?|?] eqn:?; simpl; [|discriminate]
        end).
  destruct (sd_end h st2) as [[[]|e] st3]; simpl; [|discriminate].
  intros [= <-]. simpl. do 3 eexists. repeat split. apply fabs_not_negative.
Qed.

(** X2.  The builder raises nothing: it returns a bundle or [None], changes no
    file, and only adds handle events to the log. *)
Theorem builder_never_raises (p : string) (st : state) :
  ∃ pi lg,
    get_modis_projection_info p st
    = (Ret pi, {| os := os st; fs := fs st; log := log st ++ lg |}).
Proof. apply get_modis_projection_info_returns. Qed.

(** X5.  A dataset that the materializer has written has, at its output
    path, a raster of the size of its grid, columns first, with the
    geotransform and the spatial reference of the bundle of the archive,
    the grid in its band and the attributes as metadata. *)
Theorem materialized_raster_is_georeferenced
    (h : handle) (pi : option projection_info) (path name : string)
    (acc : list string) (st st' : state) :
  materialize h pi path name acc st = (Ret (acc ++ [path]), st') →
  ∃ info gt x_size y_size items r,
    pi = Some info
    ∧ geotransform info = Some gt
    ∧ sd_read h name st = (Ret ([y_size; x_size], items),
                            add_event (EUse (h_id h)) st)
    ∧ fs st' !! path = Some (Raster r)
    ∧ r_size r = (x_size, y_size)
    ∧ r_geotransform r = Some gt
    ∧ r_projection r
      = Some (if truthy_str (projection_wkt info)
              then default EmptyString (projection_wkt info)
              else sinusoidal_wkt)
    ∧ r_band r = Some name
    ∧ r_metadata r = Some items.
Proof.
  intros H. pose proof H as H'. apply materialize_success in H'
    as (d & x & y & items & info & gt & r
        & Hd & Hr & Hg & Hf & Hsz & Hgt & Hpr & Hb & Hm & _).
  exists info, gt, x, y, items, r.
  assert (pi = Some info ∧ geotransform info = Some gt) as [-> Hgeo].
  { unfold usable_geotransform in Hg. destruct pi as [i|]; [|done].
    destruct (geotransform i) as [[|? ?]|] eqn:E; try done.
    by injection Hg as <- <-. }
  repeat split; try done.
  unfold sd_read, sd_use. run_monad.
  destruct (ended (h_id h) (log st)) eqn:He.
  - exfalso. revert H. unfold materialize, sd_read, sd_use. run_monad.
    rewrite He. simpl. intros [= E _]. by apply app_one_neq in E.
  - simpl. by rewrite Hd, Hr.
Qed.

(** X6.  The sanitized name of a dataset has the length of the name, and each
    of its characters is that of the name, an underscore standing for a
    space, a slash or a backslash. *)
Theorem safe_dataset_name_spec (s : string) :
  String.length (safe_dataset_name s) = String.length s
  ∧ ∀ i,
      String.get i (safe_dataset_name s)
      = (fun c => if Ascii.eqb c " " || Ascii.eqb c "/" || Ascii.eqb c "092"
                  then "_"%char else c) <$> String.get i s.
Proof.
  unfold safe_dataset_name. induction s as [|c s [IHl IHg]]; simpl; [done|].
  split; [by rewrite IHl|]. intros [|i]; simpl; [|apply IHg].
  destruct (Ascii.eqb_spec c " ") as [->|?]; [done|].
  destruct (Ascii.eqb_spec c "/") as [->|?]; [done|].
  by destruct (Ascii.eqb_spec c "092").
Qed.

End Conversion.

(** ** The claims on the sample archives *)

Section OnSamples.
Import PyStr PyNum Converter Skill Sample.



(** Witness of C2: a block without [LowerRightMtrs] gives no bundle. *)
Lemma no_lower_right_no_bundle :
  Re.search_pair "LowerRightMtrs" no_lower_right_metadata = None
  ∧ fst (get_modis_projection_info hdf_path no_corner_disk) = Ret None.
Proof.
  split; [reflexivity|].
  apply (missing_pattern_yields_no_bundle no_corner_disk hdf_path
           (archive_of no_lower_right_metadata [ndvi; evi; quality]));
    [vm_compute; reflexivity|].
  right. exists no_lower_right_metadata.
  split; [reflexivity | right; left; reflexivity].
Defined.

(** C3 fails on the code: without a bundle the conversion returns the
    empty list, and yet a raster without georeferencing stands at the
    output path of the selected dataset, where no file stood before. *)
Lemma unavailable_georeferencing_leaves_raster :
  fst (get_modis_projection_info hdf_path no_corner_disk) = Ret None
  ∧ select_datasets None (map ds_name [ndvi; evi; quality])
    = ["250m 16 days NDVI"%string]
  ∧ fs no_corner_disk !! ndvi_path = None
  ∧ fst (hdf_to_geotiff_sinusoidal hdf_path None None no_corner_disk) = Ret []
  ∧ fs (snd (hdf_to_geotiff_sinusoidal hdf_path None None no_corner_disk))
      !! ndvi_path
    = Some (Raster {| r_size := (4800%nat, 4800%nat);
                      r_geotransform := None; r_projection := None;
                      r_band := None; r_nodata := None;
                      r_metadata := None |}).
Proof. vm_compute. done. Qed.

(** C4 as stated fails: the grid [NDVI stack] has rank 3, an older file
    stands at its output path, and after the conversion that file is
    gone. *)
Lemma rank3_dataset_loses_older_output :
  select_datasets None (map ds_name [ndvi_stack; ndvi])
  = ["NDVI stack"; "250m 16 days NDVI"]%string
  ∧ ds_read ndvi_stack = Some ([2; 4800; 4800]%nat, [])
  ∧ fst (prepare_output "/data" (OsPath.basename hdf_path)
           (ModisDate.parse_modis_date (OsPath.basename hdf_path))
           "NDVI stack" stack_disk) = Ret stack_path
  ∧ fs stack_disk !! stack_path = Some Blob
  ∧ fst (hdf_to_geotiff_sinusoidal hdf_path None None stack_disk)
    = Ret [ndvi_path]
  ∧ fs (snd (hdf_to_geotiff_sinusoidal hdf_path None None stack_disk))
      !! stack_path = None.
Proof. vm_compute. done. Qed.

(** Witness of C4 as amended: the skipped rank-3 grid of [stack_disk],
    with no file left at its output path. *)
Lemma skipped_stack_leaves_no_file :
  ∃ st2,
    process_dataset stack_handle tile_info "/data"
      (OsPath.basename hdf_path)
      (ModisDate.parse_modis_date (OsPath.basename hdf_path))
      "NDVI stack" [] stack_disk = (Ret [], st2)
    ∧ fs st2 !! stack_path = None
    ∧ ∀ q, q ≠ stack_path → fs st2 !! q = fs stack_disk !! q.
Proof.
  apply (skipped_rank_leaves_no_output_file stack_handle tile_info "/data"
           (OsPath.basename hdf_path)
           (ModisDate.parse_modis_date (OsPath.basename hdf_path))
           "NDVI stack" [] stack_disk
           (snd (prepare_output "/data" (OsPath.basename hdf_path)
                   (ModisDate.parse_modis_date (OsPath.basename hdf_path))
                   "NDVI stack" stack_disk))
           stack_path ndvi_stack [2; 4800; 4800]%nat []);
    [reflexivity | reflexivity | simpl; lia | vm_compute; reflexivity].
Defined.

(** The selector examples: the default policy on the product names, and
    a request with a name that the archive lacks. *)
Example default_selection_example :
  select_datasets None product_names = ["250m_16_days_NDVI"%string].
Proof. reflexivity. Qed.

Example requested_selection_example :
  select_datasets (Some ["250m_16_days_EVI"; "NonExistent"]%string)
    product_names = ["250m_16_days_EVI"%string].
Proof. reflexivity. Qed.

Example requested_selection_order_example :
  select_datasets
    (Some ["250m_16_days_VI_Quality"; "250m_16_days_NDVI"]%string)
    product_names
  = ["250m_16_days_NDVI"; "250m_16_days_VI_Quality"]%string.
Proof. reflexivity. Qed.

Example lowercase_is_not_selected_example :
  select_datasets None ["250m_16_days_ndvi"%string] = [].
Proof. reflexivity. Qed.

(** Witness of C5: a request that names no dataset of the tile; the
    conversion ends normally with the empty list and no new file. *)
Lemma empty_selection_on_tile :
  ∃ st' h,
    hdf_to_geotiff_sinusoidal hdf_path None (Some ["NonExistent"%string])
      tile_disk = (Ret [], st')
    ∧ fs st' = fs tile_disk
    ∧ last (log st') = Some (EEnd h).
Proof.
  destruct (selector_policy (map ds_name [ndvi; evi; quality]))
    as (_ & _ & _ & _ & H).
  apply (H tile_disk tile_disk hdf_path
           (archive_of tile_metadata [ndvi; evi; quality]) None
           (Some ["NonExistent"%string]));
    [reflexivity | vm_compute; reflexivity | vm_compute; reflexivity
    | reflexivity].
Defined.

(** Witness of C6 as amended: the quality grid of the tile.  Its no-data
    key is [Legend NoData], with capitals; the raster gets the value
    65535 of that attribute, and the path is reported. *)
Lemma nodata_of_quality_grid :
  names_nodata "Legend NoData" = true
  ∧ ∃ outs st' r,
      materialize tile_handle tile_info quality_path
        "250m 16 days VI Quality" [] tile_disk = (Ret outs, st')
      ∧ fs st' !! quality_path = Some (Raster r)
      ∧ r_band r = Some "250m 16 days VI Quality"%string
      ∧ (r_nodata r ≫= nearest_hundredth) = Some 6553500
      ∧ outs = [quality_path].
Proof.
  split; [reflexivity|].
  destruct (usable_geotransform tile_info) as [[info gt]|] eqn:Hg;
    [|by vm_compute in Hg].
  destruct (nodata_of_materialized_dataset tile_handle tile_info quality_path
              "250m 16 days VI Quality" [] tile_disk quality 4800 4800
              [("long_name", AStr "VI quality indicators");
               ("Legend NoData", AInt 65535)] info gt)
    as (outs & st' & r & Hrun & Hfs & Hband & _ & Hscan);
    [reflexivity | reflexivity | reflexivity | reflexivity | reflexivity
    | exact Hg |].
  destruct (Hscan eq_refl eq_refl) as [Hfirst _].
  pose proof (Hfirst [("long_name", AStr "VI quality indicators")]
                "Legend NoData"%string (AInt 65535) [] eq_refl) as Hval.
  destruct Hval as [Hnd Houts].
  { apply List.Forall_cons; [reflexivity|apply List.Forall_nil]. }
  { reflexivity. }
  exists outs, st', r. rewrite Hnd.
  split; [exact Hrun|]. split; [exact Hfs|]. split; [exact Hband|].
  split; [vm_compute; reflexivity|exact Houts].
Defined.

(** C6 as stated fails: the first no-data attribute of the grid
    [pixel reliability] holds a text.  The raster of the grid is written,
    with its band, and has no no-data value, although the attribute is
    there and a number follows under the key [nodata]; and the
    conversion does not report the raster. *)
Lemma text_nodata_attribute_sets_no_value :
  ds_read reliability
  = Some ([4800; 4800]%nat,
          [("long_name", AStr "VI usefulness");
           ("NoData description", AStr "255 = fill");
           ("nodata", AInt 255)])
  ∧ names_nodata "long_name" = false
  ∧ names_nodata "NoData description" = true
  ∧ contains "NDVI" (ds_name reliability) = false
  ∧ contains "EVI" (ds_name reliability) = false
  ∧ fs reliability_disk !! reliability_path = None
  ∧ fst (hdf_to_geotiff_sinusoidal hdf_path None
           (Some [ds_name reliability]) reliability_disk) = Ret []
  ∧ ∃ r,
      fs (snd (hdf_to_geotiff_sinusoidal hdf_path None
                 (Some [ds_name reliability]) reliability_disk))
        !! reliability_path = Some (Raster r)
      ∧ r_band r = Some (ds_name reliability)
      ∧ r_nodata r = None.
Proof.
  repeat (split; [vm_compute; reflexivity|]).
  eexists. split; [vm_compute; reflexivity|]. split; reflexivity.
Qed.

(** The rasters of the tile: -3000 for the two vegetation indices,
    whatever their attributes say, and the attribute [Legend NoData] for
    the quality grid. *)
Example nodata_on_tile_example :
  let st' := snd (hdf_to_geotiff_sinusoidal hdf_path None
                    (Some (map ds_name [ndvi; evi; quality])) tile_disk) in
  map (fun p => match fs st' !! p with
                | Some (Raster r) => r_nodata r ≫= nearest_hundredth
                | _ => None
                end)
    [ndvi_path; "/data/MOD13Q1_20150728_250m_16_days_EVI.tif"%string;
     quality_path]
  = [Some (-300000); Some (-300000); Some 6553500].
Proof. vm_compute. done. Qed.

(** Witness of C7: the rank-3 grid of [stack_disk] is skipped and the
    NDVI grid after it is converted. *)
Lemma stack_is_skipped_and_sibling_converted :
  (∃ st2,
     fs st2 = fs (snd (prepare_output "/data" (OsPath.basename hdf_path)
                         (ModisDate.parse_modis_date (OsPath.basename hdf_path))
                         "NDVI stack" stack_disk))
     ∧ os st2 = os (snd (prepare_output "/data" (OsPath.basename hdf_path)
                         (ModisDate.parse_modis_date (OsPath.basename hdf_path))
                         "NDVI stack" stack_disk))
     ∧ process_dataset stack_handle tile_info "/data"
         (OsPath.basename hdf_path)
         (ModisDate.parse_modis_date (OsPath.basename hdf_path))
         "NDVI stack" [] stack_disk = (Ret [], st2)
     ∧ process_datasets stack_handle tile_info "/data"
         (OsPath.basename hdf_path)
         (ModisDate.parse_modis_date (OsPath.basename hdf_path))
         ["NDVI stack"; "250m 16 days NDVI"]%string [] stack_disk
       = process_datasets stack_handle tile_info "/data"
           (OsPath.basename hdf_path)
           (ModisDate.parse_modis_date (OsPath.basename hdf_path))
           ["250m 16 days NDVI"%string] [] st2)
  ∧ fst (process_datasets stack_handle tile_info "/data"
           (OsPath.basename hdf_path)
           (ModisDate.parse_modis_date (OsPath.basename hdf_path))
           ["NDVI stack"; "250m 16 days NDVI"]%string [] stack_disk)
    = Ret [ndvi_path].
Proof.
  split; [|vm_compute; reflexivity].
  apply (rank_mismatch_is_skipped stack_handle tile_info "/data"
           (OsPath.basename hdf_path)
           (ModisDate.parse_modis_date (OsPath.basename hdf_path))
           "NDVI stack" ["250m 16 days NDVI"%string] [] stack_disk
           (snd (prepare_output "/data" (OsPath.basename hdf_path)
                   (ModisDate.parse_modis_date (OsPath.basename hdf_path))
                   "NDVI stack" stack_disk))
           stack_path ndvi_stack [2; 4800; 4800]%nat []);
    [reflexivity | reflexivity | simpl; lia | vm_compute; reflexivity].
Defined.

(** C7 as stated fails: the grid [NDVI stack] has rank 3 and is selected
    before the NDVI grid, and a directory stands at its output path.  The
    removal of what is at that path raises before the [try] block of the
    dataset; the conversion of the archive ends with the empty list, and
    the NDVI grid, which the same archive gives without the directory, is
    not converted. *)
Lemma rank3_dataset_ends_the_conversion :
  select_datasets None
    (dataset_names (archive_of tile_metadata [ndvi_stack; ndvi]))
  = ["NDVI stack"; "250m 16 days NDVI"]%string
  ∧ ds_read ndvi_stack = Some ([2; 4800; 4800]%nat, [])
  ∧ fs stack_blocked_disk !! stack_path = Some Dir
  ∧ fst (prepare_output "/data" (OsPath.basename hdf_path)
           (ModisDate.parse_modis_date (OsPath.basename hdf_path))
           "NDVI stack" stack_blocked_disk) = Raise OSError
  ∧ fst (hdf_to_geotiff_sinusoidal hdf_path None None stack_blocked_disk)
    = Ret []
  ∧ fs (snd (hdf_to_geotiff_sinusoidal hdf_path None None
               stack_blocked_disk)) !! ndvi_path = None
  ∧ fst (hdf_to_geotiff_sinusoidal hdf_path None None stack_disk)
    = Ret [ndvi_path].
Proof. vm_compute. done. Qed.

(** C8 fails on the code for [analyze]: on a file that the archive reader
    cannot open, [analyze] answers with the status [success] and no
    dataset, while [convert] answers with the status [error]. *)
Lemma analyze_reports_success_on_unreadable_archive :
  fst (SD hdf_path broken_disk) = Raise HDF4Error
  ∧ (∃ r, fst (analyze hdf_path broken_disk) = Ret r
          ∧ status r = "success"%string
          ∧ message_of r = FoundDatasets 0)
  ∧ (∃ r, fst (convert hdf_path "/out" None broken_disk) = Ret r
          ∧ status r = "error"%string
          ∧ message_of r = NoFilesConverted).
Proof. vm_compute. eauto 10. Qed.

(** C9 fails on the code: an exception after the archive was opened
    leaves its handle open.  In the conversion the removal of an older
    output file does when the system refuses it, or when the output path
    is a directory; in the builder the division by a zero [XDim] does;
    in the analysis the division does.  On the tile itself every handle
    is ended. *)
Lemma exception_after_open_leaves_handle_open :
  (fst (hdf_to_geotiff_sinusoidal hdf_path None None locked_disk) = Ret []
   ∧ open_handles
       (log (snd (hdf_to_geotiff_sinusoidal hdf_path None None
                    locked_disk))) = [1%nat])
  ∧ (fst (hdf_to_geotiff_sinusoidal hdf_path None None blocked_disk) = Ret []
     ∧ open_handles
         (log (snd (hdf_to_geotiff_sinusoidal hdf_path None None
                      blocked_disk))) = [1%nat])
  ∧ (fst (hdf_to_geotiff_sinusoidal hdf_path None None zero_width_disk)
     = Ret []
     ∧ open_handles
         (log (snd (hdf_to_geotiff_sinusoidal hdf_path None None
                      zero_width_disk))) = [0%nat])
  ∧ open_handles (log (snd (analyze_hdf_file hdf_path zero_width_disk)))
    = [0%nat]
  ∧ open_handles
      (log (snd (hdf_to_geotiff_sinusoidal hdf_path None None tile_disk)))
    = [].
Proof. vm_compute. done. Qed.

(** C10 fails on the code: for an archive named without a directory part
    the default output directory is the empty path, [os.makedirs] raises
    on it, and nothing is converted, in the conversion as in the
    wrapper. *)
Lemma default_output_dir_fails_for_bare_name :
  is_Some (fs bare_disk !! bare_name)
  ∧ OsPath.dirname bare_name = ""%string
  ∧ hdf_to_geotiff_sinusoidal bare_name None None bare_disk
    = (Raise OSError, bare_disk)
  ∧ handle_hdf_to_geotiff_conversion
      {| input_file := Some bare_name; output_dir := None;
         datasets := None; analyze_only := false |} bare_disk
    = (Ret (error (ConversionFailed OSError)), bare_disk).
Proof. vm_compute. eauto. Qed.

(** The date of the sample file name: day 209 of 2015. *)
Example parse_modis_date_example :
  ModisDate.parse_modis_date "MOD13Q1.A2015209.h12v04.061.hdf"
  = Some "20150728"%string
  ∧ ModisDate.parse_modis_date "MOD13Q1.A2016366.h12v04.061.hdf"
    = Some "20161231"%string
  ∧ ModisDate.parse_modis_date "MOD13Q1.hdf" = None.
Proof. vm_compute. done. Qed.

(** Witness of X1: the bundle of the tile has the common form. *)
Lemma tile_bundle_is_well_formed :
  ∃ info ul_x ul_y res,
    fst (get_modis_projection_info hdf_path tile_disk) = Ret (Some info)
    ∧ geotransform info = Some [ul_x; res; fzero; ul_y; fzero; fneg res]
    ∧ resolution info = Some res
    ∧ projection_wkt info = Some sinusoidal_wkt
    ∧ SFltb res fzero = false.
Proof.
  destruct tile_info as [info|] eqn:E; [|by vm_compute in E].
  assert (fst (get_modis_projection_info hdf_path tile_disk)
          = Ret (Some info)) as H.
  { rewrite <- E. vm_compute. reflexivity. }
  destruct (bundle_is_well_formed hdf_path tile_disk info H)
    as (ul_x & ul_y & res & H1 & H2 & H3 & H4).
  exists info, ul_x, ul_y, res. done.
Defined.

(** Witness of X3: [convert] on the file that no reader can open, with
    an output directory two levels deep; both levels are made. *)
Lemma convert_on_broken_disk :
  (∃ r st',
     convert hdf_path "/out/tif" None broken_disk = (Ret r, st')
     ∧ status r = "error"%string
     ∧ ∀ q, fs st' !! q = fs broken_disk !! q
            ∨ fs broken_disk !! q = None ∧ fs st' !! q = Some Dir)
  ∧ fs (snd (convert hdf_path "/out/tif" None broken_disk)) !! "/out"
    = Some Dir
  ∧ fs (snd (convert hdf_path "/out/tif" None broken_disk)) !! "/out/tif"
    = Some Dir.
Proof.
  split; [|vm_compute; done].
  apply (convert_reports_error_when_open_fails broken_disk hdf_path "/out/tif"
           None).
  intros a. vm_compute. discriminate.
Defined.

(** Witness of X4: the tile converted with no output directory; the NDVI
    raster goes next to the archive. *)
Lemma tile_output_is_next_to_archive :
  fst (hdf_to_geotiff_sinusoidal hdf_path None None tile_disk)
  = Ret [ndvi_path]
  ∧ fs (snd (hdf_to_geotiff_sinusoidal hdf_path None None tile_disk))
      !! OsPath.dirname hdf_path = Some Dir
  ∧ (∀ p, p ∈ [ndvi_path] →
       ∃ name fn,
         output_filename (OsPath.basename hdf_path)
           (ModisDate.parse_modis_date (OsPath.basename hdf_path)) name
         = Ret fn
         ∧ p = OsPath.join (OsPath.dirname hdf_path) fn).
Proof.
  split; [vm_compute; reflexivity|].
  destruct (default_output_dir_is_archive_directory hdf_path None tile_disk
              (snd (hdf_to_geotiff_sinusoidal hdf_path None None tile_disk))
              [ndvi_path]) as (H1 & H2 & _).
  - vm_compute. eauto.
  - vm_compute. reflexivity.
  - split; [exact H1 | exact H2].
Defined.

(** Witness of X5: the NDVI raster of the tile carries the bundle of the
    tile. *)
Lemma tile_ndvi_is_georeferenced :
  ∃ info gt x_size y_size items r,
    tile_info = Some info
    ∧ geotransform info = Some gt
    ∧ sd_read tile_handle "250m 16 days NDVI" tile_disk
      = (Ret ([y_size; x_size], items),
         add_event (EUse (h_id tile_handle)) tile_disk)
    ∧ fs (snd (materialize tile_handle tile_info ndvi_path
                 "250m 16 days NDVI" [] tile_disk)) !! ndvi_path
      = Some (Raster r)
    ∧ r_size r = (x_size, y_size)
    ∧ r_geotransform r = Some gt
    ∧ r_projection r
      = Some (if truthy_str (projection_wkt info)
              then default EmptyString (projection_wkt info)
              else sinusoidal_wkt)
    ∧ r_band r = Some "250m 16 days NDVI"%string
    ∧ r_metadata r = Some items.
Proof.
  apply (materialized_raster_is_georeferenced tile_handle tile_info ndvi_path
           "250m 16 days NDVI" [] tile_disk).
  vm_compute. reflexivity.
Defined.

End OnSamples.

(** ** Further properties of the conversion, the analysis and the skill *)

(** *** Paths and output names *)

Section PathFacts.
Import PyStr PyNum Converter.

Lemma has_char_app (c : ascii) (a b : string) :
  has_char c (a ++ b) = has_char c a || has_char c b.
Proof.
  induction a as [|x a IH]; simpl; [done|]. by rewrite IH, orb_assoc.
Qed.

Lemma has_char_replace_same (a b : ascii) (s : string) :
  a ≠ b → has_char a (replace_char a b s) = false.
Proof.
  intros Hab. induction s as [|x s IH]; simpl; [done|]. rewrite IH, orb_false_r.
  destruct (Ascii.eqb_spec x a) as [->|Hx]; by apply Ascii.eqb_neq.
Qed.

Lemma has_char_replace_other (c a b : ascii) (s : string) :
  b ≠ c → has_char c s = false → has_char c (replace_char a b s) = false.
Proof.
  intros Hb. induction s as [|x s IH]; simpl; [done|].
  intros [Hx Hs]%orb_false_iff. rewrite (IH Hs), orb_false_r.
  destruct (Ascii.eqb x a); [by apply Ascii.eqb_neq | done].
Qed.

Lemma safe_dataset_name_no_slash (s : string) :
  has_char "/" (safe_dataset_name s) = false.
Proof.
  unfold safe_dataset_name. apply has_char_replace_other; [done|].
  by apply has_char_replace_same.
Qed.

Lemma split_last_slash_no_slash (s : string) :
  OsPath.split_last_slash s = None ↔ has_char "/" s = false.
Proof.
  induction s as [|x s IH]; simpl; [done|].
  destruct (OsPath.split_last_slash s) as [[h t]|].
  - split; [done|]. intros [_ H]%orb_false_iff. by apply IH in H.
  - destruct (Ascii.eqb x "/"); simpl; [done|]. by rewrite <- IH.
Qed.

Lemma split_last_slash_tail (s h t : string) :
  OsPath.split_last_slash s = Some (h, t) → has_char "/" t = false.
Proof.
  revert h t. induction s as [|x s IH]; intros h t; simpl; [done|].
  destruct (OsPath.split_last_slash s) as [[h' t']|] eqn:E.
  - intros [= _ <-]. by eapply IH.
  - destruct (Ascii.eqb x "/"); [|done]. intros [= _ <-].
    by apply split_last_slash_no_slash.
Qed.

Lemma basename_no_slash (p : string) : has_char "/" (OsPath.basename p) = false.
Proof.
  unfold OsPath.basename.
  destruct (OsPath.split_last_slash p) as [[h t]|] eqn:E.
  - by eapply split_last_slash_tail.
  - by apply split_last_slash_no_slash.
Qed.

Lemma basename_after_slash (a b : string) :
  has_char "/" b = false → OsPath.basename (a ++ "/" ++ b) = b.
Proof.
  intros Hb. unfold OsPath.basename.
  assert (∃ h, OsPath.split_last_slash (a ++ "/" ++ b) = Some (h, b))
    as [h ->]; [|done].
  induction a as [|x a [h IH]].
  - change ("" ++ "/" ++ b)%string with (String "/" b). simpl.
    apply split_last_slash_no_slash in Hb. rewrite Hb. eauto.
  - change (String x a ++ "/" ++ b)%string with (String x (a ++ "/" ++ b)).
    simpl. rewrite IH. eauto.
Qed.

Lemma basename_no_slash_id (b : string) :
  has_char "/" b = false → OsPath.basename b = b.
Proof.
  intros Hb. unfold OsPath.basename.
  apply split_last_slash_no_slash in Hb. by rewrite Hb.
Qed.

Lemma ends_with_slash_inv (a : string) :
  OsPath.ends_with_slash a = true → ∃ a0, a = (a0 ++ "/")%string.
Proof.
  induction a as [|x a IH]; simpl; [done|].
  destruct a as [|y a].
  - intros ->%Ascii.eqb_eq. by exists ""%string.
  - intros H. destruct (IH H) as [a0 ->]. by exists (String x a0).
Qed.
End PathFacts.

Section NameFacts.
Import PyStr PyNum Converter.

Lemma split_on_no_char (c x : ascii) (s : string) :
  has_char x s = false → Forall (fun p => has_char x p = false) (split_on c s).
Proof.
  induction s as [|a s IH]; simpl; [by repeat constructor|].
  intros [Ha Hs]%orb_false_iff. specialize (IH Hs).
  destruct (Ascii.eqb a c); [by constructor|].
  destruct (split_on c s) as [|h t]; [by repeat constructor; simpl; rewrite Ha|].
  inversion IH as [|? ? Hh Ht]; subst. constructor; [|done].
  simpl. by rewrite Ha, Hh.
Qed.

(** The text before the first separator starts the string. *)
Lemma split_on_shape (c : ascii) (s : string) :
  match split_on c s with
  | [h] => s = h
  | h :: _ => ∃ r, s = (h ++ String c r)%string
  | [] => False
  end.
Proof.
  induction s as [|a s IH]; simpl; [done|].
  destruct (Ascii.eqb_spec a c) as [->|Hac].
  - destruct (split_on c s); [done | by exists s].
  - destruct (split_on c s) as [|h [|h' t]]; [done| by subst |].
    destruct IH as [r ->]. by exists r.
Qed.

Lemma digit_char_no_slash (d : Z) :
  0 <= d < 10 → ModisDate.digit_char d ≠ "/"%char.
Proof.
  intros Hd. assert (d = 0 ∨ d = 1 ∨ d = 2 ∨ d = 3 ∨ d = 4 ∨ d = 5 ∨ d = 6
                     ∨ d = 7 ∨ d = 8 ∨ d = 9) as H by lia.
  by repeat (destruct H as [->|H]); subst.
Qed.

Lemma zero_padded_no_slash (w : nat) (n : Z) :
  has_char "/" (ModisDate.zero_padded w n) = false.
Proof.
  revert n. induction w as [|w IH]; intros n; simpl; [done|].
  rewrite has_char_app, IH. simpl. rewrite orb_false_r.
  apply Ascii.eqb_neq, digit_char_no_slash. by apply Z.mod_pos_bound.
Qed.

Lemma parse_modis_date_no_slash (name d : string) :
  ModisDate.parse_modis_date name = Some d → has_char "/" d = false.
Proof.
  unfold ModisDate.parse_modis_date.
  repeat case_match; try done. intros [= <-].
  unfold ModisDate.strftime_Ymd, ModisDate.year_text. repeat case_match.
  all: by rewrite !has_char_app, !zero_padded_no_slash.
Qed.

Lemma app_sep_neq (h x y : string) (a b : ascii) :
  a ≠ b → (h ++ String a x)%string ≠ (h ++ String b y)%string.
Proof.
  intros Hab. induction h as [|c h IH]; [by intros [= ? _]|].
  change (String c (h ++ String a x) ≠ String c (h ++ String b y))%string.
  by intros [= ?].
Qed.

Lemma app_longer (h x : string) (a : ascii) : (h ++ String a x)%string ≠ h.
Proof.
  induction h as [|c h IH]; [done|].
  change (String c (h ++ String a x)%string ≠ String c h). by intros [= ?].
Qed.
End NameFacts.

Section OutputNameFacts.
Import PyStr PyNum Converter.

Lemma output_filename_no_slash (base : string) (date : option string)
    (name fn : string) :
  has_char "/" base = false →
  (∀ d, date = Some d → has_char "/" d = false) →
  output_filename base date name = Ret fn →
  has_char "/" fn = false.
Proof.
  intros Hb Hd. unfold output_filename.
  pose proof (split_on_no_char "." "/" base Hb) as Hparts.
  destruct (split_on "." base) as [|h t]; simpl.
  - destruct (truthy_str date) eqn:Ht; [|done]. intros [= <-].
    destruct date as [d|]; [|done]. simpl.
    by rewrite !has_char_app, (Hd d eq_refl), safe_dataset_name_no_slash.
  - inversion Hparts as [|? ? Hh Ht]; subst.
    destruct (truthy_str date) eqn:Hdt.
    + intros [= <-]. destruct date as [d|]; [|done]. simpl.
      by rewrite !has_char_app, Hh, (Hd d eq_refl), safe_dataset_name_no_slash.
    + destruct t as [|p t]; [done|]. intros [= <-].
      inversion Ht as [|? ? Hp _]; subst.
      by rewrite !has_char_app, Hh, Hp, safe_dataset_name_no_slash.
Qed.

(** An output name is never the base name of the archive. *)
Lemma output_filename_neq_base (base : string) (date : option string)
    (name fn : string) :
  output_filename base date name = Ret fn → fn ≠ base.
Proof.
  unfold output_filename. pose proof (split_on_shape "." base) as Hs.
  destruct (split_on "." base) as [|h [|p t]]; [done| |]; simpl.
  - subst. destruct (truthy_str date); [|done]. intros [= <-].
    apply app_longer.
  - destruct Hs as [r ->].
    destruct (truthy_str date); intros [= <-]; by apply app_sep_neq.
Qed.

(** An output path is never the path of the archive. *)
Lemma output_path_neq_input (f dir name fn : string) :
  output_filename (OsPath.basename f)
    (ModisDate.parse_modis_date (OsPath.basename f)) name = Ret fn →
  OsPath.join dir fn ≠ f.
Proof.
  intros Hfn E.
  assert (has_char "/" fn = false) as Hns.
  { eapply output_filename_no_slash; [apply basename_no_slash| |done].
    intros d. apply parse_modis_date_no_slash. }
  apply (output_filename_neq_base _ _ _ _ Hfn).
  rewrite <- E.
  destruct (join_appends dir fn) as [[r ->]| ->].
  { simpl in Hns. done. }
  destruct (is_empty dir) eqn:He; simpl.
  - destruct dir; [|done]. symmetry. by apply basename_no_slash_id.
  - destruct (OsPath.ends_with_slash dir) eqn:Hsl.
    + apply ends_with_slash_inv in Hsl as [d0 ->].
      rewrite string_app_assoc. symmetry. by apply basename_after_slash.
    + symmetry. by apply basename_after_slash.
Qed.
End OutputNameFacts.

(** *** The loop over the datasets and the conversion *)

Section Loop.
Import PyStr PyNum Converter.

(** The [try] block on a live handle: what it returns, and what it leaves
    at its path, whatever the files were. *)
Lemma materialize_runs (e : env) (a : archive) (pi : option projection_info)
    (path name : string) :
  ∃ k : option file → option file,
    (∀ x, x ≠ Some Dir → k x ≠ Some Dir)
    ∧ ∀ (h : handle) (acc : list string) (st : state),
        h_archive h = a → os st = e → ended (h_id h) (log st) = false →
        ∃ st',
          materialize h pi path name acc st
          = (Ret (if convertible e a pi path name then acc ++ [path] else acc),
             st')
          ∧ os st' = e
          ∧ log st' = log st ++ [EUse (h_id h)]
          ∧ fs st' !! path = k (fs st !! path)
          ∧ ∀ q, q ≠ path → fs st' !! q = fs st !! q.
Proof.
  unfold convertible.
  destruct (List.find _ (ar_datasets a)) as [d|] eqn:Hd.
  2:{ exists id. split; [done|]. intros h acc st <- <- He.
      unfold materialize. run_monad. rewrite sd_read_live, Hd by done.
      simpl. eexists. split; [done|]. done. }
  destruct (ds_read d) as [[shape items]|] eqn:Hr.
  2:{ exists id. split; [done|]. intros h acc st <- <- He.
      unfold materialize. run_monad. rewrite sd_read_live, Hd, Hr by done.
      simpl. eexists. split; [done|]. done. }
  destruct (gtiff_driver e) eqn:Hdrv.
  2:{ exists id. split; [done|]. intros h acc st <- <- He.
      unfold materialize, gdal_driver. run_monad.
      rewrite sd_read_live, Hd, Hr by done.
      simpl. rewrite Hdrv. simpl. eexists. split.
      { by destruct shape as [|? [|? [|? ?]]]. }
      done. }
  assert (∀ h acc st, h_archive h = a → os st = e →
            ended (h_id h) (log st) = false →
            length shape ≠ 2%nat →
            ∃ st', materialize h pi path name acc st = (Ret acc, st')
              ∧ os st' = e ∧ log st' = log st ++ [EUse (h_id h)]
              ∧ fs st' !! path = id (fs st !! path)
              ∧ ∀ q, q ≠ path → fs st' !! q = fs st !! q) as Hrank.
  { intros h acc st <- <- He Hs.
    unfold materialize, gdal_driver. run_monad.
    rewrite sd_read_live, Hd, Hr by done. simpl. rewrite Hdrv. simpl.
    destruct shape as [|? [|? [|? ?]]]; try done; simpl;
      (eexists; split; [done|]; done). }
  destruct shape as [|y [|x [|z shape]]];
    try (exists id; split; [done|]; intros; by apply Hrank).
  simpl.
  destruct (create_fails e path) eqn:Hc.
  { exists id. split; [done|]. intros h acc st <- <- He.
    unfold materialize, gdal_driver, gdal_create. run_monad.
    rewrite sd_read_live, Hd, Hr by done. simpl. rewrite Hdrv. simpl.
    rewrite Hc. simpl. eexists. split; [done|]. done. }
  simpl.
  destruct (usable_geotransform pi) as [[info gt]|] eqn:Hg.
  2:{ eexists (fun _ => Some (Raster _)). split; [done|].
      intros h acc st <- <- He.
      unfold materialize, gdal_driver, gdal_create. run_monad.
      rewrite sd_read_live, Hd, Hr by done. simpl. rewrite Hdrv. simpl.
      rewrite Hc. simpl. rewrite Hg. simpl.
      eexists. split; [done|]. simpl. split; [done|]. split; [done|].
      split; [by rewrite lookup_insert_eq|].
      intros q Hq. by rewrite lookup_insert_ne. }
  rewrite ?bool_decide_eq_true_2 by eauto. simpl.
  destruct (nodata_argument name items) as [v|] eqn:Hn;
    [destruct (as_double v) as [dv|ex] eqn:Hv|].
  all: eexists (fun _ => Some (Raster _)); (split; [done|]);
    intros h acc st <- <- He;
    unfold materialize, gdal_driver, gdal_create, update_raster; run_monad;
    rewrite sd_read_live, Hd, Hr by done; simpl; rewrite Hdrv; simpl;
    rewrite Hc; simpl; rewrite Hg; simpl; rewrite Hn; simpl;
    rewrite ?Hv; simpl;
    (eexists; split; [done|]); simpl; (split; [done|]); (split; [done|]);
    (split; [rewrite ?lookup_alter_eq, lookup_insert_eq; simpl; reflexivity|]);
    intros q Hq; by rewrite ?lookup_alter_ne, lookup_insert_ne.
Qed.
End Loop.

Section LoopRuns.
Import PyStr PyNum Converter.

Lemma prepare_output_runs (dir base : string) (date : option string)
    (name fn : string) (st : state) :
  output_filename base date name = Ret fn →
  fs st !! OsPath.join dir fn ≠ Some Dir →
  remove_denied (os st) (OsPath.join dir fn) = false →
  ∃ st1,
    prepare_output dir base date name st = (Ret (OsPath.join dir fn), st1)
    ∧ os st1 = os st ∧ log st1 = log st
    ∧ fs st1 = delete (OsPath.join dir fn) (fs st).
Proof.
  intros Hfn Hdir Hrm. unfold prepare_output, os_path_exists, os_remove.
  run_monad. rewrite Hfn. simpl. case_bool_decide as Hp.
  - destruct Hp as [x Hp]. rewrite Hp in *. rewrite Hrm.
    destruct x; try done; by eexists.
  - exists st. repeat split; try done.
    symmetry. apply delete_id. by apply eq_None_not_Some.
Qed.

Lemma ended_use (h k : nat) (l : list event) :
  ended h (l ++ [EUse k]) = ended h l.
Proof. rewrite ended_app. simpl. by rewrite orb_false_r. Qed.

(** The body of the loop on a live handle, when the file at the output
    path can be removed: what it returns, and the file that it leaves at
    the path, which does not depend on the files before. *)
Lemma process_dataset_runs (e : env) (a : archive)
    (pi : option projection_info) (dir base : string) (date : option string)
    (name fn : string) :
  output_filename base date name = Ret fn →
  remove_denied e (OsPath.join dir fn) = false →
  ∃ v : option file,
    v ≠ Some Dir
    ∧ ∀ (h : handle) (acc : list string) (st : state),
        h_archive h = a → os st = e → ended (h_id h) (log st) = false →
        fs st !! OsPath.join dir fn ≠ Some Dir →
        ∃ st',
          process_dataset h pi dir base date name acc st
          = (Ret (acc ++ option_list (converted_path e a pi dir base date name)),
             st')
          ∧ os st' = e
          ∧ log st' = log st ++ [EUse (h_id h)]
          ∧ fs st' !! OsPath.join dir fn = v
          ∧ ∀ q, q ≠ OsPath.join dir fn → fs st' !! q = fs st !! q.
Proof.
  intros Hfn Hrm.
  destruct (materialize_runs e a pi (OsPath.join dir fn) name)
    as (k & Hk & Hrun).
  exists (k None). split; [by apply Hk|].
  intros h acc st Ha Hos He Hdir.
  destruct (prepare_output_runs dir base date name fn st)
    as (st1 & Hp & Hos1 & Hlog1 & Hfs1); [done|done|by rewrite Hos|].
  destruct (Hrun h acc st1) as (st' & Hm & Hos' & Hlog' & Hat & Hfr);
    [done|congruence|by rewrite Hlog1|].
  exists st'. unfold process_dataset. run_monad. rewrite Hp, Hm.
  unfold converted_path. rewrite Hfn. simpl.
  split.
  { destruct (convertible _ _ _ _ _); simpl; [done|by rewrite app_nil_r]. }
  split; [done|]. split; [by rewrite Hlog', Hlog1|].
  split.
  - by rewrite Hat, Hfs1, lookup_delete_eq.
  - intros q Hq. by rewrite Hfr, Hfs1, lookup_delete_ne.
Qed.

(** The loop on a live handle, when every file at an output path can be
    removed: it returns the paths of the convertible datasets in the order
    of the names, uses the handle once for each name, and leaves no
    directory where there was none. *)
Lemma process_datasets_runs (e : env) (a : archive)
    (pi : option projection_info) (dir base : string) (date : option string)
    (names : list string) (h : handle) (acc : list string) (st : state) :
  h_archive h = a → os st = e → ended (h_id h) (log st) = false →
  Forall (fun name =>
            ∃ fn, output_filename base date name = Ret fn
              ∧ fs st !! OsPath.join dir fn ≠ Some Dir
              ∧ remove_denied e (OsPath.join dir fn) = false) names →
  ∃ st',
    process_datasets h pi dir base date names acc st
    = (Ret (acc ++ omap (converted_path e a pi dir base date) names), st')
    ∧ os st' = e
    ∧ log st' = log st ++ replicate (length names) (EUse (h_id h))
    ∧ (∀ q, fs st !! q ≠ Some Dir → fs st' !! q ≠ Some Dir)
    ∧ (∀ q,
         (∀ name fn, name ∈ names →
                     output_filename base date name = Ret fn →
                     q ≠ OsPath.join dir fn) →
         fs st' !! q = fs st !! q).
Proof.
  intros Ha. revert acc st.
  induction names as [|name names IH]; intros acc st Hos He Hok; simpl.
  - exists st. rewrite !app_nil_r. done.
  - inversion Hok as [|? ? (fn & Hfn & Hdir & Hrm) Hok']; subst.
    destruct (process_dataset_runs (os st) (h_archive h) pi dir base date
                name fn Hfn Hrm) as (v & Hv & Hrun).
    destruct (Hrun h acc st eq_refl eq_refl He Hdir)
      as (st1 & Hp & Hos1 & Hlog1 & Hat & Hfr).
    assert (∀ q, fs st !! q ≠ Some Dir → fs st1 !! q ≠ Some Dir) as Hnd.
    { intros q Hq. destruct (decide (q = OsPath.join dir fn)) as [->|Hne].
      - by rewrite Hat.
      - by rewrite Hfr. }
    destruct (IH (acc ++ option_list
                    (converted_path (os st) (h_archive h) pi dir base date name))
                st1) as (st' & Hl & Hos' & Hlog' & Hnd' & Hfr').
    { done. }
    { by rewrite Hlog1, ended_use. }
    { eapply Forall_impl; [exact Hok'|]. simpl.
      intros n (fn' & ? & ? & ?). exists fn'. eauto. }
    exists st'. unfold mbind, M_bind. rewrite Hp, Hl.
    split.
    { f_equal. f_equal. rewrite <- app_assoc. f_equal.
      by destruct (converted_path _ _ _ _ _ _ _). }
    split; [congruence|].
    split.
    { rewrite Hlog', Hlog1, <- app_assoc. done. }
    split; [by eauto|].
    intros q Hq. rewrite Hfr'.
    + apply Hfr. eapply Hq; [by left|done].
    + intros n fn' Hn. apply Hq. by right.
Qed.

(** Two runs of the loop for the same archive, from any two file
    systems: after them, the file systems agree at every output path, and
    wherever they agreed before. *)
Lemma process_datasets_twice (e : env) (a : archive)
    (pi : option projection_info) (dir base : string) (date : option string)
    (names : list string) (h h' : handle) (acc acc' : list string)
    (s t s' t' : state) (r r' : outcome (list string)) :
  h_archive h = a → h_archive h' = a → os s = e → os t = e →
  ended (h_id h) (log s) = false → ended (h_id h') (log t) = false →
  Forall (fun name =>
            ∃ fn, output_filename base date name = Ret fn
              ∧ fs s !! OsPath.join dir fn ≠ Some Dir
              ∧ fs t !! OsPath.join dir fn ≠ Some Dir
              ∧ remove_denied e (OsPath.join dir fn) = false) names →
  process_datasets h pi dir base date names acc s = (r, s') →
  process_datasets h' pi dir base date names acc' t = (r', t') →
  ∀ q,
    (∃ name fn, name ∈ names ∧ output_filename base date name = Ret fn
                ∧ q = OsPath.join dir fn)
    ∨ fs s !! q = fs t !! q →
    fs s' !! q = fs t' !! q.
Proof.
  intros Ha Ha'. revert acc acc' s t.
  induction names as [|name names IH]; intros acc acc' s t Hs Ht He He' Hok;
    simpl.
  - intros [= <- <-] [= <- <-] q [(n & fn & Hn & _)|Hq]; [|done].
    by apply elem_of_nil in Hn.
  - inversion Hok as [|? ? (fn & Hfn & Hds & Hdt & Hrm) Hok']; subst.
    destruct (process_dataset_runs (os s) (h_archive h) pi dir base date
                name fn Hfn Hrm) as (v & Hv & Hrun).
    destruct (Hrun h acc s eq_refl eq_refl He Hds)
      as (s1 & Hp & Hos1 & Hlog1 & Hat & Hfr).
    destruct (Hrun h' acc' t Ha' Ht He' Hdt)
      as (t1 & Hp' & Hos1' & Hlog1' & Hat' & Hfr').
    unfold mbind, M_bind. rewrite Hp, Hp'. intros E E' q Hq.
    eapply (IH _ _ s1 t1); [done|done| | | |exact E|exact E'|].
    + by rewrite Hlog1, ended_use.
    + by rewrite Hlog1', ended_use.
    + eapply Forall_impl; [exact Hok'|]. simpl.
      intros n (fn' & ? & Hn1 & Hn2 & ?). exists fn'.
      split; [done|].
      destruct (decide (OsPath.join dir fn' = OsPath.join dir fn))
        as [->|Hne].
      * by rewrite Hat, Hat'.
      * by rewrite Hfr, Hfr'.
    + destruct (decide (q = OsPath.join dir fn)) as [->|Hne].
      { right. by rewrite Hat, Hat'. }
      destruct Hq as [(n & fn' & Hn & Hfn' & ->)|Hq].
      * apply elem_of_cons in Hn as [->|Hn].
        -- rewrite Hfn in Hfn'. by injection Hfn' as ->.
        -- left. by exists n, fn'.
      * right. by rewrite Hfr, Hfr'.
Qed.
End LoopRuns.

Section WholeConversion.
Import PyStr PyNum Converter.

Lemma ended_open (h k : nat) (l : list event) :
  ended h (l ++ [EOpen k]) = ended h l.
Proof. rewrite ended_app. simpl. by rewrite orb_false_r. Qed.

(** The builder on an archive: its result is a function of the archive,
    and the handle that it opens is the only one in its events. *)
Lemma get_modis_projection_info_on_archive (f : string) (a : archive) :
  ∃ (pi : option projection_info) (closed : bool),
    (is_Some pi → closed = true)
    ∧ ∀ st, fs st !! f = Some (Hdf a) →
        let h := fresh_handle (log st) in
        get_modis_projection_info f st
        = (Ret pi,
           {| os := os st; fs := fs st;
              log := log st ++ [EOpen h; EUse h]
                       ++ (if closed then [EEnd h] else []) |}).
Proof.
  assert (∀ st, fs st !! f = Some (Hdf a) →
            let h := {| h_id := fresh_handle (log st); h_archive := a |} in
            let st2 := add_event (EUse (h_id h)) (add_event (EOpen (h_id h)) st) in
            SD f st = (Ret h, add_event (EOpen (h_id h)) st)
            ∧ sd_attributes h (add_event (EOpen (h_id h)) st)
              = (Ret (ar_attrs a), st2)
            ∧ sd_end h st2 = (Ret tt, add_event (EEnd (h_id h)) st2)) as Hops.
  { intros st Hf. destruct (opened_attributes st f a Hf) as [H1 H2].
    split; [done|]. split; [done|]. by apply end_after_use. }
  assert (∀ st, {| os := os st; fs := fs st;
                   log := log st ++ [EOpen (fresh_handle (log st));
                                     EUse (fresh_handle (log st))] ++ [] |}
                = add_event (EUse (fresh_handle (log st)))
                    (add_event (EOpen (fresh_handle (log st))) st)) as Hopen.
  { intros st. unfold add_event. simpl. by rewrite <- app_assoc. }
  assert (∀ st, {| os := os st; fs := fs st;
                   log := log st ++ [EOpen (fresh_handle (log st));
                                     EUse (fresh_handle (log st))]
                            ++ [EEnd (fresh_handle (log st))] |}
                = add_event (EEnd (fresh_handle (log st)))
                    (add_event (EUse (fresh_handle (log st)))
                       (add_event (EOpen (fresh_handle (log st))) st)))
    as Hclosed.
  { intros st. unfold add_event. simpl. by rewrite <- !app_assoc. }
  destruct (struct_metadata_of (ar_attrs a)) as [z|x|text|l] eqn:Hmeta.
  1,2,4: exists None, false; (split; [by intros [? ?]|]); intros st Hf;
    destruct (Hops st Hf) as (H1 & H2 & H3);
    unfold get_modis_projection_info; run_monad;
    rewrite H1; simpl; rewrite H2; simpl; rewrite Hmeta; simpl;
    by rewrite Hopen.
  destruct (Re.search_pair "UpperLeftPointMtrs" text) as [ul|] eqn:Hul,
    (Re.search_pair "LowerRightMtrs" text) as [lr|] eqn:Hlr,
    (Re.search_dim "XDim" text) as [xd|] eqn:Hxd,
    (Re.search_dim "YDim" text) as [yd|] eqn:Hyd.
  2-16: exists None, true; (split; [done|]); intros st Hf;
    destruct (Hops st Hf) as (H1 & H2 & H3);
    unfold get_modis_projection_info; run_monad;
    rewrite H1; simpl; rewrite H2; simpl; rewrite Hmeta; simpl;
    rewrite ?Hul, ?Hlr, ?Hxd, ?Hyd; simpl in *; rewrite H3; simpl;
    by rewrite Hclosed.
  destruct (py_float ul.1) as [ul_x|] eqn:E1; [|shelve].
  destruct (py_float ul.2) as [ul_y|] eqn:E2; [|shelve].
  destruct (py_float lr.1) as [lr_x|] eqn:E3; [|shelve].
  destruct (py_float lr.2) as [lr_y|] eqn:E4; [|shelve].
  destruct (py_int xd) as [xdim|] eqn:E5; [|shelve].
  destruct (py_int yd) as [ydim|] eqn:E6; [|shelve].
  destruct (fdiv_int (fsub lr_x ul_x) xdim) as [rx|] eqn:E7; [|shelve].
  destruct (fdiv_int (fsub lr_y ul_y) ydim) as [ry|] eqn:E8; [|shelve].
  { eexists (Some _), true. split; [done|]. intros st Hf.
    destruct (Hops st Hf) as (H1 & H2 & H3).
    unfold get_modis_projection_info. run_monad.
    rewrite H1. simpl. rewrite H2. simpl. rewrite Hmeta. simpl.
    rewrite Hul, Hlr, Hxd, Hyd. simpl.
    rewrite E1; simpl. rewrite E2; simpl. rewrite E3; simpl.
    rewrite E4; simpl. rewrite E5; simpl. rewrite E6; simpl.
    rewrite E7; simpl. rewrite E8; simpl. simpl in *. rewrite H3. simpl.
    rewrite Hclosed. reflexivity. }
  Unshelve.
  all: exists None, false; (split; [by intros [? ?]|]); intros st Hf;
    destruct (Hops st Hf) as (H1 & H2 & H3);
    unfold get_modis_projection_info; run_monad;
    rewrite H1; simpl; rewrite H2; simpl; rewrite Hmeta; simpl;
    rewrite Hul, Hlr, Hxd, Hyd; simpl;
    rewrite ?E1; simpl; rewrite ?E2; simpl; rewrite ?E3; simpl;
    rewrite ?E4; simpl; rewrite ?E5; simpl; rewrite ?E6; simpl;
    rewrite ?E7; simpl; rewrite ?E8; simpl;
    by rewrite Hopen.
Qed.
End WholeConversion.

Section WholeConversion2.
Import PyStr PyNum Converter.

Lemma ended_uses (h k : nat) (n : nat) (l : list event) :
  ended h (l ++ replicate n (EUse k)) = ended h l.
Proof.
  rewrite ended_app. induction n as [|n IH]; simpl in *; [by rewrite orb_false_r|done].
Qed.

Lemma ended_open_use (h k : nat) (l : list event) :
  ended h (l ++ [EOpen k; EUse k]) = ended h l.
Proof. rewrite ended_app. simpl. by rewrite orb_false_r. Qed.

(** The conversion of an archive whose output directory can be made and
    whose output paths can be cleared: the run of the loop inside it, the
    list that it returns and the events that it adds. *)
Lemma conversion_runs (f : string) (od : option string)
    (ds : option (list string)) (a : archive) (pi : option projection_info)
    (closed : bool) (st st1 : state) :
  let dir := match od with None => OsPath.dirname f | Some d => d end in
  let base := OsPath.basename f in
  let date := ModisDate.parse_modis_date base in
  let selected := select_datasets ds (dataset_names a) in
  let outs := omap (converted_path (os st) a pi dir base date) selected in
  let h1 := fresh_handle (log st) in
  let lg1 := [EOpen h1; EUse h1] ++ (if closed then [EEnd h1] else []) in
  let h := {| h_id := fresh_handle (log st ++ lg1); h_archive := a |} in
  let st3 :=
    add_event (EUse (h_id h))
      (add_event (EOpen (h_id h))
         {| os := os st; fs := fs st1; log := log st ++ lg1 |}) in
  (∀ s, fs s !! f = Some (Hdf a) →
        get_modis_projection_info f s
        = (Ret pi,
           {| os := os s; fs := fs s;
              log := log s ++ [EOpen (fresh_handle (log s));
                               EUse (fresh_handle (log s))]
                       ++ (if closed then [EEnd (fresh_handle (log s))]
                           else []) |})) →
  fs st !! f = Some (Hdf a) →
  os_makedirs dir st = (Ret tt, st1) →
  Forall (fun name =>
            ∃ fn, output_filename base date name = Ret fn
              ∧ fs st !! OsPath.join dir fn ≠ Some Dir
              ∧ remove_denied (os st) (OsPath.join dir fn) = false) selected →
  ∃ st4,
    process_datasets h pi dir base date selected [] st3 = (Ret outs, st4)
    ∧ hdf_to_geotiff_sinusoidal f od ds st
      = (Ret outs, add_event (EEnd (h_id h)) st4)
    ∧ os st4 = os st
    ∧ log st4 = log st3 ++ replicate (length selected) (EUse (h_id h))
    ∧ (∀ q, fs st1 !! q ≠ Some Dir → fs st4 !! q ≠ Some Dir)
    ∧ (∀ q,
         (∀ name fn, name ∈ selected →
                     output_filename base date name = Ret fn →
                     q ≠ OsPath.join dir fn) →
         fs st4 !! q = fs st1 !! q).
Proof.
  intros dir base date selected outs h1 lg1 h st3 Hpi Hf Hmk Hok.
  destruct (os_makedirs_ret _ _ _ Hmk) as (Hos1 & Hlog1 & Hdir1 & Hkeep).
  destruct (os_makedirs_frame _ _ _ _ Hmk) as (_ & _ & Hfr1 & _).
  assert (ended (h_id h) (log st3) = false) as Hlive.
  { unfold st3. simpl. rewrite ended_use, ended_open.
    apply fresh_handle_not_ended. }
  destruct (process_datasets_runs (os st) a pi dir base date selected h []
              st3 eq_refl eq_refl Hlive)
    as (st4 & Hrun & Hos4 & Hlog4 & Hnd4 & Hfr4).
  { eapply Forall_impl; [exact Hok|]. simpl.
    intros n (fn & Hfn & Hd & Hrm). exists fn. split; [done|].
    split; [|done]. rewrite Hfr1; [done|].
    exact (join_longer _ _ _ _ _ Hfn). }
  exists st4. split; [exact Hrun|]. split; [|done].
  unfold hdf_to_geotiff_sinusoidal, os_path_exists.
  unfold mbind, M_bind, mret, M_ret, try_except. simpl.
  rewrite bool_decide_eq_true_2 by (by rewrite Hf). simpl.
  fold dir. rewrite Hmk. simpl.
  rewrite (Hpi st1) by (by apply Hkeep). simpl.
  rewrite Hos1, Hlog1.
  set (st1' := {| os := os st; fs := fs st1; log := log st ++ _ |}).
  destruct (opened_datasets st1' f a) as [Ho Hd]; [by apply Hkeep|].
  simpl in Ho, Hd. rewrite Ho. simpl. rewrite Hd. simpl.
  fold base date selected.
  match goal with
  | |- context [process_datasets ?x1 ?x2 ?x3 ?x4 ?x5 ?x6 ?x7 ?x8] =>
      change (process_datasets x1 x2 x3 x4 x5 x6 x7 x8)
        with (process_datasets h pi dir base date selected [] st3)
  end.
  rewrite Hrun. simpl. unfold sd_end.
  match goal with
  | |- context [ended ?x (log st4)] =>
      assert (ended x (log st4) = false) as ->; [|done]
  end.
  rewrite Hlog4, ended_uses. exact Hlive.
Qed.
End WholeConversion2.

Section ConversionTheorems.
Import PyStr PyNum Converter.

(** X8.  The conversion of a readable archive returns, in the order of the
    archive, the output paths of exactly those selected names whose
    [try] block runs to its end, when the output directory can be made and
    no output path is a directory or a file that cannot be removed.  The
    names are those under which the archive lists its datasets, a name
    that several datasets bear being listed and converted once. *)
Theorem conversion_returns_the_convertible_datasets
    (f : string) (od : option string) (ds : option (list string))
    (a : archive) (st st1 : state) :
  let dir := match od with None => OsPath.dirname f | Some d => d end in
  let base := OsPath.basename f in
  let date := ModisDate.parse_modis_date base in
  let selected := select_datasets ds (dataset_names a) in
  fs st !! f = Some (Hdf a) →
  os_makedirs dir st = (Ret tt, st1) →
  Forall (fun name =>
            ∃ fn, output_filename base date name = Ret fn
              ∧ fs st !! OsPath.join dir fn ≠ Some Dir
              ∧ remove_denied (os st) (OsPath.join dir fn) = false) selected →
  ∃ pi st',
    fst (get_modis_projection_info f st) = Ret pi
    ∧ hdf_to_geotiff_sinusoidal f od ds st
      = (Ret (omap (converted_path (os st) a pi dir base date) selected), st').
Proof.
  intros dir base date selected Hf Hmk Hok.
  destruct (get_modis_projection_info_on_archive f a) as (pi & closed & _ & Hpi).
  destruct (conversion_runs f od ds a pi closed st st1 Hpi Hf Hmk Hok)
    as (st4 & _ & Hrun & _).
  exists pi. eexists. split; [|exact Hrun]. by rewrite (Hpi st Hf).
Qed.

(** X9.  Converting again gives the same list and the same files: under
    the conditions of X8, a second conversion from the state that the
    first one left returns what the first returned and leaves every path
    as the first left it. *)
Theorem conversion_is_idempotent
    (f : string) (od : option string) (ds : option (list string))
    (a : archive) (st st' : state) (outs : list string) :
  let dir := match od with None => OsPath.dirname f | Some d => d end in
  let base := OsPath.basename f in
  let date := ModisDate.parse_modis_date base in
  let selected := select_datasets ds (map ds_name (ar_datasets a)) in
  fs st !! f = Some (Hdf a) →
  Forall (fun name =>
            ∃ fn, output_filename base date name = Ret fn
              ∧ fs st !! OsPath.join dir fn ≠ Some Dir
              ∧ remove_denied (os st) (OsPath.join dir fn) = false) selected →
  hdf_to_geotiff_sinusoidal f od ds st = (Ret outs, st') →
  ∃ st'',
    hdf_to_geotiff_sinusoidal f od ds st' = (Ret outs, st'')
    ∧ fs st'' = fs st'.
Proof.
  intros dir base date selected0 Hf Hok0 Hrun.
  set (selected := select_datasets ds (dataset_names a)).
  assert (Forall (fun name =>
            ∃ fn, output_filename base date name = Ret fn
              ∧ fs st !! OsPath.join dir fn ≠ Some Dir
              ∧ remove_denied (os st) (OsPath.join dir fn) = false) selected)
    as Hok.
  { apply Forall_forall. intros n Hn. rewrite Forall_forall in Hok0.
    apply Hok0. by apply select_datasets_keys_elem. }
  clear Hok0.
  destruct (os_makedirs dir st) as [[[]|e] st1] eqn:Hmk.
  2:{ exfalso. revert Hrun. unfold hdf_to_geotiff_sinusoidal, os_path_exists.
      unfold mbind, M_bind, mret, M_ret. simpl.
      rewrite bool_decide_eq_true_2 by (by rewrite Hf). simpl.
      fold dir. by rewrite Hmk. }
  destruct (os_makedirs_ret _ _ _ Hmk) as (Hos1 & Hlog1 & Hdir1 & Hkeep).
  destruct (os_makedirs_frame _ _ _ _ Hmk) as (_ & _ & Hfr1 & _).
  destruct (get_modis_projection_info_on_archive f a) as (pi & closed & _ & Hpi).
  destruct (conversion_runs f od ds a pi closed st st1 Hpi Hf Hmk Hok)
    as (st4 & Hloop & Hrun1 & Hos4 & Hlog4 & Hnd4 & Hfr4).
  rewrite Hrun1 in Hrun. injection Hrun as <- <-.
  set (st' := add_event _ st4).
  assert (fs st' = fs st4) as Hfs' by done.
  assert (os st' = os st) as Hos' by done.
  assert (∀ name fn, name ∈ selected →
            output_filename base date name = Ret fn →
            dir ≠ OsPath.join dir fn) as Hdirout.
  { intros name fn _ Hfn E. exact (join_neq_dir _ _ _ _ _ Hfn (eq_sym E)). }
  assert (∀ name fn, name ∈ selected →
            output_filename base date name = Ret fn →
            f ≠ OsPath.join dir fn) as Hfout.
  { intros name fn _ Hfn E. exact (output_path_neq_input _ _ _ _ Hfn (eq_sym E)). }
  assert (fs st' !! f = Some (Hdf a)) as Hf'.
  { rewrite Hfs', Hfr4 by done. by apply Hkeep. }
  assert (os_makedirs dir st' = (Ret tt, st')) as Hmk'.
  { apply (os_makedirs_settled dir st st1 st' Hmk). intros q Hq.
    rewrite Hfs'. apply Hfr4. intros name fn Hn Hfn E.
    pose proof (join_longer _ dir _ _ _ Hfn) as Hlong.
    fold dir in E. rewrite <- E in Hlong. lia. }
  assert (Forall (fun name =>
            ∃ fn, output_filename base date name = Ret fn
              ∧ fs st1 !! OsPath.join dir fn ≠ Some Dir
              ∧ fs st' !! OsPath.join dir fn ≠ Some Dir
              ∧ remove_denied (os st) (OsPath.join dir fn) = false) selected)
    as Hok2.
  { eapply Forall_impl; [exact Hok|]. simpl.
    intros n (fn & Hfn & Hd & Hrm). exists fn. split; [done|].
    assert (fs st1 !! OsPath.join dir fn ≠ Some Dir) as Hd1.
    { rewrite Hfr1; [done|]. exact (join_longer _ _ _ _ _ Hfn). }
    split; [done|]. split; [|done]. exact (Hnd4 _ Hd1). }
  destruct (conversion_runs f od ds a pi closed st' st' Hpi Hf' Hmk')
    as (st4' & Hloop' & Hrun2 & Hos4' & Hlog4' & Hnd4' & Hfr4').
  { rewrite Hos'. eapply Forall_impl; [exact Hok2|]. simpl.
    intros n (fn & ? & ? & ? & ?). eauto. }
  rewrite Hos' in Hrun2, Hloop'.
  eexists. split; [exact Hrun2|]. simpl.
  apply map_eq. intros q. symmetry.
  eapply (process_datasets_twice (os st) a pi dir base date selected);
    [| | | | | | |exact Hloop|exact Hloop'|]; try done.
  { simpl. rewrite ended_use, ended_open. apply fresh_handle_not_ended. }
  { simpl. rewrite ended_use, ended_open. apply fresh_handle_not_ended. }
  simpl.
  destruct (decide (q ∈ omap (fun name =>
                                match output_filename base date name with
                                | Ret fn => Some (OsPath.join dir fn)
                                | Raise _ => None
                                end) selected)) as [Hin|Hout].
  - left. apply list_elem_of_omap in Hin as (name & Hn & Hq).
    destruct (output_filename base date name) as [fn|] eqn:Hfn; [|done].
    injection Hq as <-. by exists name, fn.
  - right. symmetry. apply Hfr4.
    intros name fn Hn Hfn ->. apply Hout.
    apply list_elem_of_omap. exists name. split; [done|].
    cbv beta. unfold date, base. by rewrite Hfn.
Qed.
End ConversionTheorems.

Section ConversionFrame.
Import PyStr PyNum Converter.

(** Whatever the conversion returns or raises, it leaves the system as
    it was, and a path that is no output path of a selected dataset of
    the archive holds what it held, unless it is a directory that
    [os.makedirs] made, at a start of the path of the output directory,
    where nothing was before. *)
Lemma hdf_to_geotiff_sinusoidal_frame (f : string) (od : option string)
    (ds : option (list string)) (st st' : state) (r : outcome (list string)) :
  let dir := match od with None => OsPath.dirname f | Some d => d end in
  let base := OsPath.basename f in
  let date := ModisDate.parse_modis_date base in
  hdf_to_geotiff_sinusoidal f od ds st = (r, st') →
  os st' = os st
  ∧ ∀ q,
      (∀ a name fn,
         fs st !! f = Some (Hdf a) →
         name ∈ select_datasets ds (dataset_names a) →
         output_filename base date name = Ret fn →
         q ≠ OsPath.join dir fn) →
      fs st' !! q = fs st !! q
      ∨ fs st !! q = None ∧ fs st' !! q = Some Dir
        ∧ ∃ rest, dir = (q ++ rest)%string.
Proof.
  intros dir base date.
  unfold hdf_to_geotiff_sinusoidal, os_path_exists.
  unfold mbind, M_bind, mret, M_ret, try_except. simpl.
  case_bool_decide as Hex; simpl; [|intros [= <- <-]; eauto].
  fold dir base date.
  destruct (os_makedirs dir st) as [[[]|e] st1] eqn:Hmk; simpl.
  2:{ destruct (os_makedirs_frame _ _ _ _ Hmk) as (Hos1 & _ & _ & Hst).
      intros [= <- <-]. eauto. }
  destruct (os_makedirs_frame _ _ _ _ Hmk) as (Hos1 & _ & _ & Hfr1).
  destruct (os_makedirs_ret _ _ _ Hmk) as (_ & _ & Hdir1 & Hkeep).
  assert (fs st1 !! f = fs st !! f) as Hf1.
  { destruct Hex as [x Hx]. rewrite Hx. by apply Hkeep. }
  assert (∀ s r0,
            os s = os st1 →
            (∀ q,
               (∀ a name fn,
                  fs st !! f = Some (Hdf a) →
                  name ∈ select_datasets ds (dataset_names a) →
                  output_filename base date name = Ret fn →
                  q ≠ OsPath.join dir fn) →
               fs s !! q = fs st1 !! q) →
            (r0, s) = (r, st') →
            os st' = os st
            ∧ ∀ q,
                (∀ a name fn,
                   fs st !! f = Some (Hdf a) →
                   name ∈ select_datasets ds (dataset_names a) →
                   output_filename base date name = Ret fn →
                   q ≠ OsPath.join dir fn) →
                fs st' !! q = fs st !! q
                ∨ fs st !! q = None ∧ fs st' !! q = Some Dir
                  ∧ ∃ rest, dir = (q ++ rest)%string) as Hend.
  { intros s r0 Hos Hfr [= <- <-]. split; [congruence|]. intros q Hq.
    rewrite (Hfr q Hq). apply Hfr1. }
  destruct (get_modis_projection_info_returns f st1) as (pi & lg & ->). simpl.
  set (st1' := {| os := os st1; fs := fs st1; log := log st1 ++ lg |}).
  destruct (SD f st1') as [[h|e] st2] eqn:Ho;
    destruct (log_only_fs _ _ _ _ (log_only_SD f) Ho) as [Hfs2 Hos2]; simpl;
    [|apply Hend; [by rewrite Hos2|intros q _; by rewrite Hfs2]].
  assert (fs st !! f = Some (Hdf (h_archive h))) as Ha.
  { rewrite <- Hf1. revert Ho. unfold SD. simpl.
    destruct (fs st1 !! f) as [[]|]; try done. by intros [= <- _]. }
  destruct (sd_datasets h st2) as [[names|e] st3] eqn:Hd3;
    destruct (log_only_fs _ _ _ _ (log_only_sd_datasets h) Hd3) as [Hfs3 Hos3];
    simpl.
  2:{ apply Hend; [by rewrite Hos3, Hos2|].
      intros q _. by rewrite Hfs3, Hfs2. }
  assert (names = dataset_names (h_archive h)) as ->.
  { revert Hd3. unfold sd_datasets, sd_use.
    unfold mbind, M_bind, mret, M_ret. simpl.
    destruct (ended (h_id h) (log st2)); [done|]. by intros [= <- _]. }
  destruct (process_datasets _ _ _ _ _ _ _ st3) as [[outs'|e] st4] eqn:Hpd;
    apply process_datasets_result in Hpd as (Hos4 & Hfr4 & _); simpl.
  - destruct (sd_end h st4) as [[[]|e] st5] eqn:He;
      destruct (log_only_fs _ _ _ _ (log_only_sd_end h) He) as [Hfs5 Hos5];
      simpl; apply Hend; try (by rewrite Hos5, Hos4, Hos3, Hos2);
      intros q Hq; rewrite Hfs5, Hfr4, Hfs3, Hfs2; simpl; eauto.
  - apply Hend; [by rewrite Hos4, Hos3, Hos2|].
    intros q Hq. rewrite Hfr4, Hfs3, Hfs2; simpl; eauto.
Qed.

(** X10.  The conversion never removes or overwrites the archive that it
    reads: whatever it returns or raises, the file at the input path is
    afterwards what it was before. *)
Theorem conversion_keeps_its_input (f : string) (od : option string)
    (ds : option (list string)) (st : state) :
  fs (hdf_to_geotiff_sinusoidal f od ds st).2 !! f = fs st !! f.
Proof.
  destruct (hdf_to_geotiff_sinusoidal f od ds st) as [r st'] eqn:Hrun. simpl.
  pose proof Hrun as Hrun'.
  apply hdf_to_geotiff_sinusoidal_frame in Hrun as (_ & Hfr).
  destruct (fs st !! f) as [x|] eqn:Hf.
  2:{ revert Hrun'. unfold hdf_to_geotiff_sinusoidal, os_path_exists.
      unfold mbind, M_bind, mret, M_ret. simpl.
      rewrite bool_decide_eq_false_2 by (rewrite Hf; by intros [? ?]).
      simpl. intros [= _ <-]. done. }
  destruct (Hfr f) as [E|(E & _)]; [|by rewrite <- Hf|congruence].
  intros a name fn _ _ Hfn E.
  exact (output_path_neq_input _ _ _ _ Hfn (eq_sym E)).
Qed.

(** X11.  Whatever the conversion returns or raises, a path that is not
    the output path of a selected dataset of the archive holds
    afterwards what it held before, unless it is a directory that
    [os.makedirs] made, the output directory or what was missing above
    it; such a path held nothing before.  So nothing is changed or
    removed but at output paths, and what is new elsewhere is a
    directory. *)
Theorem conversion_changes_only_its_outputs (f : string) (od : option string)
    (ds : option (list string)) (st : state) (q : string) :
  let dir := match od with None => OsPath.dirname f | Some d => d end in
  let base := OsPath.basename f in
  let date := ModisDate.parse_modis_date base in
  let st' := (hdf_to_geotiff_sinusoidal f od ds st).2 in
  (∀ a name fn,
     fs st !! f = Some (Hdf a) →
     name ∈ map ds_name (ar_datasets a) →
     match ds with
     | None => contains "NDVI" name = true
     | Some requested => name ∈ requested
     end →
     output_filename base date name = Ret fn →
     q ≠ OsPath.join dir fn) →
  fs st' !! q = fs st !! q
  ∨ fs st !! q = None ∧ fs st' !! q = Some Dir.
Proof.
  intros dir base date st' Hout. unfold st'.
  destruct (hdf_to_geotiff_sinusoidal f od ds st) as [r st1] eqn:Hrun. simpl.
  apply hdf_to_geotiff_sinusoidal_frame in Hrun as (_ & Hfr).
  destruct (Hfr q) as [?|(? & ? & _)]; [|by left|by right].
  intros a name fn Ha Hn Hfn. apply (Hout a name fn Ha); [| |done].
  - unfold select_datasets in Hn. destruct ds as [l|];
      apply elem_of_filter_bool in Hn as [Hn _]; by apply dict_keys_elem.
  - unfold select_datasets in Hn. destruct ds as [l|];
      apply elem_of_filter_bool in Hn as [_ Hn]; [by apply mem_spec|done].
Qed.
End ConversionFrame.

Section Handles.
Import PyStr PyNum Converter.

Lemma replicate_app {A : Type} (n m : nat) (x : A) :
  replicate n x ++ replicate m x = replicate (n + m) x.
Proof. induction n as [|n IH]; simpl; [done|by rewrite IH]. Qed.

Lemma sd_read_log (h : handle) (name : string) (st st' : state)
    (r : outcome (list nat * attrs)) :
  sd_read h name st = (r, st') →
  ∃ n, log st' = log st ++ replicate n (EUse (h_id h)).
Proof.
  unfold sd_read, sd_use. run_monad.
  destruct (ended (h_id h) (log st)); simpl.
  - intros [= _ <-]. exists 0%nat. simpl. by rewrite app_nil_r.
  - intros E. exists 1%nat. simpl.
    destruct (List.find _ _) as [d|]; [destruct (ds_read d)|];
      by injection E as _ <-.
Qed.

Lemma materialize_log (h : handle) (pi : option projection_info)
    (path name : string) (acc : list string) (st st' : state)
    (r : outcome (list string)) :
  materialize h pi path name acc st = (r, st') →
  ∃ n, log st' = log st ++ replicate n (EUse (h_id h)).
Proof.
  unfold materialize. run_monad.
  destruct (sd_read h name st) as [[[shape items]|e] st1] eqn:Hr;
    apply sd_read_log in Hr as (n & Hn); simpl;
    [|intros [= _ <-]; eauto].
  unfold gdal_driver, gdal_create, update_raster. simpl.
  destruct (gtiff_driver (os st1)); simpl; [|intros [= _ <-]; eauto].
  destruct shape as [|y [|x [|z s]]]; simpl; try (intros [= _ <-]; by eauto).
  destruct (create_fails (os st1) path); simpl; [intros [= _ <-]; by eauto|].
  destruct (usable_geotransform pi) as [[info gt]|]; simpl;
    [|intros [= _ <-]; by eauto].
  destruct (nodata_argument name items) as [v|]; simpl;
    [destruct (as_double v) as [d|e]; simpl|];
    intros [= _ <-]; by eauto.
Qed.

Lemma process_datasets_log (h : handle) (pi : option projection_info)
    (dir base : string) (date : option string) (names : list string)
    (acc : list string) (st st' : state) (r : outcome (list string)) :
  process_datasets h pi dir base date names acc st = (r, st') →
  ∃ n, log st' = log st ++ replicate n (EUse (h_id h)).
Proof.
  revert acc st. induction names as [|name names IH]; intros acc st; simpl.
  - intros [= _ <-]. exists 0%nat. simpl. by rewrite app_nil_r.
  - unfold process_dataset. unfold mbind, M_bind.
    destruct (prepare_output dir base date name st) as [[path|e] st1] eqn:Hp.
    2:{ intros [= _ <-]. exists 0%nat. simpl. rewrite app_nil_r.
        revert Hp. unfold prepare_output, os_path_exists, os_remove. run_monad.
        destruct (output_filename base date name); [|by intros [= _ <-]].
        case_bool_decide; [|done].
        destruct (fs st !! _) as [[]|]; try by intros [= _ <-].
        all: destruct (remove_denied _ _); try done; by intros [= _ <-]. }
    apply prepare_output_ret in Hp as (_ & _ & Hlog1 & _).
    destruct (materialize h pi path name acc st1) as [[acc'|e] st2] eqn:Hm;
      apply materialize_log in Hm as (n & Hn).
    + intros E. apply IH in E as (m & Hm). exists (n + m)%nat.
      by rewrite Hm, Hn, Hlog1, <- app_assoc, replicate_app.
    + intros [= _ <-]. exists n. by rewrite Hn, Hlog1.
Qed.

(** Without a usable bundle the loop appends nothing. *)
Lemma process_datasets_no_bundle (h : handle) (pi : option projection_info)
    (dir base : string) (date : option string) (names : list string)
    (acc outs : list string) (st st' : state) :
  usable_geotransform pi = None →
  process_datasets h pi dir base date names acc st = (Ret outs, st') →
  outs = acc.
Proof.
  intros Hpi. revert acc st.
  induction names as [|name names IH]; intros acc st; simpl.
  - by intros [= <- _].
  - unfold process_dataset. unfold mbind, M_bind.
    destruct (prepare_output dir base date name st) as [[path|e] st1];
      [|done].
    destruct (materialize_result h pi path name acc st1)
      as (st2 & [Hm|Hm] & _); rewrite Hm.
    + apply IH.
    + apply materialize_success in Hm as (? & ? & ? & ? & ? & ? & ? & _ & _ & Hg & _).
      congruence.
Qed.

Lemma omap_opens_uses (n : nat) (k : nat) :
  omap (fun e => match e with EOpen h => Some h | _ => None end)
    (replicate n (EUse k)) = [].
Proof. induction n as [|n IH]; simpl; [done|exact IH]. Qed.

Lemma ended_replicate_use (h k n : nat) :
  ended h (replicate n (EUse k)) = false.
Proof. induction n as [|n IH]; simpl; [done|exact IH]. Qed.

(** A handle that is opened after a log, used and ended leaves the open
    handles of the log as they were. *)
Lemma open_handles_session (l : list event) (n : nat) (uses : list event) :
  uses = replicate n (EUse (fresh_handle l)) →
  open_handles (l ++ EOpen (fresh_handle l) :: uses ++ [EEnd (fresh_handle l)])
  = open_handles l.
Proof.
  intros ->. set (h := fresh_handle l). unfold open_handles.
  rewrite omap_app. simpl. rewrite omap_app, omap_opens_uses. simpl.
  rewrite List.filter_app. simpl.
  assert (ended h (l ++ EOpen h :: replicate n (EUse h) ++ [EEnd h]) = true)
    as ->.
  { rewrite ended_app. simpl. rewrite ended_app. simpl.
    by rewrite Nat.eqb_refl, !orb_true_r. }
  simpl. rewrite app_nil_r. apply List.filter_ext_in.
  intros x Hx. f_equal. rewrite ended_app. simpl. rewrite ended_app. simpl.
  rewrite ended_replicate_use. simpl.
  assert (x ≠ h) as Hne.
  { apply list_elem_of_In, list_elem_of_omap in Hx as (e & He & Hx).
    destruct e as [k| |]; try done. injection Hx as ->.
    apply event_id_lt_fresh in He. simpl in He. unfold h. lia. }
  apply Nat.eqb_neq in Hne. rewrite Nat.eqb_sym in Hne.
  by rewrite Hne, !orb_false_r.
Qed.
End Handles.

Section HandleTheorem.
Import PyStr PyNum Converter.

(** X12.  A conversion that returns at least one output path has ended
    every handle that it opened: the handles open after it are those that
    were open before it. *)
Theorem conversion_with_output_ends_its_handles
    (f : string) (od : option string) (ds : option (list string))
    (st st' : state) (outs : list string) :
  hdf_to_geotiff_sinusoidal f od ds st = (Ret outs, st') →
  outs ≠ [] →
  open_handles (log st') = open_handles (log st).
Proof.
  unfold hdf_to_geotiff_sinusoidal, os_path_exists.
  unfold mbind, M_bind, mret, M_ret, try_except. simpl.
  case_bool_decide as Hex; simpl; [|by intros [= <- _]].
  destruct (os_makedirs _ st) as [[[]|e] st1] eqn:Hmk; simpl; [|done].
  destruct (os_makedirs_ret _ _ _ Hmk) as (Hos1 & Hlog1 & _ & _).
  destruct (fs st1 !! f) as [[| |a|]|] eqn:Hf.
  1,2,4,5: destruct (get_modis_projection_info_returns f st1)
      as (pi & lg & ->); simpl; unfold SD; simpl; rewrite Hf;
      by intros [= <- _].
  destruct (get_modis_projection_info_on_archive f a)
    as (pi & closed & Hclosed & Hpi).
  rewrite (Hpi st1 Hf). simpl.
  set (st1' := {| os := os st1; fs := fs st1; log := _ |}).
  destruct (opened_datasets st1' f a Hf) as [Ho Hd].
  simpl in Ho, Hd. rewrite Ho. simpl. rewrite Hd. simpl.
  destruct (process_datasets _ _ _ _ _ _ _ _) as [[outs'|e] st4] eqn:Hpd;
    simpl; [|by intros [= <- _]].
  destruct (sd_end _ st4) as [[[]|e] st5] eqn:He; simpl;
    [|by intros [= <- _]].
  intros [= <- <-] Hne.
  assert (closed = true) as ->.
  { apply Hclosed. destruct pi as [i|]; [done|].
    by apply process_datasets_no_bundle in Hpd. }
  apply process_datasets_log in Hpd as (n & Hn). simpl in Hn.
  revert He. unfold sd_end. simpl.
  destruct (ended _ (log st4)); [done|]. intros [= <-]. simpl.
  rewrite Hn, Hlog1.
  set (h1 := fresh_handle (log st)).
  set (l1 := log st ++ [EOpen h1; EUse h1; EEnd h1]).
  set (h := fresh_handle l1).
  transitivity (open_handles l1).
  - rewrite <- (open_handles_session l1 (S n) (replicate (S n) (EUse h)))
      by done.
    f_equal. fold h. simpl. by rewrite <- !app_assoc.
  - rewrite <- (open_handles_session (log st) 1 (replicate 1 (EUse h1)))
      by done.
    done.
Qed.
End HandleTheorem.

Section Files.
Import PyStr PyNum Converter.

Lemma string_app_inv_head (a b c : string) :
  (a ++ b)%string = (a ++ c)%string → b = c.
Proof.
  induction a as [|x a IH]; [done|].
  change (String x (a ++ b) = String x (a ++ c) → b = c)%string.
  intros [= E]. by apply IH.
Qed.

Lemma string_app_inv_tail (a b c : string) :
  (a ++ c)%string = (b ++ c)%string → a = b.
Proof.
  revert b. induction a as [|x a IH]; intros [|y b] E.
  - done.
  - apply (f_equal String.length) in E. rewrite !string_app_length in E.
    simpl in E. lia.
  - apply (f_equal String.length) in E. rewrite !string_app_length in E.
    simpl in E. lia.
  - change (String x (a ++ c) = String y (b ++ c))%string in E.
    injection E as -> E. f_equal. by apply IH.
Qed.

(** Two datasets with the same output name have the same sanitized
    name. *)
Lemma output_filename_inj (base : string) (date : option string)
    (n1 n2 fn : string) :
  output_filename base date n1 = Ret fn →
  output_filename base date n2 = Ret fn →
  safe_dataset_name n1 = safe_dataset_name n2.
Proof.
  unfold output_filename. destruct (truthy_str date).
  - intros [= <-] [= E].
    do 4 apply string_app_inv_head in E.
    by apply string_app_inv_tail in E.
  - destruct (split_on "." base) as [|? [|? ?]]; try done.
    intros [= <-] [= E].
    do 4 apply string_app_inv_head in E.
    by apply string_app_inv_tail in E.
Qed.

Lemma join_inj (dir a b : string) :
  (∀ r, a ≠ String "/" r) → (∀ r, b ≠ String "/" r) →
  OsPath.join dir a = OsPath.join dir b → a = b.
Proof.
  intros Ha Hb.
  destruct (join_appends dir a) as [[r ->]| ->]; [by destruct (Ha r)|].
  destruct (join_appends dir b) as [[r ->]| ->]; [by destruct (Hb r)|].
  destruct (_ || _); intros E; apply string_app_inv_head in E; [done|].
  by apply string_app_inv_head in E.
Qed.

Lemma output_path_inj (f dir : string) (date : option string)
    (n1 n2 fn1 fn2 : string) :
  output_filename (OsPath.basename f) date n1 = Ret fn1 →
  output_filename (OsPath.basename f) date n2 = Ret fn2 →
  OsPath.join dir fn1 = OsPath.join dir fn2 →
  safe_dataset_name n1 = safe_dataset_name n2.
Proof.
  intros H1 H2 E. apply join_inj in E.
  - subst. by eapply output_filename_inj.
  - by eapply output_filename_no_leading_slash.
  - by eapply output_filename_no_leading_slash.
Qed.

(** The loop over datasets with distinct sanitized names: the raster of
    each convertible dataset stands at its path when the loop ends. *)
Lemma process_datasets_files (e : env) (a : archive)
    (pi : option projection_info) (f dir : string) (date : option string)
    (names : list string) (h : handle) (acc : list string) (st st' : state)
    (r : outcome (list string)) :
  h_archive h = a → os st = e → ended (h_id h) (log st) = false →
  Forall (fun name =>
            ∃ fn, output_filename (OsPath.basename f) date name = Ret fn
              ∧ fs st !! OsPath.join dir fn ≠ Some Dir
              ∧ remove_denied e (OsPath.join dir fn) = false) names →
  NoDup (map safe_dataset_name names) →
  process_datasets h pi dir (OsPath.basename f) date names acc st = (r, st') →
  ∀ name p,
    name ∈ names →
    converted_path e a pi dir (OsPath.basename f) date name = Some p →
    ∃ ras info d y_size x_size items,
      fs st' !! p = Some (Raster ras)
      ∧ r_band ras = Some name
      ∧ pi = Some info
      ∧ r_geotransform ras = geotransform info
      ∧ List.find (fun d => String.eqb (ds_name d) name) (ar_datasets a)
        = Some d
      ∧ ds_read d = Some ([y_size; x_size], items)
      ∧ r_size ras = (x_size, y_size)
      ∧ r_metadata ras = Some items.
Proof.
  intros Ha. revert acc st.
  induction names as [|name names IH]; intros acc st Hos He Hok Hnd; simpl.
  { intros _ name p Hn. by apply elem_of_nil in Hn. }
  inversion Hok as [|? ? (fn & Hfn & Hdir & Hrm) Hok']; subst.
  apply NoDup_cons in Hnd as [Hnotin Hnd].
  destruct (prepare_output_runs dir (OsPath.basename f) date name fn st)
    as (st1 & Hp & Hos1 & Hlog1 & Hfs1); [done|done|done|].
  destruct (materialize_runs (os st) (h_archive h) pi (OsPath.join dir fn) name)
    as (k & Hk & Hmat).
  destruct (Hmat h acc st1) as (st2 & Hm & Hos2 & Hlog2 & Hat & Hfr);
    [done|done|by rewrite Hlog1|].
  unfold process_dataset. unfold mbind, M_bind. rewrite Hp. simpl.
  rewrite Hm. intros Hrest.
  assert (Forall (fun name =>
            ∃ fn, output_filename (OsPath.basename f) date name = Ret fn
              ∧ fs st2 !! OsPath.join dir fn ≠ Some Dir
              ∧ remove_denied (os st) (OsPath.join dir fn) = false) names)
    as Hok2.
  { eapply Forall_impl; [exact Hok'|]. simpl.
    intros n (fn' & ? & Hd' & ?). exists fn'. split; [done|]. split; [|done].
    destruct (decide (OsPath.join dir fn' = OsPath.join dir fn)) as [->|Hne].
    - rewrite Hat. apply Hk. by rewrite Hfs1, lookup_delete_eq.
    - by rewrite Hfr, Hfs1, lookup_delete_ne. }
  assert (ended (h_id h) (log st2) = false) as He2.
  { by rewrite Hlog2, Hlog1, ended_use. }
  intros n p Hn Hcp. apply elem_of_cons in Hn as [->|Hn].
  - assert (p = OsPath.join dir fn
            ∧ convertible (os st) (h_archive h) pi (OsPath.join dir fn) name
              = true) as [-> Hconv].
    { unfold converted_path in Hcp. rewrite Hfn in Hcp.
      destruct (convertible _ _ _ _ _); [|done]. by injection Hcp as <-. }
    rewrite Hconv in Hm.
    apply materialize_success in Hm
      as (d & x & y & items & info & gt & ras
          & Hd & Hr & Hg & Hf & Hsz & Hgt & _ & Hb & Hmd & _).
    assert (pi = Some info ∧ geotransform info = Some gt) as [-> Hgeo].
    { unfold usable_geotransform in Hg. destruct pi as [i|]; [|done].
      destruct (geotransform i) as [[|? ?]|] eqn:E; try done.
      by injection Hg as <- <-. }
    exists ras, info, d, y, x, items.
    assert (fs st' !! OsPath.join dir fn = fs st2 !! OsPath.join dir fn)
      as ->.
    { apply process_datasets_result in Hrest as (_ & Hfr' & _).
      apply Hfr'. intros n' fn' Hn' Hfn' E.
      apply Hnotin. apply list_elem_of_fmap. exists n'. split; [|done].
      by eapply (output_path_inj f dir date name n' fn fn'). }
    rewrite Hgeo. done.
  - exact (IH _ st2 Hos2 He2 Hok2 Hnd Hrest n p Hn Hcp).
Qed.
End Files.

Section FilesTheorem.
Import PyStr PyNum Converter.

(** X13.  Under the conditions of X8, when no two selected datasets have
    the same sanitized name, every path that the conversion returns
    holds, when it ends, the raster of its dataset: the grid of the
    dataset in the band, its size columns first, the geotransform of the
    bundle and the attributes as metadata. *)
Theorem returned_files_hold_their_rasters
    (f : string) (od : option string) (ds : option (list string))
    (a : archive) (st st1 : state) :
  let dir := match od with None => OsPath.dirname f | Some d => d end in
  let base := OsPath.basename f in
  let date := ModisDate.parse_modis_date base in
  let selected := select_datasets ds (map ds_name (ar_datasets a)) in
  fs st !! f = Some (Hdf a) →
  os_makedirs dir st = (Ret tt, st1) →
  Forall (fun name =>
            ∃ fn, output_filename base date name = Ret fn
              ∧ fs st !! OsPath.join dir fn ≠ Some Dir
              ∧ remove_denied (os st) (OsPath.join dir fn) = false) selected →
  NoDup (map safe_dataset_name selected) →
  ∃ outs st',
    hdf_to_geotiff_sinusoidal f od ds st = (Ret outs, st')
    ∧ ∀ p, p ∈ outs →
        ∃ name fn ras info d y_size x_size items,
          name ∈ selected
          ∧ output_filename base date name = Ret fn
          ∧ p = OsPath.join dir fn
          ∧ fs st' !! p = Some (Raster ras)
          ∧ r_band ras = Some name
          ∧ fst (get_modis_projection_info f st) = Ret (Some info)
          ∧ r_geotransform ras = geotransform info
          ∧ List.find (fun d => String.eqb (ds_name d) name) (ar_datasets a)
            = Some d
          ∧ ds_read d = Some ([y_size; x_size], items)
          ∧ r_size ras = (x_size, y_size)
          ∧ r_metadata ras = Some items.
Proof.
  intros dir base date selected0 Hf Hmk Hok0 Hnd0.
  set (selected := select_datasets ds (dataset_names a)).
  assert (Forall (fun name =>
            ∃ fn, output_filename base date name = Ret fn
              ∧ fs st !! OsPath.join dir fn ≠ Some Dir
              ∧ remove_denied (os st) (OsPath.join dir fn) = false) selected)
    as Hok.
  { apply Forall_forall. intros n Hn. rewrite Forall_forall in Hok0.
    apply Hok0. by apply select_datasets_keys_elem. }
  assert (NoDup (map safe_dataset_name selected)) as Hnd.
  { eapply sublist_NoDup; [exact Hnd0|].
    apply map_of_sublist, select_datasets_keys. }
  assert (∀ name, name ∈ selected → name ∈ selected0) as Hsel0.
  { intros n Hn. by apply select_datasets_keys_elem. }
  clear Hok0 Hnd0.
  destruct (os_makedirs_frame _ _ _ _ Hmk) as (_ & _ & Hfr1 & _).
  destruct (get_modis_projection_info_on_archive f a) as (pi & closed & _ & Hpi).
  destruct (conversion_runs f od ds a pi closed st st1 Hpi Hf Hmk Hok)
    as (st4 & Hloop & Hrun & _).
  eexists _, _. split; [exact Hrun|]. intros p Hp.
  apply list_elem_of_omap in Hp as (name & Hn & Hcp).
  assert (∃ fn, output_filename base date name = Ret fn
                ∧ p = OsPath.join dir fn) as (fn & Hfn & Hpfn).
  { unfold converted_path in Hcp.
    destruct (output_filename _ _ name) as [fn|]; [|done].
    destruct (convertible _ _ _ _ _); [|done].
    injection Hcp as <-. by exists fn. }
  eapply process_datasets_files in Hloop; [|done|done| | |done|exact Hn|exact Hcp].
  - destruct Hloop as (ras & info & d & y & x & items & H1 & H2 & -> & H4).
    exists name, fn, ras, info, d, y, x, items.
    rewrite (Hpi st Hf). split; [by apply Hsel0|]. done.
  - simpl. rewrite ended_use, ended_open. apply fresh_handle_not_ended.
  - eapply Forall_impl; [exact Hok|]. simpl.
    intros n (fn' & Hfn' & Hd & Hrm). exists fn'. split; [done|].
    split; [|done]. rewrite Hfr1; [done|].
    exact (join_longer _ _ _ _ _ Hfn').
Qed.
End FilesTheorem.

(** *** The analysis *)

Section Analysis.
Import PyStr PyNum Converter.

(** The loop over the data fields on a live handle: it raises nothing,
    appends the fields that can be read and changes no other entry. *)
Lemma analyze_fields_runs (h : handle) (names : list string) (i : file_info)
    (st : state) :
  ended (h_id h) (log st) = false →
  ∃ i',
    analyze_fields h names i st
    = (Ret i',
       {| os := os st; fs := fs st;
          log := log st ++ replicate (length names) (EUse (h_id h)) |})
    ∧ fi_data_fields i'
      = fi_data_fields i
        ++ omap (fun name =>
                   match List.find (fun d => String.eqb (ds_name d) name)
                           (ar_datasets (h_archive h)) with
                   | Some d =>
                       match ds_read d with
                       | Some (shape, _) =>
                           Some {| fi_name := name; fi_shape := shape |}
                       | None => None
                       end
                   | None => None
                   end) names
    ∧ fi_path i' = fi_path i ∧ fi_basename i' = fi_basename i
    ∧ fi_resolution i' = fi_resolution i
    ∧ fi_resolution_meters i' = fi_resolution_meters i
    ∧ fi_total_datasets i' = fi_total_datasets i
    ∧ fi_date i' = fi_date i ∧ fi_product_type i' = fi_product_type i
    ∧ fi_tile i' = fi_tile i.
Proof.
  revert i st. induction names as [|name names IH]; intros i st He; simpl.
  - exists i. rewrite !app_nil_r. by destruct st.
  - unfold mbind, M_bind, mret, M_ret, try_except.
    rewrite sd_read_live by done.
    set (st1 := add_event (EUse (h_id h)) st).
    assert (ended (h_id h) (log st1) = false) as He1.
    { unfold st1. simpl. by rewrite ended_use. }
    destruct (List.find _ _) as [d|]; [destruct (ds_read d) as [[shape items]|]|].
    + destruct (IH (with_field {| fi_name := name; fi_shape := shape |} i)
                  st1 He1) as (i' & -> & Hf & Hrest).
      exists i'. split.
      { unfold st1. simpl. by rewrite <- app_assoc. }
      split; [|exact Hrest]. rewrite Hf. simpl. by rewrite <- app_assoc.
    + destruct (IH i st1 He1) as (i' & -> & Hf & Hrest).
      exists i'. split; [|done]. unfold st1. simpl. by rewrite <- app_assoc.
    + destruct (IH i st1 He1) as (i' & -> & Hf & Hrest).
      exists i'. split; [|done]. unfold st1. simpl. by rewrite <- app_assoc.
Qed.

(** What is common to every run of the analysis on an archive: the part
    after the resolution was entered. *)
Lemma analysis_lists_fields (h : handle) (i2 : file_info) (st : state) :
  ended (h_id h) (log st) = false →
  fi_data_fields i2 = [] →
  ∃ i lg,
    or_keep i2
      (datasets ← sd_datasets h;
       i3 ← analyze_fields h datasets i2;
       let i4 := with_total (length datasets) i3 in
       or_keep i4 (sd_end h ;; mret i4)) st
    = (Ret i, {| os := os st; fs := fs st; log := log st ++ lg |})
    ∧ fi_data_fields i = readable_fields (h_archive h)
    ∧ fi_total_datasets i = Some (length (dataset_names (h_archive h)))
    ∧ fi_path i = fi_path i2 ∧ fi_basename i = fi_basename i2
    ∧ fi_resolution i = fi_resolution i2
    ∧ fi_resolution_meters i = fi_resolution_meters i2
    ∧ fi_date i = fi_date i2 ∧ fi_product_type i = fi_product_type i2
    ∧ fi_tile i = fi_tile i2.
Proof.
  intros He Hnil. unfold or_keep, sd_datasets, sd_use, sd_end.
  unfold mbind, M_bind, mret, M_ret, try_except. simpl. rewrite He. simpl.
  set (st1 := add_event (EUse (h_id h)) st).
  destruct (analyze_fields_runs h
              (dict_keys (map ds_name (ar_datasets (h_archive h)))) i2 st1) as (i3 & -> & Hf & Hp & Hb & Hr & Hm & Ht & Hd & Hpt & Htl).
  { unfold st1. simpl. by rewrite ended_use. }
  simpl. rewrite ended_uses. unfold st1. simpl. rewrite ended_use, He.
  eexists _, _. split.
  { unfold add_event. simpl. rewrite <- !app_assoc. reflexivity. }
  simpl. rewrite Hf, Hnil. simpl.
  repeat split; done.
Qed.

(** The analysis on any file: what it returns, and that it reads only. *)
Lemma analyze_hdf_file_runs (f : string) (st : state) :
  ∃ i lg,
    analyze_hdf_file f st
    = (Ret i, {| os := os st; fs := fs st; log := log st ++ lg |})
    ∧ fi_path i = f
    ∧ (fi_data_fields i = [] ∧ fi_total_datasets i = None
       ∨ ∃ a,
           fs st !! f = Some (Hdf a)
           ∧ is_Some (fi_resolution i)
           ∧ fi_data_fields i = readable_fields a
           ∧ fi_total_datasets i = Some (length (dataset_names a))).
Proof.
  unfold analyze_hdf_file.
  set (i0 := {| fi_path := f; fi_data_fields := [] |}).
  destruct (fs st !! f) as [[| |a|]|] eqn:Hf.
  1,2,4,5: exists i0, []; unfold or_keep, SD;
    unfold mbind, M_bind, mret, M_ret, try_except; simpl; rewrite Hf;
    rewrite app_nil_r; split; [by destruct st|]; split; [done|by left].
  destruct (opened_attributes st f a Hf) as [Ho Hat]. simpl in Ho, Hat.
  set (h := {| h_id := fresh_handle (log st); h_archive := a |}) in *.
  set (st2 := add_event (EUse (h_id h)) (add_event (EOpen (h_id h)) st)) in *.
  assert (ended (h_id h) (log st2) = false) as He2.
  { unfold st2. simpl. rewrite ended_use, ended_open.
    apply fresh_handle_not_ended. }
  set (i1 := match Re.search tile_at (OsPath.basename f) with
             | Some t => with_tile (Some t) i0
             | None => i0
             end).
  assert (fi_path i1 = f ∧ fi_data_fields i1 = []
          ∧ fi_total_datasets i1 = None) as (Hp1 & Hf1 & Ht1).
  { unfold i1. by destruct (Re.search tile_at _). }
  assert (∀ i2, fi_path i2 = f → fi_data_fields i2 = [] →
            is_Some (fi_resolution i2) →
            ∃ i lg,
              or_keep i2
                (datasets ← sd_datasets h;
                 i3 ← analyze_fields h datasets i2;
                 let i4 := with_total (length datasets) i3 in
                 or_keep i4 (sd_end h ;; mret i4)) st2
              = (Ret i, {| os := os st; fs := fs st; log := log st ++ lg |})
              ∧ fi_path i = f
              ∧ (fi_data_fields i = [] ∧ fi_total_datasets i = None
                 ∨ ∃ a0, Some (Hdf a) = Some (Hdf a0)
                     ∧ is_Some (fi_resolution i)
                     ∧ fi_data_fields i = readable_fields a0
                     ∧ fi_total_datasets i
                       = Some (length (dataset_names a0)))) as Hlist.
  { intros i2 Hp2 Hn2 Hr2.
    destruct (analysis_lists_fields h i2 st2 He2 Hn2)
      as (i & lg & -> & Hfl & Htot & Hp & _ & Hr & _).
    eexists i, _. split.
    { unfold st2, add_event. simpl. rewrite <- !app_assoc. reflexivity. }
    split; [congruence|]. right. exists a. rewrite Hr. done. }
  assert (∃ lg, st2 = {| os := os st; fs := fs st; log := log st ++ lg |})
    as Hst2.
  { eexists. unfold st2, add_event. simpl. rewrite <- !app_assoc. reflexivity. }
  unfold or_keep at 1. unfold mbind at 1 2, M_bind at 1 2, try_except at 1.
  rewrite Ho. simpl. rewrite Hat. simpl. fold i0 i1.
  unfold or_keep at 1. unfold try_except at 1.
  unfold mbind at 1 2 3 4, M_bind at 1 2 3 4.
  destruct (struct_metadata_of (ar_attrs a)) as [z|x|text|l]; simpl.
  1,2,4: destruct Hst2 as [lg Hlg]; exists i1, lg;
      split; [by rewrite <- Hlg|];
    split; [done|by left].
  destruct (Re.search_pair "UpperLeftPointMtrs" text) as [ul|],
    (Re.search_pair "LowerRightMtrs" text) as [lr|],
    (Re.search_dim "XDim" text) as [xd|]; simpl.
  2-8: match goal with
       | |- context [or_keep ?i2 ?body ?s] =>
           destruct (Hlist i2) as (i & lg & Heq & Hrest); [simpl; eauto..|];
           match type of Heq with
           | ?lhs = _ => change (or_keep i2 body s) with lhs
           end;
           rewrite Heq; by exists i, lg
       end.
  unfold lift, mbind, M_bind. simpl.
  destruct (py_float ul.1) as [ul_x|]; simpl;
    [|destruct Hst2 as [lg Hlg]; exists i1, lg;
      split; [by rewrite <- Hlg|];
      split; [done|by left]].
  destruct (py_float lr.1) as [lr_x|]; simpl;
    [|destruct Hst2 as [lg Hlg]; exists i1, lg;
      split; [by rewrite <- Hlg|];
      split; [done|by left]].
  destruct (py_int xd) as [xdim|]; simpl;
    [|destruct Hst2 as [lg Hlg]; exists i1, lg;
      split; [by rewrite <- Hlg|];
      split; [done|by left]].
  destruct (fdiv_int (fsub lr_x ul_x) xdim) as [q|]; simpl;
    [|destruct Hst2 as [lg Hlg]; exists i1, lg;
      split; [by rewrite <- Hlg|];
      split; [done|by left]].
  match goal with
  | |- context [or_keep ?i2 ?body ?s] =>
      destruct (Hlist i2) as (i & lg & Heq & Hrest); [simpl; eauto..|];
      match type of Heq with
      | ?lhs = _ => change (or_keep i2 body s) with lhs
      end;
      rewrite Heq; by exists i, lg
  end.
Qed.
(** X14.  The analysis raises nothing and changes no file.  Its listing
    is all or nothing: either the data fields and the number of datasets
    were never set, or the data fields are exactly the names under which
    the archive lists its datasets and whose grid can be read, in the
    order of the archive and with their shapes, and the number of
    datasets counts the names listed.  A name that several datasets bear
    is listed once: it gives one field, with the shape of the first
    dataset of that name, and counts once. *)
Theorem analysis_is_all_or_nothing (f : string) (st : state) :
  ∃ i lg,
    analyze_hdf_file f st
    = (Ret i, {| os := os st; fs := fs st; log := log st ++ lg |})
    ∧ fi_path i = f
    ∧ (fi_data_fields i = [] ∧ fi_total_datasets i = None
       ∨ ∃ a,
           fs st !! f = Some (Hdf a)
           ∧ is_Some (fi_resolution i)
           ∧ fi_data_fields i = readable_fields a
           ∧ fi_total_datasets i = Some (length (dataset_names a))).
Proof. apply analyze_hdf_file_runs. Qed.
End Analysis.

Section AnalysisAgrees.
Import PyStr PyNum Converter.

(** X15.  The analysis and the builder agree: when the builder returns a
    bundle for an archive, the analysis of the archive reports the
    resolution of the bundle, as a number and as the text made from it. *)
Theorem analysis_reports_the_resolution_of_the_bundle
    (f : string) (st : state) (info : projection_info) :
  fst (get_modis_projection_info f st) = Ret (Some info) →
  ∃ i res,
    fst (analyze_hdf_file f st) = Ret i
    ∧ resolution info = Some res
    ∧ fi_resolution_meters i = Some res
    ∧ fi_resolution i = Some (ResMeters res).
Proof.
  intros Hb.
  destruct (fs st !! f) as [[| |a|]|] eqn:Hf.
  1,2,4,5: revert Hb; unfold get_modis_projection_info, SD; run_monad;
    by rewrite Hf.
  destruct (opened_attributes st f a Hf) as [Ho Hat]. simpl in Ho, Hat.
  set (h := {| h_id := fresh_handle (log st); h_archive := a |}) in *.
  set (st2 := add_event (EUse (h_id h)) (add_event (EOpen (h_id h)) st)) in *.
  assert (ended (h_id h) (log st2) = false) as He2.
  { unfold st2. simpl. rewrite ended_use, ended_open.
    apply fresh_handle_not_ended. }
  destruct (struct_metadata_of (ar_attrs a)) as [z|x|text|l] eqn:Hmeta.
  1,2,4: exfalso; revert Hb; unfold get_modis_projection_info;
    unfold mbind, M_bind, mret, M_ret, try_except, lift, raise; simpl;
    rewrite Ho; simpl; rewrite Hat; simpl; by rewrite Hmeta.
  destruct (Re.search_pair "UpperLeftPointMtrs" text) as [ul|] eqn:Hul,
    (Re.search_pair "LowerRightMtrs" text) as [lr|] eqn:Hlr,
    (Re.search_dim "XDim" text) as [xd|] eqn:Hxd,
    (Re.search_dim "YDim" text) as [yd|] eqn:Hyd.
  2-16: exfalso; revert Hb; unfold get_modis_projection_info;
    unfold mbind, M_bind, mret, M_ret, try_except, lift, raise; simpl;
    rewrite Ho; simpl; rewrite Hat; simpl; rewrite Hmeta; simpl;
    rewrite ?Hul, ?Hlr, ?Hxd, ?Hyd; simpl;
    by destruct (sd_end _ _) as [[[]|?] ?].
  destruct (py_float ul.1) as [ul_x|] eqn:E1; [|shelve].
  destruct (py_float ul.2) as [ul_y|] eqn:E2; [|shelve].
  destruct (py_float lr.1) as [lr_x|] eqn:E3; [|shelve].
  destruct (py_float lr.2) as [lr_y|] eqn:E4; [|shelve].
  destruct (py_int xd) as [xdim|] eqn:E5; [|shelve].
  destruct (py_int yd) as [ydim|] eqn:E6; [|shelve].
  destruct (fdiv_int (fsub lr_x ul_x) xdim) as [rx|] eqn:E7; [|shelve].
  destruct (fdiv_int (fsub lr_y ul_y) ydim) as [ry|] eqn:E8; [|shelve].
  { revert Hb. unfold get_modis_projection_info.
    unfold mbind, M_bind, mret, M_ret, try_except, lift, raise. simpl.
    rewrite Ho. simpl. rewrite Hat. simpl. rewrite Hmeta. simpl.
    rewrite Hul, Hlr, Hxd, Hyd. simpl.
    rewrite E1; simpl. rewrite E2; simpl. rewrite E3; simpl.
    rewrite E4; simpl. rewrite E5; simpl. rewrite E6; simpl.
    rewrite E7; simpl. rewrite E8; simpl.
    destruct (sd_end _ _) as [[[]|?] ?]; simpl; [|discriminate].
    intros [= <-]. simpl.
    unfold analyze_hdf_file, or_keep at 1 2.
    unfold mbind, M_bind, mret, M_ret, try_except, lift, raise. simpl.
    rewrite Ho. simpl. rewrite Hat. simpl. rewrite Hmeta. simpl.
    rewrite Hul, Hlr, Hxd. simpl.
    rewrite E1; simpl. rewrite E3; simpl. rewrite E5; simpl.
    rewrite E7; simpl.
    match goal with
    | |- context [or_keep ?i2 ?body ?s] =>
        destruct (analysis_lists_fields h i2 st2 He2)
          as (i & lg & Heq & _ & _ & _ & _ & Hr & Hm & _);
          [by destruct (Re.search tile_at _)|];
        match type of Heq with
        | ?lhs = _ => change (or_keep i2 body s) with lhs
        end;
        rewrite Heq; exists i, (fabs rx); simpl;
        rewrite Hr, Hm; by destruct (Re.search tile_at _)
    end. }
  Unshelve.
  all: exfalso; revert Hb; unfold get_modis_projection_info;
    unfold mbind, M_bind, mret, M_ret, try_except, lift, raise; simpl;
    rewrite Ho; simpl; rewrite Hat; simpl; rewrite Hmeta; simpl;
    rewrite Hul, Hlr, Hxd, Hyd; simpl;
    rewrite ?E1; simpl; rewrite ?E2; simpl; rewrite ?E3; simpl;
    rewrite ?E4; simpl; rewrite ?E5; simpl; rewrite ?E6; simpl;
    rewrite ?E7; simpl; rewrite ?E8; simpl; discriminate.
Qed.
End AnalysisAgrees.

(** *** The request handler *)

Section SkillFacts.
Import PyStr PyNum Converter Skill.

(** X16.  A request to the skill is always answered: the handler raises
    nothing, and its result has the status [error], with no file
    information and no output files, or the status [success], with the
    file information and the number of its data fields for an analysis,
    and with a list of output files that is not empty, and its length in
    the message, for a conversion. *)
Theorem skill_request_is_always_answered (r : request) (st : state) :
  ∃ res st',
    handle_hdf_to_geotiff_conversion r st = (Ret res, st')
    ∧ (status res = "error"%string
       ∧ file_info_of res = None ∧ output_files res = None
       ∨ status res = "success"%string
         ∧ if analyze_only r
           then ∃ i, file_info_of res = Some i
                  ∧ output_files res = None
                  ∧ message_of res = FoundDatasets (length (fi_data_fields i))
           else ∃ l, l ≠ []
                  ∧ output_files res = Some l
                  ∧ file_info_of res = None
                  ∧ message_of res = Converted (length l)).
Proof.
  unfold handle_hdf_to_geotiff_conversion.
  destruct (truthy_str (input_file r)); simpl;
    [|eexists _, _; split; [reflexivity|by left]].
  destruct (analyze_only r).
  - unfold analyze, os_path_exists.
    unfold mbind, M_bind, mret, M_ret, try_except. simpl.
    case_bool_decide; simpl; [|eexists _, _; split; [reflexivity|by left]].
    destruct (analyze_hdf_file_runs (default ""%string (input_file r)) st)
      as (i & lg & -> & _).
    eexists _, _. split; [reflexivity|]. right. split; [done|].
    by exists i.
  - unfold convert, os_path_exists.
    unfold mbind, M_bind, mret, M_ret, try_except. simpl.
    case_bool_decide; simpl; [|eexists _, _; split; [reflexivity|by left]].
    destruct (os_makedirs _ st) as [[[]|e] st1]; simpl;
      [|eexists _, _; split; [reflexivity|by left]].
    destruct (hdf_to_geotiff_sinusoidal _ _ _ st1) as [[[|p l]|e] st2]; simpl;
      try (eexists _, _; split; [reflexivity|by left]).
    eexists _, _. split; [reflexivity|]. right. split; [done|].
    by exists (p :: l).
Qed.
End SkillFacts.

(** *** The patterns of the metadata *)

Section Patterns.
Import PyStr Re.

Lemma span_app (p : ascii → bool) (s a b : string) :
  span p s = (a, b) → s = (a ++ b)%string.
Proof.
  revert a b. induction s as [|c s IH]; intros a b; simpl.
  - by intros [= <- <-].
  - destruct (p c); [|by intros [= <- <-]].
    destruct (span p s) as [a' b']. intros [= <- <-].
    by rewrite (IH a' b').
Qed.

Lemma span_other_than (c : ascii) (s a b : string) :
  span (other_than c) s = (a, b) → has_char c a = false.
Proof.
  revert a b. induction s as [|x s IH]; intros a b; simpl.
  - by intros [= <- <-].
  - unfold other_than at 1. destruct (Ascii.eqb x c) eqn:E; simpl;
      [by intros [= <- <-]|].
    destruct (span (other_than c) s) as [a' b']. intros [= <- <-].
    simpl. by rewrite E, (IH a' b').
Qed.

Lemma span_other_than_app (c : ascii) (a rest : string) :
  has_char c a = false →
  span (other_than c) (a ++ String c rest) = (a, String c rest).
Proof.
  induction a as [|x a IH]; intros Ha.
  - simpl. unfold other_than. by rewrite Ascii.eqb_refl.
  - simpl in Ha. apply orb_false_elim in Ha as [Hx Ha].
    change (span (other_than c) (String x (a ++ String c rest))
            = (String x a, String c rest)).
    simpl. unfold other_than at 1. rewrite Hx. simpl. by rewrite (IH Ha).
Qed.

Lemma search_Some {A : Type} (at_start : string → option A) (s : string)
    (r : A) :
  search at_start s = Some r →
  ∃ pre s', s = (pre ++ s')%string ∧ at_start s' = Some r.
Proof.
  induction s as [|c s IH]; simpl.
  - destruct (at_start "") eqn:E; [|done]. intros [= <-]. by exists ""%string, ""%string.
  - destruct (at_start (String c s)) eqn:E.
    + intros [= <-]. by exists ""%string, (String c s).
    + intros (pre & s' & -> & H)%IH. by exists (String c pre), s'.
Qed.

Lemma search_None {A : Type} (at_start : string → option A) (pre s' : string) :
  search at_start (pre ++ s') = None → at_start s' = None.
Proof.
  induction pre as [|c pre IH].
  - destruct s'; simpl; by destruct (at_start _).
  - change (search at_start (String c (pre ++ s')) = None → at_start s' = None).
    simpl. destruct (at_start (String c (pre ++ s'))); [done|]. apply IH.
Qed.

Lemma is_empty_false (s : string) : is_empty s = false ↔ s ≠ ""%string.
Proof. by destruct s. Qed.

Lemma pair_at_Some (key s g1 g2 : string) :
  pair_at key s = Some (g1, g2) →
  ∃ post,
    s = (key ++ "=(" ++ g1 ++ "," ++ g2 ++ ")" ++ post)%string
    ∧ g1 ≠ ""%string ∧ g2 ≠ ""%string
    ∧ has_char "," g1 = false ∧ has_char ")" g2 = false.
Proof.
  unfold pair_at.
  destruct (strip_prefix (key ++ "=(") s) as [r|] eqn:Hp; [|done].
  apply strip_prefix_spec in Hp.
  destruct (span (other_than ",") r) as [a r1] eqn:H1.
  destruct r1 as [|c1 r2]; [done|].
  destruct (Ascii.eqb_spec c1 ",") as [->|Hc1];
    [|by destruct c1 as [[] [] [] [] [] [] [] []]].
  destruct (span (other_than ")") r2) as [b r3] eqn:H2.
  destruct r3 as [|c3 post]; [done|].
  destruct (Ascii.eqb_spec c3 ")") as [->|Hc3];
    [|by destruct c3 as [[] [] [] [] [] [] [] []]].
  destruct (is_empty a) eqn:Ea; [done|].
  destruct (is_empty b) eqn:Eb; [done|].
  intros [= <- <-]. exists post.
  apply span_other_than in H1 as Hna. apply span_other_than in H2 as Hnb.
  apply span_app in H1, H2. subst.
  split; [by rewrite string_app_assoc|].
  by rewrite <- !is_empty_false.
Qed.

Lemma pair_at_complete (key g1 g2 post : string) :
  g1 ≠ ""%string → g2 ≠ ""%string →
  has_char "," g1 = false → has_char ")" g2 = false →
  pair_at key (key ++ "=(" ++ g1 ++ "," ++ g2 ++ ")" ++ post)
  = Some (g1, g2).
Proof.
  intros H1 H2 Hc1 Hc2. unfold pair_at.
  assert (strip_prefix (key ++ "=(")
            (key ++ "=(" ++ g1 ++ "," ++ g2 ++ ")" ++ post)
          = Some (g1 ++ "," ++ g2 ++ ")" ++ post)%string) as ->.
  { apply strip_prefix_spec. by rewrite string_app_assoc. }
  change (g1 ++ "," ++ g2 ++ ")" ++ post)%string
    with (g1 ++ String "," (g2 ++ String ")" post))%string.
  rewrite span_other_than_app by done.
  rewrite span_other_than_app by done.
  apply is_empty_false in H1, H2. by rewrite H1, H2.
Qed.

(** X21.  The pattern of a corner, [key=\(([^,]+),([^)]+)\)]: a match
    that is found stands in the text, with groups that are not empty and
    hold no comma and no closing parenthesis; and none is found only
    when the text holds no such occurrence at all. *)
Theorem search_pair_spec (key text : string) :
  match search_pair key text with
  | Some (g1, g2) =>
      ∃ pre post,
        text = (pre ++ key ++ "=(" ++ g1 ++ "," ++ g2 ++ ")" ++ post)%string
        ∧ g1 ≠ ""%string ∧ g2 ≠ ""%string
        ∧ has_char "," g1 = false ∧ has_char ")" g2 = false
  | None =>
      ∀ pre g1 g2 post,
        g1 ≠ ""%string → g2 ≠ ""%string →
        has_char "," g1 = false → has_char ")" g2 = false →
        text ≠ (pre ++ key ++ "=(" ++ g1 ++ "," ++ g2 ++ ")" ++ post)%string
  end.
Proof.
  unfold search_pair.
  destruct (search (pair_at key) text) as [[g1 g2]|] eqn:E.
  - apply search_Some in E as (pre & s' & -> & H).
    apply pair_at_Some in H as (post & -> & H).
    by exists pre, post.
  - intros pre g1 g2 post H1 H2 Hc1 Hc2 ->.
    apply search_None in E. by rewrite pair_at_complete in E.
Qed.
End Patterns.

Section DimPattern.
Import PyStr Re.

Lemma span_digits_all (s a b : string) :
  span is_digit s = (a, b) →
  span is_digit a = (a, ""%string)
  ∧ (b = ""%string ∨ ∃ c r, b = String c r ∧ is_digit c = false).
Proof.
  revert a b. induction s as [|x s IH]; intros a b; simpl.
  - intros [= <- <-]. split; [done|by left].
  - destruct (is_digit x) eqn:E; [|intros [= <- <-]; split; [done|right; eauto]].
    destruct (span is_digit s) as [a' b']. intros [= <- <-].
    destruct (IH a' b' eq_refl) as [Ha Hb]. split; [|done].
    simpl. by rewrite E, Ha.
Qed.

Lemma dim_at_Some (key s d : string) :
  dim_at key s = Some d →
  ∃ post,
    s = (key ++ "=" ++ d ++ post)%string
    ∧ d ≠ ""%string
    ∧ span is_digit d = (d, ""%string)
    ∧ (post = ""%string ∨ ∃ c r, post = String c r ∧ is_digit c = false).
Proof.
  unfold dim_at.
  destruct (strip_prefix (key ++ "=") s) as [r|] eqn:Hp; [|done].
  apply strip_prefix_spec in Hp.
  destruct (span is_digit r) as [a b] eqn:H1.
  destruct (is_empty a) eqn:Ea; [done|]. intros [= <-].
  destruct (span_digits_all _ _ _ H1) as [Ha Hb].
  apply span_app in H1. subst. exists b.
  split; [by rewrite string_app_assoc|]. by rewrite <- is_empty_false.
Qed.

Lemma dim_at_complete (key post : string) (c : ascii) :
  is_digit c = true →
  dim_at key (key ++ "=" ++ String c post) ≠ None.
Proof.
  intros Hc. unfold dim_at.
  assert (strip_prefix (key ++ "=") (key ++ "=" ++ String c post)
          = Some (String c post)) as ->.
  { apply strip_prefix_spec. by rewrite string_app_assoc. }
  simpl. rewrite Hc. by destruct (span is_digit post).
Qed.

(** X22.  The pattern of a dimension, [key=(\d+)]: a match that is found
    stands in the text, is made of digits, is not empty and is followed
    by no further digit; and none is found only when the key is nowhere
    followed by [=] and a digit. *)
Theorem search_dim_spec (key text : string) :
  match search_dim key text with
  | Some d =>
      ∃ pre post,
        text = (pre ++ key ++ "=" ++ d ++ post)%string
        ∧ d ≠ ""%string
        ∧ span is_digit d = (d, ""%string)
        ∧ (post = ""%string ∨ ∃ c r, post = String c r ∧ is_digit c = false)
  | None =>
      ∀ pre c post,
        is_digit c = true →
        text ≠ (pre ++ key ++ "=" ++ String c post)%string
  end.
Proof.
  unfold search_dim.
  destruct (search (dim_at key) text) as [d|] eqn:E.
  - apply search_Some in E as (pre & s' & -> & H).
    apply dim_at_Some in H as (post & -> & H).
    by exists pre, post.
  - intros pre c post Hc ->.
    apply search_None in E. by apply dim_at_complete in E.
Qed.
End DimPattern.

(** *** The date of a file name *)

Section Dates.
Import PyStr PyNum ModisDate Calendar.

Lemma days_before_year_cycle (y k : Z) :
  days_before_year (y + 400 * k) = days_before_year y + 146097 * k.
Proof. unfold days_before_year. Z.div_mod_to_equations. lia. Qed.

Lemma is_leap_cycle (y k : Z) : is_leap (y + 400 * k) = is_leap y.
Proof.
  unfold is_leap.
  assert ((y + 400 * k) mod 4 = y mod 4) as -> by (Z.div_mod_to_equations; lia).
  assert ((y + 400 * k) mod 100 = y mod 100) as ->
    by (Z.div_mod_to_equations; lia).
  assert ((y + 400 * k) mod 400 = y mod 400) as ->
    by (Z.div_mod_to_equations; lia).
  done.
Qed.

Lemma ymd_of_ordinal_cycle (n k : Z) :
  ymd_of_ordinal (n + 146097 * k)
  = let '(y, m, d) := ymd_of_ordinal n in (y + 400 * k, m, d).
Proof.
  unfold ymd_of_ordinal.
  assert ((n + 146097 * k + 305) / 146097 = (n + 305) / 146097 + k) as ->
    by (Z.div_mod_to_equations; lia).
  set (era := (n + 305) / 146097).
  assert (n + 146097 * k + 305 - (era + k) * 146097
          = n + 305 - era * 146097) as -> by lia.
  cbv zeta. f_equal. f_equal. lia.
Qed.

(** The date arithmetic agrees with the calendar on every day of every
    year from 1 to 400, a whole cycle of the calendar. *)
Lemma agrees_on_cycle :
  forallb (fun y =>
             forallb (fun doy => agrees (Z.of_nat y) (Z.of_nat doy))
               (seq 1 (Z.to_nat (days_in_year (Z.of_nat y)))))
    (seq 1 400) = true.
Proof. vm_cast_no_check (eq_refl true). Qed.

(** The date arithmetic gives the month and day of the calendar for
    every day of every year from the year 1 on. *)
Lemma ymd_of_ordinal_calendar (y doy : Z) :
  1 <= y → 1 <= doy <= days_in_year y →
  ymd_of_ordinal (days_before_year y + doy)
  = let '(m, d) := month_and_day (month_lengths y) 1 doy in (y, m, d).
Proof.
  intros Hy Hdoy.
  set (k := (y - 1) / 400). set (y0 := (y - 1) mod 400 + 1).
  assert (y = y0 + 400 * k) as Hsplit
    by (unfold y0, k; Z.div_mod_to_equations; lia).
  assert (1 <= y0 <= 400) as Hy0
    by (unfold y0; Z.div_mod_to_equations; lia).
  rewrite Hsplit in Hdoy |- *.
  unfold days_in_year in Hdoy. unfold month_lengths.
  rewrite is_leap_cycle in Hdoy |- *.
  rewrite days_before_year_cycle.
  replace (days_before_year y0 + 146097 * k + doy)
    with (days_before_year y0 + doy + 146097 * k) by lia.
  rewrite ymd_of_ordinal_cycle.
  pose proof agrees_on_cycle as H.
  rewrite forallb_forall in H.
  specialize (H (Z.to_nat y0)). rewrite forallb_forall in H.
  specialize (H ltac:(apply in_seq; lia) (Z.to_nat doy)).
  rewrite !Z2Nat.id in H by lia.
  unfold days_in_year in H.
  specialize (H ltac:(apply in_seq; destruct (is_leap y0); lia)).
  unfold agrees, month_lengths in H.
  destruct (month_and_day _ 1 doy) as [m d].
  destruct (ymd_of_ordinal _) as [[y' m'] d'].
  apply andb_prop in H as [[H1 H2]%andb_prop H3].
  apply Z.eqb_eq in H1, H2, H3. simpl. by rewrite H1, H2, H3.
Qed.
End Dates.

Section DateText.
Import PyStr PyNum ModisDate Calendar.

Lemma digit_char_is_digit (n : Z) : is_digit (digit_char (n mod 10)) = true.
Proof.
  assert (0 <= n mod 10 < 10) as H by (apply Z.mod_pos_bound; lia).
  assert (n mod 10 = 0 ∨ n mod 10 = 1 ∨ n mod 10 = 2 ∨ n mod 10 = 3
          ∨ n mod 10 = 4 ∨ n mod 10 = 5 ∨ n mod 10 = 6 ∨ n mod 10 = 7
          ∨ n mod 10 = 8 ∨ n mod 10 = 9) as Hc by lia.
  destruct Hc as [-> | [-> | [-> | [-> | [-> | [-> | [-> | [-> | [-> | ->]]]]]]]]];
    reflexivity.
Qed.

Lemma digit_val_digit_char (n : Z) :
  digit_val (digit_char (n mod 10)) = Z.to_N (n mod 10).
Proof.
  assert (0 <= n mod 10 < 10) as H by (apply Z.mod_pos_bound; lia).
  assert (n mod 10 = 0 ∨ n mod 10 = 1 ∨ n mod 10 = 2 ∨ n mod 10 = 3
          ∨ n mod 10 = 4 ∨ n mod 10 = 5 ∨ n mod 10 = 6 ∨ n mod 10 = 7
          ∨ n mod 10 = 8 ∨ n mod 10 = 9) as Hc by lia.
  destruct Hc as [-> | [-> | [-> | [-> | [-> | [-> | [-> | [-> | [-> | ->]]]]]]]]];
    reflexivity.
Qed.

(** A string of digits: [span is_digit] takes all of it. *)
Lemma digits_cons (c : ascii) (s : string) :
  span is_digit (String c s) = (String c s, ""%string)
  ↔ is_digit c = true ∧ span is_digit s = (s, ""%string).
Proof.
  simpl. destruct (is_digit c); [|by split; [|intros []]].
  destruct (span is_digit s) as [a b]. split.
  - intros [= -> ->]. done.
  - intros [_ [= -> ->]]. done.
Qed.

Lemma digits_snoc (s : string) (c : ascii) :
  span is_digit s = (s, ""%string) → is_digit c = true →
  span is_digit (s ++ String c "") = ((s ++ String c "")%string, ""%string).
Proof.
  intros Hs Hc. induction s as [|a s IH].
  - simpl. by rewrite Hc.
  - apply digits_cons in Hs as [Ha Hs].
    change (span is_digit (String a (s ++ String c ""))
            = (String a (s ++ String c ""), ""))%string.
    apply digits_cons. split; [done|]. by apply IH.
Qed.

Lemma zero_padded_digits (w : nat) (n : Z) :
  span is_digit (zero_padded w n) = (zero_padded w n, ""%string).
Proof.
  revert n. induction w as [|w IH]; intros n; [done|]. simpl.
  apply digits_snoc; [apply IH|apply digit_char_is_digit].
Qed.

Lemma zero_padded_length (w : nat) (n : Z) :
  String.length (zero_padded w n) = w.
Proof.
  revert n. induction w as [|w IH]; intros n; [done|]. simpl.
  rewrite string_app_length, IH. simpl. lia.
Qed.

Lemma digits_val_snoc (acc : N) (s : string) (c : ascii) :
  digits_val acc (s ++ String c "") = (10 * digits_val acc s + digit_val c)%N.
Proof.
  revert acc. induction s as [|a s IH]; intros acc; [done|].
  change (digits_val (10 * acc + digit_val a) (s ++ String c "")
          = (10 * digits_val (10 * acc + digit_val a) s + digit_val c)%N).
  apply IH.
Qed.

Lemma digits_val_zero_padded (w : nat) (n : Z) :
  0 <= n →
  Z.of_N (digits_val 0 (zero_padded w n)) = n mod 10 ^ Z.of_nat w.
Proof.
  revert n. induction w as [|w IH]; intros n Hn.
  - simpl. by rewrite Z.mod_1_r.
  - simpl zero_padded. rewrite digits_val_snoc, digit_val_digit_char.
    rewrite N2Z.inj_add, N2Z.inj_mul, IH by (apply Z.div_pos; lia).
    rewrite Z2N.id by (apply Z.mod_pos_bound; lia).
    rewrite Nat2Z.inj_succ, Z.pow_succ_r by lia.
    change (Z.of_N 10) with 10.
    assert (0 < 10 ^ Z.of_nat w) as Hp by (apply Z.pow_pos_nonneg; lia).
    rewrite Z.rem_mul_r by lia. lia.
Qed.

Lemma digits_not_space (c : ascii) : is_digit c = true → is_space c = false.
Proof.
  unfold is_digit, is_space. intros H.
  apply andb_prop in H as [H1%N.leb_le H2%N.leb_le].
  repeat (apply orb_false_intro);
    rewrite ?andb_false_iff, ?N.leb_gt, ?N.eqb_neq; lia.
Qed.

Lemma rstrip_digits (s : string) :
  span is_digit s = (s, ""%string) → rstrip s = s.
Proof.
  induction s as [|c s IH]; [done|].
  intros [Hc Hs]%digits_cons. simpl. rewrite (IH Hs).
  destruct s; [|done]. by rewrite (digits_not_space c Hc).
Qed.

Lemma strip_digits (s : string) :
  span is_digit s = (s, ""%string) → strip s = s.
Proof.
  intros Hs. unfold strip.
  assert (lstrip s = s) as ->; [|by apply rstrip_digits].
  destruct s as [|c s]; [done|]. apply digits_cons in Hs as [Hc _].
  simpl. by rewrite (digits_not_space c Hc).
Qed.

Lemma digit_not_underscore (c : ascii) :
  is_digit c = true → Ascii.eqb c "_" = false.
Proof.
  intros H. destruct (Ascii.eqb_spec c "_") as [->|]; [|done].
  by vm_compute in H.
Qed.

Lemma drop_underscores_digits (prev : ascii) (s : string) :
  span is_digit s = (s, ""%string) →
  (s = ""%string → Ascii.eqb prev "_" = false) →
  drop_underscores prev s = Some s.
Proof.
  revert prev. induction s as [|c s IH]; intros prev Hs Hprev; simpl.
  - by rewrite Hprev.
  - apply digits_cons in Hs as [Hc Hs].
    rewrite (digit_not_underscore c Hc), Hc, andb_false_r.
    rewrite IH; [done|done|]. intros _. by apply digit_not_underscore.
Qed.

(** [int] of a string of digits that is not empty nor too long. *)
Lemma py_int_digits (s : string) :
  span is_digit s = (s, ""%string) →
  (0 < String.length s <= int_max_str_digits)%nat →
  py_int s = Ret (Z.of_N (digits_val 0 s)).
Proof.
  intros Hs Hlen. unfold py_int. rewrite (strip_digits s Hs).
  assert (take_sign s = (false, s)) as ->.
  { destruct s as [|c s]; [done|]. apply digits_cons in Hs as [Hc _].
    unfold take_sign.
    destruct (Ascii.eqb_spec c "-") as [->|]; [by vm_compute in Hc|].
    destruct (Ascii.eqb_spec c "+") as [->|]; [by vm_compute in Hc|].
    destruct c as [[] [] [] [] [] [] [] []]; done. }
  rewrite drop_underscores_digits; [|done|by destruct s; [simpl in Hlen; lia|]].
  rewrite Hs.
  destruct s as [|c s]; [simpl in Hlen; lia|]. simpl is_empty. simpl orb.
  cbv iota.
  destruct (int_max_str_digits <? String.length (String c s))%nat eqn:E;
    [apply Nat.ltb_lt in E; lia|done].
Qed.

Lemma py_int_zero_padded (w : nat) (n : Z) :
  (0 < w <= int_max_str_digits)%nat → 0 <= n < 10 ^ Z.of_nat w →
  py_int (zero_padded w n) = Ret n.
Proof.
  intros Hw Hn. rewrite py_int_digits.
  - rewrite digits_val_zero_padded by lia. by rewrite Z.mod_small.
  - apply zero_padded_digits.
  - by rewrite zero_padded_length.
Qed.
End DateText.

Section DateTheorem.
Import PyStr PyNum ModisDate Calendar.

Lemma split_on_app_sep (c : ascii) (a b : string) :
  has_char c a = false →
  split_on c (a ++ String c b) = a :: split_on c b.
Proof.
  induction a as [|x a IH]; intros Ha.
  - simpl. by rewrite Ascii.eqb_refl.
  - simpl in Ha. apply orb_false_elim in Ha as [Hx Ha].
    change (split_on c (String x (a ++ String c b)) = String x a :: split_on c b).
    simpl. rewrite Hx, (IH Ha). done.
Qed.

Lemma split_on_no_sep (c : ascii) (a : string) :
  has_char c a = false → split_on c a = [a].
Proof.
  induction a as [|x a IH]; intros Ha; [done|].
  simpl in Ha. apply orb_false_elim in Ha as [Hx Ha].
  simpl. by rewrite Hx, (IH Ha).
Qed.

Lemma has_char_digits (c : ascii) (s : string) :
  is_digit c = false → span is_digit s = (s, ""%string) →
  has_char c s = false.
Proof.
  intros Hc. induction s as [|x s IH]; [done|].
  intros [Hx Hs]%digits_cons. simpl. rewrite (IH Hs), orb_false_r.
  destruct (Ascii.eqb_spec x c) as [->|]; [congruence|done].
Qed.

Lemma zero_padded_4 (n : Z) :
  ∃ a b c d,
    zero_padded 4 n = String a (String b (String c (String d ""))).
Proof. by eexists _, _, _, _. Qed.

Lemma zero_padded_3 (n : Z) :
  ∃ a b c, zero_padded 3 n = String a (String b (String c "")).
Proof. by eexists _, _, _. Qed.

Lemma leap_year_bound (y : Z) : is_leap y = true → y mod 4 = 0.
Proof.
  unfold is_leap. intros [H _]%andb_prop. by apply Z.eqb_eq in H.
Qed.

(** The date of a file name whose second part is [A], a year of four
    digits and a day of the year of three digits. *)
Lemma parse_modis_date_calendar (product rest : string) (y doy : Z) :
  has_char "." product = false →
  1 <= y <= 9999 → 1 <= doy <= days_in_year y →
  rest = ""%string ∨ (∃ r, rest = String "." r) →
  parse_modis_date
    (product ++ ".A" ++ zero_padded 4 y ++ zero_padded 3 doy ++ rest)
  = let '(m, d) := month_and_day (month_lengths y) 1 doy in
    Some (year_text y ++ zero_padded 2 m ++ zero_padded 2 d)%string.
Proof.
  intros Hprod Hy Hdoy Hrest.
  assert (doy <= 366) as Hdoy'.
  { unfold days_in_year in Hdoy. destruct (is_leap y); lia. }
  set (dp := ("A" ++ zero_padded 4 y ++ zero_padded 3 doy)%string).
  assert (has_char "." dp = false) as Hdp.
  { unfold dp. rewrite !has_char_app.
    by rewrite !(has_char_digits "." (zero_padded _ _))
      by (done || apply zero_padded_digits). }
  assert (∃ tail, split_on "."
            (product ++ ".A" ++ zero_padded 4 y ++ zero_padded 3 doy ++ rest)
          = product :: dp :: tail) as [tail Hparts].
  { change (product ++ ".A" ++ zero_padded 4 y ++ zero_padded 3 doy ++ rest)%string
      with (product ++ String "." ("A" ++ zero_padded 4 y
                                     ++ zero_padded 3 doy ++ rest))%string.
    rewrite split_on_app_sep by done.
    assert (("A" ++ zero_padded 4 y ++ zero_padded 3 doy ++ rest)%string
            = (dp ++ rest)%string) as ->.
    { unfold dp. by rewrite !string_app_assoc. }
    destruct Hrest as [->|[r ->]].
    - exists []. f_equal.
      assert ((dp ++ "")%string = dp) as ->.
      { clear. induction dp as [|c s IH]; [done|].
        change (String c (s ++ "") = String c s)%string. by rewrite IH. }
      by apply split_on_no_sep.
    - eexists. f_equal. by apply split_on_app_sep. }
  unfold parse_modis_date. rewrite Hparts.
  change (nth 1 (product :: dp :: tail) ""%string) with dp.
  change (length (product :: dp :: tail) <? 2)%nat with false.
  cbv iota.
  destruct (zero_padded_4 y) as (a & b & c & d & Hy4).
  destruct (zero_padded_3 doy) as (e & f & g & Hd3).
  assert (dp = String "A" (String a (String b (String c (String d
                 (String e (String f (String g ""))))))))%string as Hshape.
  { unfold dp. by rewrite Hy4, Hd3. }
  assert (slice 1 5 dp = zero_padded 4 y ∧ slice 5 8 dp = zero_padded 3 doy
          ∧ slice 0 1 dp = "A"%string ∧ String.length dp = 8%nat)
    as (-> & -> & -> & ->).
  { rewrite Hshape, Hy4, Hd3. done. }
  simpl negb. simpl orb. cbv iota.
  rewrite !py_int_zero_padded by (simpl; try (vm_compute; lia); lia).
  unfold jan1_plus.
  assert ((y <? 1) || (9999 <? y) = false) as ->.
  { apply orb_false_intro; [apply Z.ltb_ge|apply Z.ltb_ge]; lia. }
  replace (days_before_year y + 1 + (doy - 1))
    with (days_before_year y + doy) by lia.
  assert ((days_before_year y + doy <? 1)
          || (max_ordinal <? days_before_year y + doy) = false) as ->.
  { assert (doy <= 365 ∨ y <= 9996) as Hb.
    { unfold days_in_year in Hdoy. destruct (is_leap y) eqn:E; [|lia].
      right. apply leap_year_bound in E. Z.div_mod_to_equations. lia. }
    apply orb_false_intro; apply Z.ltb_ge; unfold max_ordinal;
      unfold days_before_year; Z.div_mod_to_equations; lia. }
  rewrite ymd_of_ordinal_calendar by lia.
  by destruct (month_and_day _ 1 doy) as [m dd].
Qed.
End DateTheorem.

Section DateTheorems.
Import PyStr PyNum ModisDate Calendar.

Lemma digits_app (a b : string) :
  span is_digit a = (a, ""%string) → span is_digit b = (b, ""%string) →
  span is_digit (a ++ b) = ((a ++ b)%string, ""%string).
Proof.
  intros Ha Hb. induction a as [|c a IH]; [done|].
  apply digits_cons in Ha as [Hc Ha].
  change (span is_digit (String c (a ++ b)) = (String c (a ++ b), ""))%string.
  apply digits_cons. split; [done|]. by apply IH.
Qed.

(** X7.  The date of a MODIS file name is the calendar date of the day
    of the year that the name holds: for a product name without a dot, a
    year from 1000 to 9999 and a day of that year, the name
    [product.AYYYYDDD], alone or followed by a dot and more, gives the
    text [YYYYMMDD] of the month and day on which the day [DDD] of the
    year falls in the Gregorian calendar. *)
Theorem modis_date_is_the_calendar_date
    (product rest : string) (y doy : Z) :
  has_char "." product = false →
  1000 <= y <= 9999 → 1 <= doy <= days_in_year y →
  rest = ""%string ∨ (∃ r, rest = String "." r) →
  parse_modis_date
    (product ++ ".A" ++ zero_padded 4 y ++ zero_padded 3 doy ++ rest)
  = let '(m, d) := month_and_day (month_lengths y) 1 doy in
    Some (zero_padded 4 y ++ zero_padded 2 m ++ zero_padded 2 d)%string.
Proof.
  intros Hp Hy Hdoy Hrest.
  rewrite parse_modis_date_calendar by (done || lia).
  unfold year_text.
  by rewrite !(proj2 (Z.ltb_ge _ _)) by lia.
Qed.

(** X23.  Whatever the file name, a date that is parsed from it is a
    text of decimal digits, five to eight of them: the year as the C
    library writes it, which has fewer than four digits below the year
    1000, then two digits for the month and two for the day. *)
Theorem parsed_date_is_a_text_of_digits (filename d : string) :
  parse_modis_date filename = Some d →
  span is_digit d = (d, ""%string)
  ∧ (5 <= String.length d <= 8)%nat.
Proof.
  unfold parse_modis_date.
  destruct (length _ <? 2)%nat; [done|].
  destruct (_ || _); [done|].
  destruct (py_int _) as [year|]; [|done].
  destruct (py_int _) as [doy|]; [|done].
  destruct (jan1_plus _ _) as [[[y m] dd]|]; [|done].
  intros E.
  assert (d = (year_text y ++ zero_padded 2 m ++ zero_padded 2 dd)%string)
    as -> by (by injection E).
  assert (∃ w, (1 <= w <= 4)%nat ∧ year_text y = zero_padded w y)
    as (w & Hw & ->).
  { unfold year_text. repeat case_match; eexists; (split; [|done]); lia. }
  split.
  - apply digits_app; [apply zero_padded_digits|].
    apply digits_app; apply zero_padded_digits.
  - rewrite !string_app_length, !zero_padded_length. lia.
Qed.
End DateTheorems.

(** *** The prompts and the batch functions *)

Section PromptFacts.
Import PyStr PyNum Converter Prompt.

Lemma names_at_known (fields : list field_info) (indices : list Z) (x : string) :
  x ∈ names_at fields indices → x ∈ map fi_name fields.
Proof.
  unfold names_at. intros (i & _ & Hi)%list_elem_of_omap.
  destruct (_ && _); [|done].
  destruct (fields !! Z.to_nat i) as [fld|] eqn:E; [|done].
  injection Hi as <-. apply list_elem_of_fmap. exists fld. split; [done|].
  by eapply list_elem_of_lookup_2.
Qed.

Lemma names_at_no_fields (indices : list Z) : names_at [] indices = [].
Proof.
  destruct (names_at [] indices) as [|x l] eqn:E; [done|].
  assert (x ∈ names_at [] indices) as H by (rewrite E; by left).
  apply names_at_known in H. by apply elem_of_nil in H.
Qed.

Lemma numbered_choice_sound (fields : list field_info)
    (user_input : string) (sel : list string) :
  numbered_choice fields user_input = Some sel →
  sel ≠ [] ∧ ∀ x, x ∈ sel → x ∈ map fi_name fields.
Proof.
  unfold numbered_choice.
  destruct (indices_of _) as [indices|]; [|done].
  destruct (names_at fields indices) as [|y l] eqn:E; [done|].
  intros [= <-]. split; [done|]. intros x Hx. rewrite <- E in Hx.
  by eapply names_at_known.
Qed.

Lemma numbered_choice_no_fields (user_input : string) :
  numbered_choice [] user_input = None.
Proof.
  unfold numbered_choice. destruct (indices_of _); [|done].
  by rewrite names_at_no_fields.
Qed.

(** An answer of the prompt is a selection that is not empty, made of
    names of the fields shown, and at least one line was read for it. *)
Lemma ask_fields_sound (fields : list field_info) (lines rest : list string)
    (sel : list string) :
  ask_fields fields lines = Answered sel rest →
  sel ≠ []
  ∧ (∀ x, x ∈ sel → x ∈ map fi_name fields)
  ∧ ∃ used, used ≠ [] ∧ lines = used ++ rest.
Proof.
  induction lines as [|line lines IH]; simpl; [done|].
  assert (ask_fields fields lines = Answered sel rest →
          sel ≠ [] ∧ (∀ x, x ∈ sel → x ∈ map fi_name fields)
          ∧ ∃ used, used ≠ [] ∧ line :: lines = used ++ rest) as Hnext.
  { intros (H1 & H2 & used & H3 & ->)%IH. split; [done|]. split; [done|].
    by exists (line :: used). }
  destruct (String.eqb (lower line) "ndvi").
  - destruct (List.filter _ _) as [|y l] eqn:E; [done|].
    intros [= <- <-]. split; [done|]. split; [|by exists [line]].
    intros x Hx. rewrite <- E in Hx.
    by apply elem_of_filter_bool in Hx as [Hx _].
  - destruct (numbered_choice fields line) as [s|] eqn:E; [|done].
    intros [= <- <-]. apply numbered_choice_sound in E as [H1 H2].
    split; [done|]. split; [done|]. by exists [line].
Qed.

Lemma ask_fields_no_fields (lines : list string) :
  ask_fields [] lines = EndOfInput.
Proof.
  induction lines as [|line lines IH]; simpl; [done|].
  destruct (String.eqb (lower line) "ndvi"); [done|].
  by rewrite numbered_choice_no_fields.
Qed.

Lemma ask_each_sound (infos : list file_info)
    (m : gmap string (list string)) (lines rest : list string)
    (s : selection) :
  ask_each infos m lines = Answered s rest →
  ∃ m',
    s = PerFile m'
    ∧ (∃ used, lines = used ++ rest)
    ∧ (∀ p, is_Some (m !! p) → is_Some (m' !! p))
    ∧ (∀ info, info ∈ infos → is_Some (m' !! fi_path info))
    ∧ ∀ p sel, m' !! p = Some sel →
        m !! p = Some sel
        ∨ sel ≠ []
          ∧ ∃ info, info ∈ infos ∧ fi_path info = p
              ∧ ∀ x, x ∈ sel → x ∈ map fi_name (fi_data_fields info).
Proof.
  revert m lines. induction infos as [|info infos IH]; intros m lines; simpl.
  - intros [= <- <-]. exists m. split; [done|]. split; [by exists []|].
    split; [done|]. split; [|by left].
    intros info Hi. by apply elem_of_nil in Hi.
  - destruct (ask_fields (fi_data_fields info) lines) as [sel rest1|] eqn:E;
      [|done].
    apply ask_fields_sound in E as (Hne & Hknown & used & _ & ->).
    intros (m' & -> & [used' ->] & Hmono & Hall & Hfrom)%IH.
    exists m'. split; [done|].
    split; [exists (used ++ used'); by rewrite app_assoc|].
    split.
    { intros p Hp. apply Hmono.
      destruct (decide (p = fi_path info)) as [->|Hneq].
      - rewrite lookup_insert_eq. eauto.
      - by rewrite lookup_insert_ne. }
    split.
    { intros i [->|Hi]%elem_of_cons; [|by apply Hall].
      apply Hmono. rewrite lookup_insert_eq. eauto. }
    intros p s Hp. destruct (Hfrom p s Hp) as [Hin|(Hs & i & Hi & Hpi & Hx)].
    + destruct (decide (p = fi_path info)) as [->|Hneq].
      * rewrite lookup_insert_eq in Hin. injection Hin as <-.
        right. split; [done|]. exists info. split; [by left|done].
      * rewrite lookup_insert_ne in Hin by done. by left.
    + right. split; [done|]. exists i. split; [by right|done].
Qed.

(** X17.  A selection that [get_user_selection] returns is never empty
    and names only fields that were shown: with one selection for every
    file, fields of the first file; with a selection for each file,
    every file has one, made of fields of a file with its path.  The
    lines that are left are a tail of the lines given. *)
Theorem selection_is_not_empty_and_known
    (infos : list file_info) (all_same : bool) (lines rest : list string)
    (s : selection) :
  get_user_selection infos all_same lines = Answered s rest →
  (∃ used, lines = used ++ rest)
  ∧ match s with
    | SameForAll sel =>
        ∃ first more,
          infos = first :: more
          ∧ sel ≠ []
          ∧ ∀ x, x ∈ sel → x ∈ map fi_name (fi_data_fields first)
    | PerFile m =>
        ∀ info, info ∈ infos →
          ∃ sel info',
            m !! fi_path info = Some sel
            ∧ sel ≠ []
            ∧ info' ∈ infos ∧ fi_path info' = fi_path info
            ∧ ∀ x, x ∈ sel → x ∈ map fi_name (fi_data_fields info')
    end.
Proof.
  assert (ask_each infos ∅ lines = Answered s rest →
          (∃ used, lines = used ++ rest)
          ∧ match s with
            | SameForAll sel =>
                ∃ first more,
                  infos = first :: more
                  ∧ sel ≠ []
                  ∧ ∀ x, x ∈ sel → x ∈ map fi_name (fi_data_fields first)
            | PerFile m =>
                ∀ info, info ∈ infos →
                  ∃ sel info',
                    m !! fi_path info = Some sel
                    ∧ sel ≠ []
                    ∧ info' ∈ infos ∧ fi_path info' = fi_path info
                    ∧ ∀ x, x ∈ sel → x ∈ map fi_name (fi_data_fields info')
            end) as Heach.
  { intros (m' & -> & Hused & _ & Hall & Hfrom)%ask_each_sound.
    split; [done|]. intros info Hi.
    destruct (Hall info Hi) as [sel Hsel]. exists sel.
    destruct (Hfrom _ _ Hsel) as [Hin|(Hne & i & Hi' & Hp & Hx)];
      [by rewrite lookup_empty in Hin|].
    by exists i. }
  unfold get_user_selection. destruct infos as [|first more]; [done|].
  destruct all_same; [|done].
  destruct (ask_fields (fi_data_fields first) lines) as [sel rest1|] eqn:E;
    [|done].
  intros [= <- <-]. apply ask_fields_sound in E as (Hne & Hknown & used & _ & ->).
  split; [by exists used|]. by exists first, more.
Qed.
End PromptFacts.

Section BatchFacts.
Import PyStr PyNum Converter Prompt.

(** The analyses of a list of files: one entry for each file, in order,
    and no file is changed. *)
Lemma analyze_all_runs (hdf_files : list string) (st : state) :
  ∃ infos lg,
    analyze_all hdf_files st
    = (Ret infos, {| os := os st; fs := fs st; log := log st ++ lg |})
    ∧ Forall2 (fun f i =>
                 fi_path i = f
                 ∧ (fi_data_fields i = []
                    ∨ ∃ a, fs st !! f = Some (Hdf a)
                        ∧ fi_data_fields i = readable_fields a))
        hdf_files infos.
Proof.
  revert st. induction hdf_files as [|f files IH]; intros st; simpl.
  - exists [], []. rewrite app_nil_r. split; [by destruct st|constructor].
  - destruct (analyze_hdf_file_runs f st) as (i & lg & Hi & Hp & Hfields).
    unfold mbind, M_bind, mret, M_ret. rewrite Hi.
    destruct (IH {| os := os st; fs := fs st; log := log st ++ lg |})
      as (infos & lg' & -> & Hall).
    exists (i :: infos), (lg ++ lg'). simpl. rewrite app_assoc.
    split; [done|]. constructor; [|exact Hall].
    split; [done|]. destruct Hfields as [[? _]|(a & ? & _ & ? & _)]; eauto.
Qed.

(** X18.  The batch conversion of archives of which none can be opened
    gets no answer: the analysis finds no data field, so every line of
    input is refused, whatever it is, and the function ends with the
    end of the input, having changed no file. *)
Theorem batch_of_unreadable_archives_gets_no_answer
    (hdf_files : list string) (od : option string) (lines : list string)
    (st : state) :
  hdf_files ≠ [] →
  (∀ f a, f ∈ hdf_files → fs st !! f ≠ Some (Hdf a)) →
  ∃ lg,
    batch_convert_hdf_files hdf_files od lines st
    = (Ret EndOfInput, {| os := os st; fs := fs st; log := log st ++ lg |}).
Proof.
  intros Hne Hbad. destruct hdf_files as [|f files]; [done|].
  unfold batch_convert_hdf_files, compare_hdf_files.
  unfold mbind, M_bind, mret, M_ret.
  destruct (analyze_all_runs (f :: files) st) as (infos & lg & -> & Hall).
  exists lg.
  assert (Forall (fun i => fi_data_fields i = []) infos) as Hnone.
  { clear -Hall Hbad. induction Hall as [|f0 i fl il [_ Hi] _ IH];
      [constructor|].
    constructor.
    - destruct Hi as [?|(a & Ha & _)]; [done|].
      destruct (Hbad f0 a); [by left|done].
    - apply IH. intros f1 a Hf1. apply Hbad. by right. }
  assert (∀ i, i ∈ infos → field_names i = ∅) as Hempty.
  { intros i Hi. rewrite Forall_forall in Hnone. unfold field_names.
    by rewrite (Hnone i Hi). }
  match goal with
  | |- context [forallb ?P ?l] => assert (forallb P l = true) as ->
  end.
  { apply forallb_forall. intros s Hs. apply bool_decide_eq_true_2.
    apply in_map_iff in Hs as (i & <- & Hi%list_elem_of_In).
    rewrite (Hempty i Hi).
    inversion Hall as [|? first ? more _ _ E1 E2]; subst. simpl.
    symmetry. apply Hempty. by left. }
  inversion Hall as [|? first ? more _ _ E1 E2]; subst.
  inversion Hnone as [|? ? Hfirst Hmore]; subst.
  simpl.
  by rewrite Hfirst, ask_fields_no_fields.
Qed.

Lemma count_conversion_counts (outs : list string) (r : batch_result) :
  let r' := count_conversion outs r in
  total r' = total r
  ∧ (success r' + failed r' = S (success r + failed r))%nat
  ∧ ((success r <= length (created_files r))%nat →
     (success r' <= length (created_files r'))%nat)
  ∧ ((success r = 0%nat → created_files r = []) →
     success r' = 0%nat → created_files r' = []).
Proof.
  destruct outs as [|p l]; simpl.
  - repeat split; try done; lia.
  - repeat split; try done; try lia.
    rewrite length_app. simpl. lia.
Qed.

Lemma convert_all_same_counts (hdf_files : list string)
    (od : option string) (sel : list string) (r0 r : batch_result)
    (st st' : state) :
  convert_all_same hdf_files od sel r0 st = (Ret r, st') →
  total r = total r0
  ∧ (success r + failed r = success r0 + failed r0 + length hdf_files)%nat
  ∧ ((success r0 <= length (created_files r0))%nat →
     (success r <= length (created_files r))%nat)
  ∧ ((success r0 = 0%nat → created_files r0 = []) →
     success r = 0%nat → created_files r = []).
Proof.
  revert r0 st. induction hdf_files as [|f files IH]; intros r0 st; simpl.
  - intros [= <- _]. repeat split; try done; lia.
  - unfold mbind, M_bind.
    destruct (hdf_to_geotiff_sinusoidal f od (Some sel) st)
      as [[outs|e] st1]; [|done].
    intros (H1 & H2 & H3 & H4)%IH.
    destruct (count_conversion_counts outs r0) as (G1 & G2 & G3 & G4).
    simpl in *. split; [congruence|]. split; [lia|]. split; eauto.
Qed.

Lemma convert_each_counts (hdf_files : list string)
    (od : option string) (m : gmap string (list string))
    (r0 r : batch_result) (st st' : state) :
  convert_each hdf_files od m r0 st = (Ret r, st') →
  total r = total r0
  ∧ (success r + failed r = success r0 + failed r0 + length hdf_files)%nat
  ∧ ((success r0 <= length (created_files r0))%nat →
     (success r <= length (created_files r))%nat)
  ∧ ((success r0 = 0%nat → created_files r0 = []) →
     success r = 0%nat → created_files r = []).
Proof.
  revert r0 st. induction hdf_files as [|f files IH]; intros r0 st; simpl.
  - intros [= <- _]. repeat split; try done; lia.
  - destruct (m !! f) as [sel|].
    + unfold mbind, M_bind.
      destruct (hdf_to_geotiff_sinusoidal f od (Some sel) st)
        as [[outs|e] st1]; [|done].
      intros (H1 & H2 & H3 & H4)%IH.
      destruct (count_conversion_counts outs r0) as (G1 & G2 & G3 & G4).
      simpl in *. split; [congruence|]. split; [lia|]. split; eauto.
    + intros (H1 & H2 & H3 & H4)%IH. simpl in *.
      split; [done|]. split; [lia|]. split; eauto.
Qed.

(** X19.  The counts of a batch conversion that returns add up: the
    total is the number of files given, every file is counted once, as a
    success or as a failure, and the created files are at least as many
    as the successes, and none when there is no success. *)
Theorem batch_counts_add_up
    (hdf_files : list string) (od : option string) (lines rest : list string)
    (st st' : state) (r : batch_result) :
  batch_convert_hdf_files hdf_files od lines st = (Ret (Answered r rest), st') →
  total r = length hdf_files
  ∧ (success r + failed r = total r)%nat
  ∧ (success r <= length (created_files r))%nat
  ∧ (success r = 0%nat → created_files r = []).
Proof.
  unfold batch_convert_hdf_files.
  destruct hdf_files as [|f files].
  { intros [= <- _ _]. simpl. repeat split; done. }
  unfold compare_hdf_files. unfold mbind, M_bind, mret, M_ret.
  destruct (analyze_all (f :: files) st) as [[infos|e] st1]; [|done].
  destruct (get_user_selection _ _ lines) as [[sel|m] rest1|]; [| |done].
  - destruct (convert_all_same _ _ _ _ st1) as [[r1|e] st2] eqn:E; [|done].
    intros [= <- _ _]. apply convert_all_same_counts in E as (H1 & H2 & H3 & H4).
    simpl in *. split; [done|]. split; [lia|]. split; [apply H3; lia|].
    by apply H4.
  - destruct (convert_each _ _ _ _ st1) as [[r1|e] st2] eqn:E; [|done].
    intros [= <- _ _]. apply convert_each_counts in E as (H1 & H2 & H3 & H4).
    simpl in *. split; [done|]. split; [lia|]. split; [apply H3; lia|].
    by apply H4.
Qed.
End BatchFacts.

Section SelectionConversion.
Import PyStr PyNum Converter Prompt.

(** X20.  Without interaction, [convert_with_user_selection] reads no
    line of input.  When it returns, its result is an error without
    output files or a success with a list of output files that is not
    empty and whose length is in the message; and on a file that the
    archive reader cannot open it changes no file and reports that the
    file is missing or that it has no data fields. *)
Theorem conversion_without_interaction_reads_no_input
    (f : string) (od : option string) (lines : list string)
    (st st' : state) (a : asked outcome_of_selection) :
  convert_with_user_selection f od false lines st = (Ret a, st') →
  ∃ r,
    a = Answered r lines
    ∧ (status r = "error"%string ∧ output_files r = None
       ∨ status r = "success"%string
         ∧ ∃ l, l ≠ [] ∧ output_files r = Some l
             ∧ message r = ConvertedFields (length l))
    ∧ ((∀ x, fs st !! f ≠ Some (Hdf x)) →
       fs st' = fs st
       ∧ (message r = HdfFileNotFound f ∨ message r = NoDataFields)).
Proof.
  unfold convert_with_user_selection, os_path_exists.
  unfold mbind, M_bind, mret, M_ret. simpl.
  case_bool_decide as Hex; simpl.
  2:{ intros [= <- <-]. eexists. split; [done|]. split; [by left|].
      intros _. split; [done|by left]. }
  destruct (analyze_hdf_file_runs f st) as (i & lg & -> & _ & Hfields).
  destruct (fi_data_fields i) as [|first more] eqn:Hfl.
  { intros [= <- <-]. eexists. split; [done|]. split; [by left|].
    intros _. split; [done|by right]. }
  unfold convert_selected. unfold mbind, M_bind, mret, M_ret.
  destruct (hdf_to_geotiff_sinusoidal _ _ _ _) as [[[|p l]|e] st1]; [| |done].
  - intros [= <- <-]. eexists. split; [done|]. split; [by left|].
    intros Hbad. destruct Hfields as [[? _]|(x & Hx & _)]; [done|].
    by destruct (Hbad x).
  - intros [= <- <-]. eexists. split; [done|].
    split; [right; split; [done|]; by exists (p :: l)|].
    intros Hbad. destruct Hfields as [[? _]|(x & Hx & _)]; [done|].
    by destruct (Hbad x).
Qed.
End SelectionConversion.

Section CompareFacts.
Import PyStr PyNum Converter Prompt.

(** X24.  The comparison of a list of files that is not empty raises
    nothing and changes no file; it holds the analyses of the files in
    the order given and their number, and it says that all files have
    the same fields exactly when any two of them have the same set of
    field names. *)
Theorem comparison_of_files (hdf_files : list string) (st : state) :
  hdf_files ≠ [] →
  ∃ c lg,
    compare_hdf_files hdf_files st
    = (Ret (Some c), {| os := os st; fs := fs st; log := log st ++ lg |})
    ∧ map fi_path (file_infos c) = hdf_files
    ∧ total_files c = length hdf_files
    ∧ (all_fields_same c = true
       ↔ ∀ i j, i ∈ file_infos c → j ∈ file_infos c →
                field_names i = field_names j).
Proof.
  intros Hne. destruct hdf_files as [|f files]; [done|].
  unfold compare_hdf_files. unfold mbind, M_bind, mret, M_ret.
  destruct (analyze_all_runs (f :: files) st) as (infos & lg & -> & Hall).
  eexists _, lg. split; [reflexivity|]. simpl.
  split.
  { clear -Hall. induction Hall as [|? ? ? ? [Hp _] _ IH]; [done|].
    simpl. by rewrite Hp, IH. }
  split; [done|].
  inversion Hall as [|? first ? more _ _ E1 E2]; subst. simpl.
  rewrite bool_decide_eq_true_2 by done. simpl.
  rewrite forallb_forall. split.
  - intros Hsame i j Hi Hj.
    assert (∀ k, k ∈ first :: more → field_names k = field_names first)
      as Hfirst.
    { intros k [->|Hk]%elem_of_cons; [done|].
      eapply bool_decide_eq_true_1, Hsame, in_map, list_elem_of_In, Hk. }
    by rewrite (Hfirst i Hi), (Hfirst j Hj).
  - intros Hpair s (k & <- & Hk%list_elem_of_In)%in_map_iff.
    apply bool_decide_eq_true_2. apply Hpair; [by right|by left].
Qed.
End CompareFacts.

Section InteractiveConversion.
Import PyStr PyNum Converter Prompt.

Lemma ask_fields_or_all_no_fields (lines : list string) :
  match ask_fields_or_all [] lines with
  | Answered sel rest =>
      sel = []
      ∧ (∃ used, used ≠ [] ∧ lines = used ++ rest)
      ∧ ¬ Forall (fun line => String.eqb (lower line) "all" = false) lines
  | EndOfInput =>
      Forall (fun line => String.eqb (lower line) "all" = false) lines
  end.
Proof.
  induction lines as [|line lines IH]; simpl; [constructor|].
  destruct (String.eqb (lower line) "all") eqn:E.
  - split; [done|]. split; [by exists [line]|].
    intros Hall. inversion Hall; congruence.
  - rewrite numbered_choice_no_fields.
    destruct (ask_fields_or_all [] lines) as [sel rest|].
    + destruct IH as (-> & (used & Hu & ->) & Hno). split; [done|].
      split; [by exists (line :: used)|].
      intros Hall. apply Hno. by inversion Hall.
    + by constructor.
Qed.

(** The conversion of a selection that is empty returns no path. *)
Lemma conversion_of_nothing (f : string) (od : option string)
    (st st' : state) (outs : list string) :
  hdf_to_geotiff_sinusoidal f od (Some []) st = (Ret outs, st') → outs = [].
Proof.
  unfold hdf_to_geotiff_sinusoidal, os_path_exists.
  unfold mbind, M_bind, mret, M_ret, try_except. simpl.
  case_bool_decide; simpl; [|by intros [= <- _]].
  destruct (os_makedirs _ st) as [[[]|e] st1]; simpl; [|done].
  destruct (get_modis_projection_info_returns f st1) as (pi & lg & ->). simpl.
  destruct (SD f _) as [[h|e] st2]; simpl; [|by intros [= <- _]].
  destruct (sd_datasets h st2) as [[names|e] st3]; simpl;
    [|by intros [= <- _]].
  match goal with
  | |- context [process_datasets _ _ _ _ _ ?sel _ _] =>
      assert (sel = []) as ->
  end.
  { clear. induction names as [|n l IH]; [done|]. simpl. exact IH. }
  simpl. destruct (sd_end h st3) as [[[]|e] st4]; simpl; by intros [= <- _].
Qed.

(** X26.  With interaction, [convert_with_user_selection] on a file that
    exists and that the archive reader cannot open never succeeds and
    never reports that there are no data fields, as it does without
    interaction: every line of numbers is refused, only the answer
    [all] ends the prompt, and the conversion that follows it fails.
    Without that answer the input runs out and no file is changed. *)
Theorem interactive_conversion_of_unreadable_archive
    (f : string) (od : option string) (lines : list string)
    (st st' : state) (r : outcome (asked outcome_of_selection)) :
  is_Some (fs st !! f) →
  (∀ x, fs st !! f ≠ Some (Hdf x)) →
  convert_with_user_selection f od true lines st = (r, st') →
  (∀ a, r = Ret a →
     a = EndOfInput
     ∨ ∃ rest used,
         a = Answered (failure ConversionFailed) rest
         ∧ used ≠ [] ∧ lines = used ++ rest)
  ∧ (Forall (fun line => String.eqb (lower line) "all" = false) lines →
     r = Ret EndOfInput ∧ fs st' = fs st).
Proof.
  intros Hex Hbad. unfold convert_with_user_selection, os_path_exists.
  unfold mbind, M_bind, mret, M_ret. simpl.
  rewrite bool_decide_eq_true_2 by done. simpl.
  destruct (analyze_hdf_file_runs f st) as (i & lg & -> & _ & Hfields).
  assert (fi_data_fields i = []) as ->.
  { destruct Hfields as [[? _]|(x & Hx & _)]; [done|]. by destruct (Hbad x). }
  pose proof (ask_fields_or_all_no_fields lines) as Hask.
  destruct (ask_fields_or_all [] lines) as [sel rest|].
  - destruct Hask as (-> & (used & Hu & Hl) & Hno).
    unfold convert_selected. unfold mbind, M_bind, mret, M_ret.
    destruct (hdf_to_geotiff_sinusoidal f od (Some []) _)
      as [[outs|e] st1] eqn:Hc.
    + apply conversion_of_nothing in Hc as ->. intros [= <- <-].
      split; [|done]. intros a [= <-]. right. by exists rest, used.
    + intros [= <- <-]. split; done.
  - intros [= <- <-]. split; [intros a [= <-]; by left|]. done.
Qed.
End InteractiveConversion.

(** *** The text form of a request *)

Section RunSkillFacts.
Import PyStr Skill RunSkill.

Lemma span_plain (v rest : string) :
  has_char "," v = false → has_char "010" v = false →
  rest = ""%string ∨ (∃ r, rest = String "," r) →
  span is_plain (v ++ rest) = (v, rest).
Proof.
  intros Hc Hn Hrest. induction v as [|x v IH].
  - destruct Hrest as [->|[r ->]]; done.
  - simpl in Hc, Hn. apply orb_false_elim in Hc as [Hx Hc].
    apply orb_false_elim in Hn as [Hx' Hn].
    change (span is_plain (String x (v ++ rest)) = (String x v, rest)).
    simpl. unfold is_plain at 1. rewrite Hx, Hx'. simpl.
    by rewrite (IH Hc Hn).
Qed.

(** The group reads a plain value that ends the text or stands before a
    comma. *)
Lemma spaces_then_value_plain (v rest : string) :
  plain_value v →
  rest = ""%string ∨ (∃ r, rest = String "," r) →
  spaces_then_value (v ++ rest) = Some v.
Proof.
  intros (Hc & Hn & _ & c & r & -> & Hsp & Hq) Hrest.
  assert (value_at (String c r ++ rest) = Some (String c r)) as Hv.
  { unfold value_at.
    apply orb_false_elim in Hq as [Hq1 Hq2].
    change (String c r ++ rest)%string with (String c (r ++ rest)).
    unfold quoted_at. rewrite Hq1, Hq2.
    unfold plain_at.
    change (String c (r ++ rest)) with (String c r ++ rest)%string.
    by rewrite span_plain. }
  change (String c r ++ rest)%string with (String c (r ++ rest)) in *.
  simpl. by rewrite Hsp.
Qed.

Lemma param_at_plain (key v rest : string) :
  plain_value v →
  rest = ""%string ∨ (∃ r, rest = String "," r) →
  param_at key (key ++ "=" ++ v ++ rest) = Some v.
Proof.
  intros Hv Hrest. unfold param_at.
  assert (strip_prefix key (key ++ "=" ++ v ++ rest)
          = Some ("=" ++ v ++ rest)%string) as ->
    by by apply strip_prefix_spec.
  change ("=" ++ v ++ rest)%string with (String "=" (v ++ rest)).
  simpl. by apply spaces_then_value_plain.
Qed.

Lemma search_at_start {A : Type} (at_start : string → option A) (s : string)
    (r : A) :
  at_start s = Some r → Re.search at_start s = Some r.
Proof. intros H. destruct s; simpl; by rewrite H. Qed.

Lemma search_step {A : Type} (at_start : string → option A) (c : ascii)
    (s : string) :
  at_start (String c s) = None →
  Re.search at_start (String c s) = Re.search at_start s.
Proof. intros H. simpl. by rewrite H. Qed.

Lemma strip_prefix_app_None (key a b : string) (c : ascii) :
  has_char c key = false →
  strip_prefix key a = None →
  strip_prefix key (a ++ String c b) = None.
Proof.
  revert a. induction key as [|k key IH]; intros a Hk Ha; [done|].
  simpl in Hk. apply orb_false_elim in Hk as [Hkc Hk].
  destruct a as [|y a].
  - simpl. by rewrite Hkc.
  - change (strip_prefix (String k key) (String y (a ++ String c b)) = None).
    simpl in *. destruct (Ascii.eqb k y); [by apply IH|done].
Qed.

(** A text that does not hold the key holds no match of its pattern
    before the comma that follows it. *)
Lemma search_param_skips (key p s : string) :
  has_char "," key = false →
  contains key p = false →
  Re.search (param_at key) (p ++ String "," s)
  = Re.search (param_at key) (String "," s).
Proof.
  intros Hkey. induction p as [|x p IH]; intros Hp; [done|].
  change (String x p ++ String "," s)%string
    with (String x (p ++ String "," s)).
  assert (strip_prefix key (String x p) = None ∧ contains key p = false)
    as [Hx Hp'].
  { simpl in Hp. destruct (strip_prefix key (String x p)); [done|].
    split; [done|]. exact Hp. }
  rewrite search_step; [by apply IH|].
  unfold param_at.
  change (String x (p ++ String "," s)) with (String x p ++ String "," s)%string.
  by rewrite strip_prefix_app_None.
Qed.

(** X25.  The text form of a request is read as the dict form: for an
    input file and an output directory that are plain values (not
    empty, without comma and line feed, without whitespace at the start
    and quotation marks at the ends), when the input file does not hold
    the word [output_dir], [run_skill] on the text
    [input_file=...,output_dir=...] does what it does on the dict with
    these two entries, and [glob] is not consulted. *)
Theorem run_skill_reads_its_parameters
    (glob : string → list string) (p d : string) (st : state) :
  plain_value p → plain_value d →
  contains "output_dir" p = false →
  run_skill glob
    (StrInput ("input_file=" ++ p ++ ",output_dir=" ++ d)) st
  = run_skill glob
      (DictInput {| input_file := Some p; output_dir := Some d;
                    datasets := None; analyze_only := false |}) st.
Proof.
  intros Hp Hd Hno.
  assert (search_param "input_file"
            ("input_file=" ++ p ++ ",output_dir=" ++ d) = Some p) as Hin.
  { unfold search_param.
    rewrite (search_at_start _ _ p).
    - simpl. by destruct Hp as (_ & _ & -> & _).
    - apply (param_at_plain "input_file" p (",output_dir=" ++ d)); [done|].
      right. by eexists. }
  assert (search_param "output_dir"
            ("input_file=" ++ p ++ ",output_dir=" ++ d) = Some d) as Hout.
  { unfold search_param.
    change ("input_file=" ++ p ++ ",output_dir=" ++ d)%string
      with (String "i" (String "n" (String "p" (String "u" (String "t"
              (String "_" (String "f" (String "i" (String "l" (String "e"
                (String "=" (p ++ String "," ("output_dir=" ++ d)))))))))))))%string.
    do 11 (rewrite search_step by reflexivity).
    rewrite search_param_skips by done.
    rewrite search_step by reflexivity.
    rewrite (search_at_start _ _ d).
    - simpl. by destruct Hd as (_ & _ & -> & _).
    - rewrite <- (string_app_nil d) at 1.
      apply (param_at_plain "output_dir" d ""); [done|by left]. }
  unfold run_skill. by rewrite Hin, Hout.
Qed.
End RunSkillFacts.

(** *** The properties on the sample archives *)

Section ConversionWitnesses.
Import PyStr PyNum Converter Sample.

Ltac outputs_clear :=
  repeat (apply List.Forall_cons;
          [eexists; split; [vm_compute; reflexivity|];
           split; [vm_compute; discriminate | reflexivity]|]);
  apply List.Forall_nil.

(** Witness of X8: the default conversion of the archive in which two
    datasets bear the name of the NDVI grid.  The name is listed once and
    one path is returned for it. *)
Lemma twin_conversion_returns_convertible :
  (∃ pi st',
     fst (get_modis_projection_info hdf_path twin_disk) = Ret pi
     ∧ hdf_to_geotiff_sinusoidal hdf_path None None twin_disk
       = (Ret (omap (converted_path env_ok
                       (archive_of tile_metadata [ndvi; ndvi_again; evi]) pi
                       "/data" bare_name (Some "20150728"%string))
                 [ds_name ndvi]), st'))
  ∧ fst (hdf_to_geotiff_sinusoidal hdf_path None None twin_disk)
    = Ret [ndvi_path].
Proof.
  split; [|vm_compute; reflexivity].
  apply (conversion_returns_the_convertible_datasets hdf_path None None
           (archive_of tile_metadata [ndvi; ndvi_again; evi])
           twin_disk twin_disk).
  - vm_compute. reflexivity.
  - vm_compute. reflexivity.
  - change (select_datasets None
              (dataset_names
                 (archive_of tile_metadata [ndvi; ndvi_again; evi])))
      with [ds_name ndvi].
    outputs_clear.
Defined.

(** Witness of X9: the tile converted twice. *)
Lemma tile_conversion_twice :
  ∃ st'',
    hdf_to_geotiff_sinusoidal hdf_path None None
      (hdf_to_geotiff_sinusoidal hdf_path None None tile_disk).2
    = (Ret [ndvi_path], st'')
    ∧ fs st'' = fs (hdf_to_geotiff_sinusoidal hdf_path None None tile_disk).2.
Proof.
  apply (conversion_is_idempotent hdf_path None None
           (archive_of tile_metadata [ndvi; evi; quality])
           tile_disk _ [ndvi_path]).
  - vm_compute. reflexivity.
  - change (select_datasets None
              (map ds_name (ar_datasets
                              (archive_of tile_metadata [ndvi; evi; quality]))))
      with [ds_name ndvi].
    outputs_clear.
  - assert (fst (hdf_to_geotiff_sinusoidal hdf_path None None tile_disk)
            = Ret [ndvi_path]) as H by (vm_compute; reflexivity).
    destruct (hdf_to_geotiff_sinusoidal hdf_path None None tile_disk).
    simpl in *. by rewrite H.
Defined.

(** Witness of X12: the handles after the conversion of the tile. *)
Lemma tile_conversion_ends_its_handles :
  open_handles (log (hdf_to_geotiff_sinusoidal hdf_path None None tile_disk).2)
  = open_handles (log tile_disk).
Proof.
  apply (conversion_with_output_ends_its_handles hdf_path None None
           tile_disk _ [ndvi_path]).
  - assert (fst (hdf_to_geotiff_sinusoidal hdf_path None None tile_disk)
            = Ret [ndvi_path]) as H by (vm_compute; reflexivity).
    destruct (hdf_to_geotiff_sinusoidal hdf_path None None tile_disk).
    simpl in *. by rewrite H.
  - done.
Defined.

(** Witness of X13: the tile converted for two of its grids. *)
Lemma tile_files_hold_their_rasters :
  ∃ outs st',
    hdf_to_geotiff_sinusoidal hdf_path None
      (Some ["250m 16 days NDVI"; "250m 16 days VI Quality"]%string) tile_disk
    = (Ret outs, st')
    ∧ ∀ p, p ∈ outs →
        ∃ name fn ras info d y_size x_size items,
          name ∈ [ds_name ndvi; ds_name quality]
          ∧ output_filename bare_name (Some "20150728"%string) name = Ret fn
          ∧ p = OsPath.join "/data" fn
          ∧ fs st' !! p = Some (Raster ras)
          ∧ r_band ras = Some name
          ∧ fst (get_modis_projection_info hdf_path tile_disk)
            = Ret (Some info)
          ∧ r_geotransform ras = geotransform info
          ∧ List.find (fun d => String.eqb (ds_name d) name)
              [ndvi; evi; quality] = Some d
          ∧ ds_read d = Some ([y_size; x_size], items)
          ∧ r_size ras = (x_size, y_size)
          ∧ r_metadata ras = Some items.
Proof.
  apply (returned_files_hold_their_rasters hdf_path None
           (Some ["250m 16 days NDVI"; "250m 16 days VI Quality"]%string)
           (archive_of tile_metadata [ndvi; evi; quality])
           tile_disk tile_disk).
  - vm_compute. reflexivity.
  - vm_compute. reflexivity.
  - change (select_datasets _ _) with [ds_name ndvi; ds_name quality].
    outputs_clear.
  - change (select_datasets _ _) with [ds_name ndvi; ds_name quality].
    apply (bool_decide_unpack _). vm_compute. exact I.
Defined.

(** Witness of X11: the tile converted into a directory two levels deep.
    The directory above the output directory is no output path; it was
    missing, and it is a directory afterwards.  The archive is as it
    was. *)
Lemma tile_conversion_makes_the_directory_above :
  (fs (hdf_to_geotiff_sinusoidal hdf_path (Some "/out/tif"%string) None
         tile_disk).2 !! "/out"
   = fs tile_disk !! "/out"
   ∨ fs tile_disk !! "/out" = None
     ∧ fs (hdf_to_geotiff_sinusoidal hdf_path (Some "/out/tif"%string) None
             tile_disk).2 !! "/out" = Some Dir)
  ∧ fs tile_disk !! "/out" = None
  ∧ fs (hdf_to_geotiff_sinusoidal hdf_path (Some "/out/tif"%string) None
          tile_disk).2 !! "/out" = Some Dir
  ∧ fs (hdf_to_geotiff_sinusoidal hdf_path (Some "/out/tif"%string) None
          tile_disk).2 !! hdf_path = fs tile_disk !! hdf_path.
Proof.
  split; [|vm_compute; done].
  apply (conversion_changes_only_its_outputs hdf_path (Some "/out/tif"%string)
           None tile_disk "/out").
  intros a name fn _ _ _ Hfn E.
  pose proof (join_longer hdf_path "/out/tif" _ _ _ Hfn) as Hlong.
  rewrite <- E in Hlong. simpl in Hlong. lia.
Defined.

(** [os.makedirs] on the tile: the directories above a new directory are
    made with it, a directory that is there is left as it is, and nothing
    is made at a file or below one. *)
Example makedirs_examples :
  (∃ st', os_makedirs "/out/a/b" tile_disk = (Ret tt, st')
          ∧ fs st' !! "/out" = Some Dir
          ∧ fs st' !! "/out/a" = Some Dir
          ∧ fs st' !! "/out/a/b" = Some Dir)
  ∧ os_makedirs "/data" tile_disk = (Ret tt, tile_disk)
  ∧ os_makedirs hdf_path tile_disk = (Raise OSError, tile_disk)
  ∧ os_makedirs (hdf_path ++ "/tif") tile_disk = (Raise OSError, tile_disk).
Proof.
  split; [eexists; split; [reflexivity|]; vm_compute; done|].
  vm_compute. done.
Qed.

(** Two datasets of one name: the name is listed once, the analysis
    reports one field for it, with the shape of the first of the two,
    and counts it once. *)
Example repeated_name_is_listed_once :
  dataset_names (archive_of tile_metadata [ndvi; ndvi_again; evi])
  = ["250m 16 days NDVI"; "250m 16 days EVI"]%string
  ∧ ∃ i,
      fst (analyze_hdf_file hdf_path twin_disk) = Ret i
      ∧ fi_data_fields i
        = [{| fi_name := "250m 16 days NDVI";
              fi_shape := [4800; 4800]%nat |};
           {| fi_name := "250m 16 days EVI";
              fi_shape := [4800; 4800]%nat |}]
      ∧ fi_total_datasets i = Some 2%nat.
Proof.
  split; [reflexivity|]. eexists. split; [vm_compute; reflexivity|].
  split; reflexivity.
Qed.
End ConversionWitnesses.

Section PromptWitnesses.
Import PyStr PyNum Converter Prompt Sample PromptSample.

Lemma run_eq {A : Type} (m : M A) (st : state) (r : outcome A) :
  fst (m st) = r → m st = (r, (m st).2).
Proof. intros <-. by destruct (m st). Qed.

(** Witness of X17: a refused line, then the answer [ndvi]. *)
Lemma tile_selection_by_number :
  (∃ used, ["0"; "ndvi"; "1"]%string = used ++ ["1"%string])
  ∧ ∃ first more,
      tile_analysis = first :: more
      ∧ ["250m 16 days NDVI"%string] ≠ []
      ∧ ∀ x, x ∈ ["250m 16 days NDVI"%string] →
             x ∈ map fi_name (fi_data_fields first).
Proof.
  apply (selection_is_not_empty_and_known tile_analysis true
           ["0"; "ndvi"; "1"]%string ["1"%string]
           (SameForAll ["250m 16 days NDVI"%string])).
  vm_compute. reflexivity.
Defined.

(** Witness of X18: the batch conversion of the file that no reader can
    open. *)
Lemma batch_on_broken_disk_gets_no_answer :
  ∃ lg,
    batch_convert_hdf_files [hdf_path] None ["1"; "ndvi"; "all"]%string
      broken_disk
    = (Ret EndOfInput,
       {| os := os broken_disk; fs := fs broken_disk;
          log := log broken_disk ++ lg |}).
Proof.
  apply (batch_of_unreadable_archives_gets_no_answer [hdf_path] None
           ["1"; "ndvi"; "all"]%string broken_disk).
  - done.
  - intros f a Hf. apply list_elem_of_singleton in Hf as ->.
    vm_compute. discriminate.
Defined.

(** Witness of X19: the batch conversion of the tile, answered with
    [ndvi]. *)
Lemma tile_batch_counts :
  total ndvi_batch = length [hdf_path]
  ∧ (success ndvi_batch + failed ndvi_batch = total ndvi_batch)%nat
  ∧ (success ndvi_batch <= length (created_files ndvi_batch))%nat
  ∧ (success ndvi_batch = 0%nat → created_files ndvi_batch = []).
Proof.
  apply (batch_counts_add_up [hdf_path] None ["ndvi"%string] [] tile_disk
           (batch_convert_hdf_files [hdf_path] None ["ndvi"%string] tile_disk).2).
  apply run_eq. vm_compute. reflexivity.
Defined.

(** Witness of X20: the tile converted without interaction. *)
Lemma tile_conversion_without_interaction :
  ∃ r,
    Answered ndvi_converted ["all"%string] = Answered r ["all"%string]
    ∧ (status r = "error"%string ∧ output_files r = None
       ∨ status r = "success"%string
         ∧ ∃ l, l ≠ [] ∧ output_files r = Some l
             ∧ message r = ConvertedFields (length l))
    ∧ ((∀ x, fs tile_disk !! hdf_path ≠ Some (Hdf x)) →
       fs (convert_with_user_selection hdf_path None false ["all"%string]
             tile_disk).2 = fs tile_disk
       ∧ (message r = HdfFileNotFound hdf_path ∨ message r = NoDataFields)).
Proof.
  apply (conversion_without_interaction_reads_no_input hdf_path None
           ["all"%string] tile_disk).
  apply run_eq. vm_compute. reflexivity.
Defined.
(** Witness of X24: the comparison of the tile with itself alone. *)
Lemma comparison_of_the_tile :
  ∃ c lg,
    compare_hdf_files [hdf_path] tile_disk
    = (Ret (Some c),
       {| os := os tile_disk; fs := fs tile_disk;
          log := log tile_disk ++ lg |})
    ∧ map fi_path (file_infos c) = [hdf_path]
    ∧ total_files c = length [hdf_path]
    ∧ (all_fields_same c = true
       ↔ ∀ i j, i ∈ file_infos c → j ∈ file_infos c →
                field_names i = field_names j).
Proof. by apply (comparison_of_files [hdf_path] tile_disk). Defined.
End PromptWitnesses.

Section DateWitnesses.
Import PyStr PyNum ModisDate Calendar.

(** Witness of X7: day 209 of 2015 is July 28th. *)
Lemma date_of_day_209_of_2015 :
  parse_modis_date "MOD13Q1.A2015209.h12v04.061.hdf"
  = Some "20150728"%string.
Proof.
  apply (modis_date_is_the_calendar_date "MOD13Q1" ".h12v04.061.hdf"
           2015 209).
  - reflexivity.
  - lia.
  - vm_compute. split; discriminate.
  - right. by eexists.
Defined.

(** Witness of X23: day 9 of the year 15, a date of six digits. *)
Lemma date_of_a_year_below_1000 :
  parse_modis_date "X.A0015009.h12v04.hdf" = Some "150109"%string
  ∧ span is_digit "150109" = ("150109"%string, ""%string)
  ∧ (5 <= String.length "150109" <= 8)%nat.
Proof.
  split; [vm_compute; reflexivity|].
  apply (parsed_date_is_a_text_of_digits "X.A0015009.h12v04.hdf").
  vm_compute. reflexivity.
Defined.
End DateWitnesses.

Section AnalysisWitnesses.
Import PyStr PyNum Converter Sample.

(** Witness of X15: the analysis and the bundle of the tile. *)
Lemma tile_analysis_reports_the_resolution :
  ∃ info i res,
    fst (get_modis_projection_info hdf_path tile_disk) = Ret (Some info)
    ∧ fst (analyze_hdf_file hdf_path tile_disk) = Ret i
    ∧ resolution info = Some res
    ∧ fi_resolution_meters i = Some res
    ∧ fi_resolution i = Some (ResMeters res).
Proof.
  destruct tile_info as [info|] eqn:E; [|by vm_compute in E].
  assert (fst (get_modis_projection_info hdf_path tile_disk)
          = Ret (Some info)) as H.
  { rewrite <- E. vm_compute. reflexivity. }
  destruct (analysis_reports_the_resolution_of_the_bundle hdf_path tile_disk
              info H) as (i & res & H1 & H2 & H3 & H4).
  by exists info, i, res.
Defined.
End AnalysisWitnesses.

Section RunSkillWitnesses.
Import PyStr Skill RunSkill Sample.

(** Witness of X25: the request for the tile as a text. *)
Lemma run_skill_on_the_text_of_the_tile :
  run_skill (fun _ => [])
    (StrInput ("input_file=" ++ hdf_path ++ ",output_dir=" ++ "/data"))
    tile_disk
  = run_skill (fun _ => [])
      (DictInput {| input_file := Some hdf_path; output_dir := Some "/data"%string;
                    datasets := None; analyze_only := false |}) tile_disk.
Proof.
  apply (run_skill_reads_its_parameters (fun _ => []) hdf_path "/data"
           tile_disk).
  - repeat split; try reflexivity. by eexists _, _.
  - repeat split; try reflexivity. by eexists _, _.
  - reflexivity.
Defined.
End RunSkillWitnesses.

Section InteractiveWitness.
Import PyStr PyNum Converter Prompt Sample.

(** Witness of X26: the file that no reader can open, with the answers
    [1] and [ALL]. *)
Lemma interactive_conversion_on_broken_disk :
  (∀ a, Ret (Answered (failure ConversionFailed) []) = Ret a →
     a = EndOfInput
     ∨ ∃ rest used,
         a = Answered (failure ConversionFailed) rest
         ∧ used ≠ [] ∧ ["1"; "ALL"]%string = used ++ rest)
  ∧ (Forall (fun line => String.eqb (lower line) "all" = false)
       ["1"; "ALL"]%string →
     Ret (Answered (failure ConversionFailed) []) = Ret EndOfInput
     ∧ fs (convert_with_user_selection hdf_path None true
             ["1"; "ALL"]%string broken_disk).2 = fs broken_disk).
Proof.
  apply (interactive_conversion_of_unreadable_archive hdf_path None
           ["1"; "ALL"]%string broken_disk).
  - vm_compute. eauto.
  - intros x. vm_compute. discriminate.
  - apply run_eq. vm_compute. reflexivity.
Defined.
End InteractiveWitness.

